(** * class_loader: a shallow embedding of the plugin registry, the
      ClassLoader and the MultiLibraryClassLoader

    The development follows the C++ sources file by file:

    - [meta_object.cpp]                   -> the [AbstractMetaObjectBase] operations
    - [class_loader_core.{hpp,cpp}]       -> [Module impl]
    - [class_loader.{hpp,cpp}]            -> [Module ClassLoader]
    - [multi_library_class_loader.{hpp,cpp}] -> [Module MultiLibraryClassLoader]

    Process-global statics (the factory map, the graveyard, the vector of
    open libraries, the loading context, the two latches, the vector of
    shared ClassLoader pointers) are fields of one [State] record which
    every function threads explicitly.  Heap objects are addressed by
    natural numbers; a [ClassLoader *] is an [option nat] whose [None] is
    [nullptr].  Exceptions and undefined behaviour are outcomes of the
    monad [M]. *)

From Stdlib Require Import String ZArith List Lia Bool Sorted OrderedTypeEx.
From stdpp Require Import base option gmap strings list.

Open Scope string_scope.
Open Scope Z_scope.

(** ** std::map<std::string, V>

    Iteration order of a [std::map] is ascending key order, and several
    functions of the library depend on it.  The map is a key-sorted
    association list; [assign] is [m[k] = v], [erase] is [m.erase(k)]. *)

Module StdMap.
Section Defs.
Context {V : Type}.

Fixpoint find (k : string) (m : list (string * V)) : option V :=
  match m with
  | [] => None
  | (k', v) :: m' => if String.eqb k k' then Some v else find k m'
  end.

Fixpoint assign (k : string) (v : V) (m : list (string * V)) : list (string * V) :=
  match m with
  | [] => [(k, v)]
  | (k', v') :: m' =>
      match String.compare k k' with
      | Lt => (k, v) :: (k', v') :: m'
      | Eq => (k, v) :: m'
      | Gt => (k', v') :: assign k v m'
      end
  end.

Fixpoint erase (k : string) (m : list (string * V)) : list (string * V) :=
  match m with
  | [] => []
  | (k', v') :: m' => if String.eqb k k' then m' else (k', v') :: erase k m'
  end.

(** [m[k]] used as an rvalue: a missing key is inserted with the
    value-initialised mapped value [dflt]. *)
Definition index (dflt : V) (k : string) (m : list (string * V)) : V * list (string * V) :=
  match find k m with
  | Some v => (v, m)
  | None => (dflt, assign k dflt m)
  end.

Definition keys (m : list (string * V)) : list string := map fst m.
Definition values (m : list (string * V)) : list V := map snd m.

Definition key_lt (a b : string * V) : Prop := String.compare (fst a) (fst b) = Lt.
Definition ordered (m : list (string * V)) : Prop := Sorted key_lt m.
End Defs.
End StdMap.

Abbreviation stdmap V := (list (string * V)).

(** ** Heap objects *)

(** A [ClassLoader *]; [None] is [nullptr]. *)
Abbreviation loader_ptr := (option nat).

(** [class AbstractMetaObjectBaseImpl] (meta_object.cpp). *)
Record AbstractMetaObjectBaseImpl := {
  associated_class_loaders_ : list loader_ptr;
  associated_library_path_ : string;
  base_class_name_ : string;
  class_name_ : string;
  typeid_base_class_name_ : string
}.

(** The data members of [class ClassLoader] (class_loader.hpp); the two
    counters are C++ [int]s. *)
Record ClassLoaderData := {
  ondemand_load_unload_ : bool;
  library_path_ : string;
  load_ref_count_ : Z;
  plugin_ref_count_ : Z
}.

(** [class MultiLibraryClassLoaderImpl] (multi_library_class_loader.cpp). *)
Record MultiLibraryClassLoaderImpl := {
  enable_ondemand_loadunload_ : bool;
  active_class_loaders_ : stdmap loader_ptr
}.

Definition INT_MAX : Z := 2147483647.
Definition INT_MIN : Z := -2147483648.

(** ** Exceptions (exceptions.hpp) *)

Inductive exn :=
| LibraryLoadException (what : string)
| LibraryUnloadException (what : string)
| CreateClassException (what : string)
| NoClassLoaderExistsException (what : string).

(** ** The logging sink (console_bridge) *)

Inductive LogLevel := LogDebug | LogInform | LogWarn | LogError.

(** One constructor per [CONSOLE_BRIDGE_log*] call site, with the
    arguments of its format string. *)
Inductive LogMsg :=
| MsgCreatingMetaObject (p : nat) (base derived path : string)
| MsgDestroyingMetaObject (p : nat) (base derived path : string)
| MsgInsertingIntoGraveyard (derived base : string) (p : nat)
| MsgRemovingMetaObjects (path : string) (loader : loader_ptr)
| MsgMetaobjectsRemoved
| MsgTaggingExisting (p : nat) (base derived : string) (loader : loader_ptr) (path : string)
| MsgResurrected (derived base : string) (p : nat) (loader : loader_ptr) (path : string)
| MsgPurging (derived base : string) (p : nat) (loader : loader_ptr) (path : string)
| MsgAttemptingToLoad (path : string) (loader : loader_ptr)
| MsgLibraryAlreadyInMemory
| MsgSuccessfullyLoaded (path : string) (handle : nat)
| MsgNoFactoriesCheckingGraveyard (path : string)
| MsgGeneratedNewFactories (path : string)
| MsgCannotUnloadNonPure (path : string)
| MsgUnloading (path : string) (loader : loader_ptr)
| MsgNoMoreMetaObjects (path : string)
| MsgMetaObjectsStillRemain (path : string)
| MsgUnloadUnaware (path : string)
| MsgRegisteringPlugin (derived : string) (loader : loader_ptr) (path : string)
| MsgAlertNonPureLibraryOpened
| MsgNamespaceCollision (derived : string)
| MsgRegistrationComplete (derived : string) (p : nat)
| MsgNoMetaobjectExists (derived : string)
| MsgAlertFactoryHasNoOwner
| MsgCreatedInstance
| MsgConstructingClassLoader (this : nat) (path : string)
| MsgDestroyingClassLoader
| MsgSevereWarningObjectsExist
| MsgCallingOnPluginDeletion
| MsgCannotUnloadUnmanaged (path : string)
| MsgManagedAfterUnmanaged
| MsgMultiAttemptingToCreate (derived : string)
| MsgPluginBanner (message : string).

(** ** The dynamic loader (rcpputils::SharedLibrary), an external
    collaborator

    What a [dlopen] or [dlclose] does is decided outside the library, so
    the operating system is an oracle indexed by the number of calls
    made so far.  A successful open names the registration macros whose
    static initialisers run during it (none when the image was already
    resident); a successful close says whether static destructors ran. *)

Record Registration := {
  reg_derived : string;     (* #Derived *)
  reg_base : string;        (* #Base *)
  reg_typeid_base : string; (* typeid(Base).name() *)
  reg_message : string      (* Message *)
}.

Inductive OpenResult :=
| OpenOk (initialisers : list Registration)
| OpenRuntimeError (what : string)
| OpenBadAlloc (what : string).

Inductive CloseResult :=
| CloseOk (destructors_run : bool)
| CloseRuntimeError (what : string).

Record OS := {
  dl_open : nat -> string -> OpenResult;
  dl_close : nat -> string -> CloseResult
}.

(** ** Process state *)

Record State := {
  (* the heap *)
  meta_objects : gmap nat AbstractMetaObjectBaseImpl;
  class_loaders : gmap nat ClassLoaderData;
  multi_loaders : gmap nat MultiLibraryClassLoaderImpl;
  next_address : nat;
  (* function-local statics of class_loader_core.cpp *)
  factory_map_map : stdmap (stdmap nat);      (* getGlobalPluginBaseToFactoryMapMap *)
  graveyard : list nat;                       (* getMetaObjectGraveyard *)
  loaded_libraries : list (string * nat);     (* getLoadedLibraryVector *)
  currently_loading_library : string;         (* getCurrentlyLoadingLibraryNameReference *)
  currently_active_loader : loader_ptr;       (* getCurrentlyActiveClassLoaderReference *)
  non_pure_plugin_library_opened : bool;      (* hasANonPurePluginLibraryBeenOpenedReference *)
  (* statics of class_loader.cpp and multi_library_class_loader.cpp *)
  has_unmananged_instance_been_created_ : bool;
  class_loader_ptrs_ : list nat;              (* getClassLoaderPtrVectorImpl *)
  (* the g_register_plugin_ holders of the images opened so far *)
  plugin_holders : list (string * nat);
  (* outside world *)
  os : OS;
  os_calls : nat;
  console : list (LogLevel * LogMsg)
}.

(** ** The monad of the embedding *)

Inductive Crash :=
| NullPointer          (* member access through nullptr *)
| DanglingPointer      (* access to a freed or never allocated object *)
| SignedOverflow       (* int arithmetic out of range *)
| AssertionFailed      (* assert(...) *)
| Terminated.          (* an exception leaves a destructor *)

Inductive Outcome (A : Type) :=
| Ret (a : A) (s : State)
| Throw (e : exn) (s : State)
| Undefined (c : Crash).
Arguments Ret {A} a s.
Arguments Throw {A} e s.
Arguments Undefined {A} c.

Definition M (A : Type) : Type := State -> Outcome A.

Definition ret {A} (a : A) : M A := fun s => Ret a s.

Definition bind {A B} (m : M A) (k : A -> M B) : M B :=
  fun s =>
    match m s with
    | Ret a s' => k a s'
    | Throw e s' => Throw e s'
    | Undefined c => Undefined c
    end.

Definition throw {A} (e : exn) : M A := fun s => Throw e s.
Definition crash {A} (c : Crash) : M A := fun _ => Undefined c.
Definition get : M State := fun s => Ret s s.
Definition gets {A} (f : State -> A) : M A := fun s => Ret (f s) s.
Definition modify (f : State -> State) : M unit := fun s => Ret tt (f s).

(** [try { m } catch (...) { h; throw; }] *)
Definition rethrowing {A} (m : M A) (h : M unit) : M A :=
  fun s =>
    match m s with
    | Throw e s' => bind h (fun _ => throw e) s'
    | r => r
    end.

(** A [noexcept] call whose result is dropped: an exception that
    would leave it ends the process ([std::terminate]). *)
Definition noexcept {A} (m : M A) : M unit :=
  fun s =>
    match m s with
    | Ret _ s' => Ret tt s'
    | Throw _ _ => Undefined Terminated
    | Undefined c => Undefined c
    end.

Declare Scope cpp_scope.
Delimit Scope cpp_scope with cpp.
Notation "x <- c1 ;; c2" := (bind c1 (fun x => c2))
  (at level 100, c1 at next level, right associativity) : cpp_scope.
Notation "c1 ;;; c2" := (bind c1 (fun _ => c2))
  (at level 100, right associativity) : cpp_scope.
Open Scope cpp_scope.

(** [for (auto & x : l) body(x);] *)
Fixpoint for_each {A} (l : list A) (body : A -> M unit) : M unit :=
  match l with
  | [] => ret tt
  | x :: l' => body x ;;; for_each l' body
  end.

Definition when (b : bool) (m : M unit) : M unit := if b then m else ret tt.

(** ** Field updates of [State] *)

Definition set_meta_objects v (s : State) : State :=
  {| meta_objects := v; class_loaders := class_loaders s; multi_loaders := multi_loaders s;
     next_address := next_address s; factory_map_map := factory_map_map s;
     graveyard := graveyard s; loaded_libraries := loaded_libraries s;
     currently_loading_library := currently_loading_library s;
     currently_active_loader := currently_active_loader s;
     non_pure_plugin_library_opened := non_pure_plugin_library_opened s;
     has_unmananged_instance_been_created_ := has_unmananged_instance_been_created_ s;
     class_loader_ptrs_ := class_loader_ptrs_ s; plugin_holders := plugin_holders s;
     os := os s; os_calls := os_calls s; console := console s |}.

Definition set_class_loaders v (s : State) : State :=
  {| meta_objects := meta_objects s; class_loaders := v; multi_loaders := multi_loaders s;
     next_address := next_address s; factory_map_map := factory_map_map s;
     graveyard := graveyard s; loaded_libraries := loaded_libraries s;
     currently_loading_library := currently_loading_library s;
     currently_active_loader := currently_active_loader s;
     non_pure_plugin_library_opened := non_pure_plugin_library_opened s;
     has_unmananged_instance_been_created_ := has_unmananged_instance_been_created_ s;
     class_loader_ptrs_ := class_loader_ptrs_ s; plugin_holders := plugin_holders s;
     os := os s; os_calls := os_calls s; console := console s |}.

Definition set_multi_loaders v (s : State) : State :=
  {| meta_objects := meta_objects s; class_loaders := class_loaders s; multi_loaders := v;
     next_address := next_address s; factory_map_map := factory_map_map s;
     graveyard := graveyard s; loaded_libraries := loaded_libraries s;
     currently_loading_library := currently_loading_library s;
     currently_active_loader := currently_active_loader s;
     non_pure_plugin_library_opened := non_pure_plugin_library_opened s;
     has_unmananged_instance_been_created_ := has_unmananged_instance_been_created_ s;
     class_loader_ptrs_ := class_loader_ptrs_ s; plugin_holders := plugin_holders s;
     os := os s; os_calls := os_calls s; console := console s |}.

Definition set_next_address v (s : State) : State :=
  {| meta_objects := meta_objects s; class_loaders := class_loaders s;
     multi_loaders := multi_loaders s; next_address := v;
     factory_map_map := factory_map_map s; graveyard := graveyard s;
     loaded_libraries := loaded_libraries s;
     currently_loading_library := currently_loading_library s;
     currently_active_loader := currently_active_loader s;
     non_pure_plugin_library_opened := non_pure_plugin_library_opened s;
     has_unmananged_instance_been_created_ := has_unmananged_instance_been_created_ s;
     class_loader_ptrs_ := class_loader_ptrs_ s; plugin_holders := plugin_holders s;
     os := os s; os_calls := os_calls s; console := console s |}.

Definition set_factory_map_map v (s : State) : State :=
  {| meta_objects := meta_objects s; class_loaders := class_loaders s;
     multi_loaders := multi_loaders s; next_address := next_address s;
     factory_map_map := v; graveyard := graveyard s;
     loaded_libraries := loaded_libraries s;
     currently_loading_library := currently_loading_library s;
     currently_active_loader := currently_active_loader s;
     non_pure_plugin_library_opened := non_pure_plugin_library_opened s;
     has_unmananged_instance_been_created_ := has_unmananged_instance_been_created_ s;
     class_loader_ptrs_ := class_loader_ptrs_ s; plugin_holders := plugin_holders s;
     os := os s; os_calls := os_calls s; console := console s |}.

Definition set_graveyard v (s : State) : State :=
  {| meta_objects := meta_objects s; class_loaders := class_loaders s;
     multi_loaders := multi_loaders s; next_address := next_address s;
     factory_map_map := factory_map_map s; graveyard := v;
     loaded_libraries := loaded_libraries s;
     currently_loading_library := currently_loading_library s;
     currently_active_loader := currently_active_loader s;
     non_pure_plugin_library_opened := non_pure_plugin_library_opened s;
     has_unmananged_instance_been_created_ := has_unmananged_instance_been_created_ s;
     class_loader_ptrs_ := class_loader_ptrs_ s; plugin_holders := plugin_holders s;
     os := os s; os_calls := os_calls s; console := console s |}.

Definition set_loaded_libraries v (s : State) : State :=
  {| meta_objects := meta_objects s; class_loaders := class_loaders s;
     multi_loaders := multi_loaders s; next_address := next_address s;
     factory_map_map := factory_map_map s; graveyard := graveyard s; loaded_libraries := v;
     currently_loading_library := currently_loading_library s;
     currently_active_loader := currently_active_loader s;
     non_pure_plugin_library_opened := non_pure_plugin_library_opened s;
     has_unmananged_instance_been_created_ := has_unmananged_instance_been_created_ s;
     class_loader_ptrs_ := class_loader_ptrs_ s; plugin_holders := plugin_holders s;
     os := os s; os_calls := os_calls s; console := console s |}.

Definition set_currently_loading_library v (s : State) : State :=
  {| meta_objects := meta_objects s; class_loaders := class_loaders s;
     multi_loaders := multi_loaders s; next_address := next_address s;
     factory_map_map := factory_map_map s; graveyard := graveyard s;
     loaded_libraries := loaded_libraries s; currently_loading_library := v;
     currently_active_loader := currently_active_loader s;
     non_pure_plugin_library_opened := non_pure_plugin_library_opened s;
     has_unmananged_instance_been_created_ := has_unmananged_instance_been_created_ s;
     class_loader_ptrs_ := class_loader_ptrs_ s; plugin_holders := plugin_holders s;
     os := os s; os_calls := os_calls s; console := console s |}.

Definition set_currently_active_loader v (s : State) : State :=
  {| meta_objects := meta_objects s; class_loaders := class_loaders s;
     multi_loaders := multi_loaders s; next_address := next_address s;
     factory_map_map := factory_map_map s; graveyard := graveyard s;
     loaded_libraries := loaded_libraries s;
     currently_loading_library := currently_loading_library s;
     currently_active_loader := v;
     non_pure_plugin_library_opened := non_pure_plugin_library_opened s;
     has_unmananged_instance_been_created_ := has_unmananged_instance_been_created_ s;
     class_loader_ptrs_ := class_loader_ptrs_ s; plugin_holders := plugin_holders s;
     os := os s; os_calls := os_calls s; console := console s |}.

Definition set_non_pure_plugin_library_opened v (s : State) : State :=
  {| meta_objects := meta_objects s; class_loaders := class_loaders s;
     multi_loaders := multi_loaders s; next_address := next_address s;
     factory_map_map := factory_map_map s; graveyard := graveyard s;
     loaded_libraries := loaded_libraries s;
     currently_loading_library := currently_loading_library s;
     currently_active_loader := currently_active_loader s;
     non_pure_plugin_library_opened := v;
     has_unmananged_instance_been_created_ := has_unmananged_instance_been_created_ s;
     class_loader_ptrs_ := class_loader_ptrs_ s; plugin_holders := plugin_holders s;
     os := os s; os_calls := os_calls s; console := console s |}.

Definition set_has_unmananged_instance_been_created v (s : State) : State :=
  {| meta_objects := meta_objects s; class_loaders := class_loaders s;
     multi_loaders := multi_loaders s; next_address := next_address s;
     factory_map_map := factory_map_map s; graveyard := graveyard s;
     loaded_libraries := loaded_libraries s;
     currently_loading_library := currently_loading_library s;
     currently_active_loader := currently_active_loader s;
     non_pure_plugin_library_opened := non_pure_plugin_library_opened s;
     has_unmananged_instance_been_created_ := v;
     class_loader_ptrs_ := class_loader_ptrs_ s; plugin_holders := plugin_holders s;
     os := os s; os_calls := os_calls s; console := console s |}.

Definition set_class_loader_ptrs v (s : State) : State :=
  {| meta_objects := meta_objects s; class_loaders := class_loaders s;
     multi_loaders := multi_loaders s; next_address := next_address s;
     factory_map_map := factory_map_map s; graveyard := graveyard s;
     loaded_libraries := loaded_libraries s;
     currently_loading_library := currently_loading_library s;
     currently_active_loader := currently_active_loader s;
     non_pure_plugin_library_opened := non_pure_plugin_library_opened s;
     has_unmananged_instance_been_created_ := has_unmananged_instance_been_created_ s;
     class_loader_ptrs_ := v; plugin_holders := plugin_holders s; os := os s;
     os_calls := os_calls s; console := console s |}.

Definition set_plugin_holders v (s : State) : State :=
  {| meta_objects := meta_objects s; class_loaders := class_loaders s;
     multi_loaders := multi_loaders s; next_address := next_address s;
     factory_map_map := factory_map_map s; graveyard := graveyard s;
     loaded_libraries := loaded_libraries s;
     currently_loading_library := currently_loading_library s;
     currently_active_loader := currently_active_loader s;
     non_pure_plugin_library_opened := non_pure_plugin_library_opened s;
     has_unmananged_instance_been_created_ := has_unmananged_instance_been_created_ s;
     class_loader_ptrs_ := class_loader_ptrs_ s; plugin_holders := v; os := os s;
     os_calls := os_calls s; console := console s |}.

Definition set_os_calls v (s : State) : State :=
  {| meta_objects := meta_objects s; class_loaders := class_loaders s;
     multi_loaders := multi_loaders s; next_address := next_address s;
     factory_map_map := factory_map_map s; graveyard := graveyard s;
     loaded_libraries := loaded_libraries s;
     currently_loading_library := currently_loading_library s;
     currently_active_loader := currently_active_loader s;
     non_pure_plugin_library_opened := non_pure_plugin_library_opened s;
     has_unmananged_instance_been_created_ := has_unmananged_instance_been_created_ s;
     class_loader_ptrs_ := class_loader_ptrs_ s; plugin_holders := plugin_holders s;
     os := os s; os_calls := v; console := console s |}.

Definition set_console v (s : State) : State :=
  {| meta_objects := meta_objects s; class_loaders := class_loaders s;
     multi_loaders := multi_loaders s; next_address := next_address s;
     factory_map_map := factory_map_map s; graveyard := graveyard s;
     loaded_libraries := loaded_libraries s;
     currently_loading_library := currently_loading_library s;
     currently_active_loader := currently_active_loader s;
     non_pure_plugin_library_opened := non_pure_plugin_library_opened s;
     has_unmananged_instance_been_created_ := has_unmananged_instance_been_created_ s;
     class_loader_ptrs_ := class_loader_ptrs_ s; plugin_holders := plugin_holders s;
     os := os s; os_calls := os_calls s; console := v |}.

(** ** Memory access and logging *)

Definition log (lvl : LogLevel) (msg : LogMsg) : M unit :=
  modify (fun s => set_console (console s ++ [(lvl, msg)])%list s).

(** [operator new]: addresses are never reused. *)
Definition fresh_address : M nat :=
  fun s => Ret (next_address s) (set_next_address (S (next_address s)) s).

Definition read_meta (p : nat) : M AbstractMetaObjectBaseImpl :=
  fun s => match meta_objects s !! p with
           | Some o => Ret o s
           | None => Undefined DanglingPointer
           end.

Definition write_meta (p : nat) (o : AbstractMetaObjectBaseImpl) : M unit :=
  modify (fun s => set_meta_objects (<[p := o]> (meta_objects s)) s).

Definition read_loader (p : nat) : M ClassLoaderData :=
  fun s => match class_loaders s !! p with
           | Some c => Ret c s
           | None => Undefined DanglingPointer
           end.

Definition write_loader (p : nat) (c : ClassLoaderData) : M unit :=
  modify (fun s => set_class_loaders (<[p := c]> (class_loaders s)) s).

Definition read_multi (p : nat) : M MultiLibraryClassLoaderImpl :=
  fun s => match multi_loaders s !! p with
           | Some m => Ret m s
           | None => Undefined DanglingPointer
           end.

Definition write_multi (p : nat) (m : MultiLibraryClassLoaderImpl) : M unit :=
  modify (fun s => set_multi_loaders (<[p := m]> (multi_loaders s)) s).

(** [p->f(...)] for a possibly null [ClassLoader * p]. *)
Definition arrow {A} (p : loader_ptr) (f : nat -> M A) : M A :=
  match p with
  | Some this => f this
  | None => crash NullPointer
  end.

(** Arithmetic on [int]: a result outside the range of the type is
    undefined behaviour. *)
Definition int_result (z : Z) : M Z :=
  if (INT_MIN <=? z) && (z <=? INT_MAX) then ret z else crash SignedOverflow.

Definition ptr_eqb (a b : loader_ptr) : bool := bool_decide (a = b).

(** ** meta_object.cpp *)

Module AbstractMetaObjectBase.

Definition with_owners (v : list loader_ptr) (o : AbstractMetaObjectBaseImpl) :=
  {| associated_class_loaders_ := v;
     associated_library_path_ := associated_library_path_ o;
     base_class_name_ := base_class_name_ o;
     class_name_ := class_name_ o;
     typeid_base_class_name_ := typeid_base_class_name_ o |}.

(** The constructor body. *)
Definition init (class_name base_class_name typeid_base_class_name : string)
  : AbstractMetaObjectBaseImpl :=
  {| associated_class_loaders_ := [];
     associated_library_path_ := "Unknown";
     base_class_name_ := base_class_name;
     class_name_ := class_name;
     typeid_base_class_name_ := typeid_base_class_name |}.

Definition className := class_name_.
Definition baseClassName := base_class_name_.
Definition typeidBaseClassName := typeid_base_class_name_.
Definition getAssociatedLibraryPath := associated_library_path_.

Definition setAssociatedLibraryPath (library_path : string) (o : AbstractMetaObjectBaseImpl) :=
  {| associated_class_loaders_ := associated_class_loaders_ o;
     associated_library_path_ := library_path;
     base_class_name_ := base_class_name_ o;
     class_name_ := class_name_ o;
     typeid_base_class_name_ := typeid_base_class_name_ o |}.

(** [std::find(v.begin(), v.end(), loader) != v.end()] *)
Fixpoint found (loader : loader_ptr) (v : list loader_ptr) : bool :=
  match v with
  | [] => false
  | x :: v' => if ptr_eqb x loader then true else found loader v'
  end.

(** [v.erase(std::find(v.begin(), v.end(), loader))] when found. *)
Fixpoint erase_found (loader : loader_ptr) (v : list loader_ptr) : list loader_ptr :=
  match v with
  | [] => []
  | x :: v' => if ptr_eqb x loader then v' else x :: erase_found loader v'
  end.

Definition addOwningClassLoader (loader : loader_ptr) (o : AbstractMetaObjectBaseImpl) :=
  let v := associated_class_loaders_ o in
  if negb (found loader v) then with_owners (v ++ [loader])%list o else o.

Definition removeOwningClassLoader (loader : loader_ptr) (o : AbstractMetaObjectBaseImpl) :=
  let v := associated_class_loaders_ o in
  if found loader v then with_owners (erase_found loader v) o else o.

Definition isOwnedBy (loader : loader_ptr) (o : AbstractMetaObjectBaseImpl) : bool :=
  found loader (associated_class_loaders_ o).

Definition isOwnedByAnybody (o : AbstractMetaObjectBaseImpl) : bool :=
  (0 <? length (associated_class_loaders_ o))%nat.

Definition getAssociatedClassLoadersCount (o : AbstractMetaObjectBaseImpl) : nat :=
  length (associated_class_loaders_ o).

Definition getAssociatedClassLoader (index : nat) (o : AbstractMetaObjectBaseImpl) :=
  associated_class_loaders_ o !! index.

End AbstractMetaObjectBase.

(** ** class_loader_core.hpp and class_loader_core.cpp *)

Module impl.

Import AbstractMetaObjectBase.

(** *** Global storage *)

(** Returns the [FactoryMap &] for a base class, creating an empty one
    on first use. *)
Definition getFactoryMapForBaseClass (typeid_base_class_name : string) : M (stdmap nat) :=
  s <- get ;;
  match StdMap.find typeid_base_class_name (factory_map_map s) with
  | Some factory_map => ret factory_map
  | None =>
      modify (set_factory_map_map
                (StdMap.assign typeid_base_class_name [] (factory_map_map s))) ;;;
      ret []
  end.

(** A write through the reference returned by [getFactoryMapForBaseClass]. *)
Definition storeFactoryMap (typeid_base_class_name : string) (factory_map : stdmap nat) : M unit :=
  modify (fun s => set_factory_map_map
                     (StdMap.assign typeid_base_class_name factory_map (factory_map_map s)) s).

Definition getCurrentlyLoadingLibraryName : M string := gets currently_loading_library.
Definition setCurrentlyLoadingLibraryName (library_name : string) : M unit :=
  modify (set_currently_loading_library library_name).

Definition getCurrentlyActiveClassLoader : M loader_ptr := gets currently_active_loader.
Definition setCurrentlyActiveClassLoader (loader : loader_ptr) : M unit :=
  modify (set_currently_active_loader loader).

Definition hasANonPurePluginLibraryBeenOpened : M bool := gets non_pure_plugin_library_opened.
Definition hasANonPurePluginLibraryBeenOpened_set (hasIt : bool) : M unit :=
  modify (set_non_pure_plugin_library_opened hasIt).

(** *** MetaObject search / insert / removal / query *)

Definition allMetaObjects_of (factories : stdmap nat) : list nat := StdMap.values factories.

Definition allMetaObjects : M (list nat) :=
  gets (fun s => concat (map (fun it => allMetaObjects_of (snd it)) (factory_map_map s))).

Fixpoint filterAllMetaObjectsOwnedBy (to_filter : list nat) (owner : loader_ptr) : M (list nat) :=
  match to_filter with
  | [] => ret []
  | f :: rest =>
      o <- read_meta f ;;
      filtered <- filterAllMetaObjectsOwnedBy rest owner ;;
      ret (if isOwnedBy owner o then f :: filtered else filtered)
  end.

Fixpoint filterAllMetaObjectsAssociatedWithLibrary (to_filter : list nat) (library_path : string)
  : M (list nat) :=
  match to_filter with
  | [] => ret []
  | f :: rest =>
      o <- read_meta f ;;
      filtered <- filterAllMetaObjectsAssociatedWithLibrary rest library_path ;;
      ret (if String.eqb (getAssociatedLibraryPath o) library_path then f :: filtered else filtered)
  end.

Definition allMetaObjectsForClassLoader (owner : loader_ptr) : M (list nat) :=
  all <- allMetaObjects ;; filterAllMetaObjectsOwnedBy all owner.

Definition allMetaObjectsForLibrary (library_path : string) : M (list nat) :=
  all <- allMetaObjects ;; filterAllMetaObjectsAssociatedWithLibrary all library_path.

Definition allMetaObjectsForLibraryOwnedBy (library_path : string) (owner : loader_ptr)
  : M (list nat) :=
  objs <- allMetaObjectsForLibrary library_path ;; filterAllMetaObjectsOwnedBy objs owner.

Definition insertMetaObjectIntoGraveyard (meta_obj : nat) : M unit :=
  o <- read_meta meta_obj ;;
  log LogDebug (MsgInsertingIntoGraveyard (className o) (baseClassName o) meta_obj) ;;;
  modify (fun s => set_graveyard (graveyard s ++ [meta_obj])%list s).

(** The three-argument overload; the [FactoryMap &] argument is named by
    its key in the global map.  Erasing the element under the iterator
    does not disturb the rest of the traversal, so the loop runs over
    the entries present on entry. *)
Definition destroyMetaObjectsForLibrary_in
    (library_path : string) (base : string) (loader : loader_ptr) : M unit :=
  factories <- getFactoryMapForBaseClass base ;;
  for_each factories (fun factory_itr =>
    let meta_obj := snd factory_itr in
    o <- read_meta meta_obj ;;
    if String.eqb (getAssociatedLibraryPath o) library_path && isOwnedBy loader o then
      write_meta meta_obj (removeOwningClassLoader loader o) ;;;
      o' <- read_meta meta_obj ;;
      if negb (isOwnedByAnybody o') then
        now <- getFactoryMapForBaseClass base ;;
        storeFactoryMap base (StdMap.erase (fst factory_itr) now) ;;;
        insertMetaObjectIntoGraveyard meta_obj
      else ret tt
    else ret tt).

Definition destroyMetaObjectsForLibrary (library_path : string) (loader : loader_ptr) : M unit :=
  log LogDebug (MsgRemovingMetaObjects library_path loader) ;;;
  factory_map_map <- gets factory_map_map ;;
  for_each factory_map_map (fun it =>
    destroyMetaObjectsForLibrary_in library_path (fst it) loader) ;;;
  log LogDebug MsgMetaobjectsRemoved.

Definition areThereAnyExistingMetaObjectsForLibrary (library_path : string) : M bool :=
  objs <- allMetaObjectsForLibrary library_path ;;
  ret (0 <? length objs)%nat.

(** The iterator returned by [findLoadedLibrary]: the first pair whose
    path matches, or [None] for [end()]. *)
Fixpoint findLoadedLibrary_in (library_path : string) (open_libraries : list (string * nat))
  : option (string * nat) :=
  match open_libraries with
  | [] => None
  | it :: rest =>
      if String.eqb (fst it) library_path then Some it
      else findLoadedLibrary_in library_path rest
  end.

Definition findLoadedLibrary (library_path : string) : M (option (string * nat)) :=
  gets (fun s => findLoadedLibrary_in library_path (loaded_libraries s)).

(** [open_libraries.erase(itr)] for the iterator found above. *)
Fixpoint eraseLoadedLibrary (library_path : string) (open_libraries : list (string * nat))
  : list (string * nat) :=
  match open_libraries with
  | [] => []
  | it :: rest =>
      if String.eqb (fst it) library_path then rest
      else it :: eraseLoadedLibrary library_path rest
  end.

Definition isLibraryLoadedByAnybody (library_path : string) : M bool :=
  itr <- findLoadedLibrary library_path ;;
  match itr with
  | Some _ => ret true
  | None => ret false
  end.

Definition isLibraryLoaded (library_path : string) (loader : loader_ptr) : M bool :=
  is_lib_loaded_by_anyone <- isLibraryLoadedByAnybody library_path ;;
  for_lib <- allMetaObjectsForLibrary library_path ;;
  let num_meta_objs_for_lib := length for_lib in
  bound <- allMetaObjectsForLibraryOwnedBy library_path loader ;;
  let num_meta_objs_for_lib_bound_to_loader := length bound in
  let are_meta_objs_bound_to_loader :=
    if (0 =? num_meta_objs_for_lib)%nat then true
    else (num_meta_objs_for_lib_bound_to_loader <=? num_meta_objs_for_lib)%nat in
  ret (is_lib_loaded_by_anyone && are_meta_objs_bound_to_loader).

(** [std::find(all_libs.begin(), all_libs.end(), lib_path) == all_libs.end()] *)
Definition absent (x : string) (l : list string) : bool := negb (existsb (String.eqb x) l).

Definition getAllLibrariesUsedByClassLoader (loader : loader_ptr) : M (list string) :=
  all_loader_meta_objs <- allMetaObjectsForClassLoader loader ;;
  (fix walk (objs : list nat) (all_libs : list string) : M (list string) :=
     match objs with
     | [] => ret all_libs
     | meta_obj :: rest =>
         o <- read_meta meta_obj ;;
         let lib_path := getAssociatedLibraryPath o in
         walk rest (if absent lib_path all_libs then (all_libs ++ [lib_path])%list else all_libs)
     end) all_loader_meta_objs [].

(** The last argument of the three log calls below:
    [nullptr == loader ? "NULL" : loader->getLibraryPath().c_str()]. *)
Definition loaderPathOrNULL (loader : loader_ptr) : M string :=
  match loader with
  | None => ret "NULL"
  | Some this => c <- read_loader this ;; ret (library_path_ c)
  end.

Definition addClassLoaderOwnerForAllExistingMetaObjectsForLibrary
    (library_path : string) (loader : loader_ptr) : M unit :=
  all_meta_objs <- allMetaObjectsForLibrary library_path ;;
  for_each all_meta_objs (fun meta_obj =>
    o <- read_meta meta_obj ;;
    path <- loaderPathOrNULL loader ;;
    log LogDebug (MsgTaggingExisting meta_obj (baseClassName o) (className o) loader path) ;;;
    write_meta meta_obj (addOwningClassLoader loader o)).

Definition revivePreviouslyCreateMetaobjectsFromGraveyard
    (library_path : string) (loader : loader_ptr) : M unit :=
  graveyard <- gets graveyard ;;
  for_each graveyard (fun obj =>
    o <- read_meta obj ;;
    if String.eqb (getAssociatedLibraryPath o) library_path then
      path <- loaderPathOrNULL loader ;;
      log LogDebug (MsgResurrected (className o) (baseClassName o) obj loader path) ;;;
      write_meta obj (addOwningClassLoader loader o) ;;;
      (if String.eqb (typeidBaseClassName o) "UNSET" then crash AssertionFailed else ret tt) ;;;
      factory <- getFactoryMapForBaseClass (typeidBaseClassName o) ;;
      storeFactoryMap (typeidBaseClassName o) (StdMap.assign (className o) obj factory)
    else ret tt).

(** The graveyard entries are erased from the vector; the objects
    themselves are not freed here. *)
Fixpoint purgeGraveyard_loop (library_path : string) (loader : loader_ptr) (g : list nat)
  : M (list nat) :=
  match g with
  | [] => ret []
  | obj :: rest =>
      o <- read_meta obj ;;
      if String.eqb (getAssociatedLibraryPath o) library_path then
        path <- loaderPathOrNULL loader ;;
        log LogDebug (MsgPurging (className o) (baseClassName o) obj loader path) ;;;
        purgeGraveyard_loop library_path loader rest
      else
        kept <- purgeGraveyard_loop library_path loader rest ;;
        ret (obj :: kept)
  end.

Definition purgeGraveyardOfMetaobjects (library_path : string) (loader : loader_ptr) : M unit :=
  all_meta_objs <- allMetaObjects ;;
  graveyard <- gets graveyard ;;
  kept <- purgeGraveyard_loop library_path loader graveyard ;;
  modify (set_graveyard kept).

(** *** Plugin functions (class_loader_core.hpp) *)

(** [registerPlugin<Derived, Base>(class_name, base_class_name)]; the
    template argument [Base] is represented by [typeid(Base).name()].
    The result is the address held by the returned [UniquePtr]. *)
Definition registerPlugin (Base : string) (class_name base_class_name : string) : M nat :=
  active <- getCurrentlyActiveClassLoader ;;
  loading <- getCurrentlyLoadingLibraryName ;;
  log LogDebug (MsgRegisteringPlugin class_name active loading) ;;;
  (match active with
   | None =>
       log LogDebug MsgAlertNonPureLibraryOpened ;;;
       hasANonPurePluginLibraryBeenOpened_set true
   | Some _ => ret tt
   end) ;;;
  (* new impl::MetaObject<Derived, Base>(class_name, base_class_name) *)
  new_factory <- fresh_address ;;
  let fresh := init class_name base_class_name Base in
  write_meta new_factory fresh ;;;
  log LogDebug (MsgCreatingMetaObject new_factory (baseClassName fresh) (className fresh)
                  (getAssociatedLibraryPath fresh)) ;;;
  active <- getCurrentlyActiveClassLoader ;;
  o <- read_meta new_factory ;;
  write_meta new_factory (addOwningClassLoader active o) ;;;
  loading <- getCurrentlyLoadingLibraryName ;;
  o <- read_meta new_factory ;;
  write_meta new_factory (setAssociatedLibraryPath loading o) ;;;
  factoryMap <- getFactoryMapForBaseClass Base ;;
  (match StdMap.find class_name factoryMap with
   | Some _ => log LogWarn (MsgNamespaceCollision class_name)
   | None => ret tt
   end) ;;;
  storeFactoryMap Base (StdMap.assign class_name new_factory factoryMap) ;;;
  log LogDebug (MsgRegistrationComplete class_name new_factory) ;;;
  ret new_factory.

(** The deleter installed in the [UniquePtr] returned by
    [registerPlugin]. *)
Fixpoint erase_first_pointer (p : nat) (v : list nat) : list nat :=
  match v with
  | [] => []
  | x :: v' => if Nat.eqb x p then v' else x :: erase_first_pointer p v'
  end.

Fixpoint erase_first_factory (p : nat) (factory_map : stdmap nat) : stdmap nat :=
  match factory_map with
  | [] => []
  | it :: rest => if Nat.eqb (snd it) p then rest else it :: erase_first_factory p rest
  end.

Fixpoint erase_first_slot (p : nat) (factory_map_map : stdmap (stdmap nat)) : stdmap (stdmap nat) :=
  match factory_map_map with
  | [] => []
  | item :: rest =>
      if existsb (fun it => Nat.eqb (snd it) p) (snd item)
      then (fst item, erase_first_factory p (snd item)) :: rest
      else item :: erase_first_slot p rest
  end.

Definition deleter (p : nat) : M unit :=
  modify (fun s => set_graveyard (erase_first_pointer p (graveyard s)) s) ;;;
  modify (fun s => set_factory_map_map (erase_first_slot p (factory_map_map s)) s) ;;;
  (* delete (p) *)
  o <- read_meta p ;;
  log LogDebug (MsgDestroyingMetaObject p (baseClassName o) (className o)
                  (getAssociatedLibraryPath o)) ;;;
  modify (fun s => set_meta_objects (delete p (meta_objects s)) s).

(** *** register_macro.hpp: the constructor of [ProxyExec##UniqueID],
    run as a static initialiser of the image opened as [image]. *)
Definition ProxyExec (image : string) (r : Registration) : M unit :=
  when (negb (String.eqb (reg_message r) ""))
       (log LogInform (MsgPluginBanner (reg_message r))) ;;;
  holder <- registerPlugin (reg_typeid_base r) (reg_derived r) (reg_base r) ;;
  modify (fun s => set_plugin_holders (plugin_holders s ++ [(image, holder)])%list s).

(** *** rcpputils::SharedLibrary *)

Inductive std_exception := runtime_error (what : string) | bad_alloc (what : string).

Definition os_call : M nat :=
  fun s => Ret (os_calls s) (set_os_calls (S (os_calls s)) s).

(** [std::make_shared<rcpputils::SharedLibrary>(library_path.c_str())] *)
Definition SharedLibrary_make_shared (library_path : string) : M (nat + std_exception) :=
  n <- os_call ;;
  os <- gets os ;;
  match dl_open os n library_path with
  | OpenOk initialisers =>
      for_each initialisers (ProxyExec library_path) ;;;
      ret (inl n)
  | OpenRuntimeError what => ret (inr (runtime_error what))
  | OpenBadAlloc what => ret (inr (bad_alloc what))
  end.

(** [library->unload_library()]; static destructors run in reverse
    order of construction.  [Some what] is a thrown
    [std::runtime_error]. *)
Definition SharedLibrary_unload_library (library_path : string) : M (option string) :=
  n <- os_call ;;
  os <- gets os ;;
  match dl_close os n library_path with
  | CloseOk true =>
      holders <- gets plugin_holders ;;
      let mine := List.filter (fun h => String.eqb (fst h) library_path) holders in
      modify (set_plugin_holders
                (List.filter (fun h => negb (String.eqb (fst h) library_path)) holders)) ;;;
      for_each (rev mine) (fun h => deleter (snd h)) ;;;
      ret None
  | CloseOk false => ret None
  | CloseRuntimeError what => ret (Some what)
  end.

(** *** Library load and unload *)

Definition loadLibrary (library_path : string) (loader : loader_ptr) : M unit :=
  log LogDebug (MsgAttemptingToLoad library_path loader) ;;;
  already <- isLibraryLoadedByAnybody library_path ;;
  if already then
    log LogDebug MsgLibraryAlreadyInMemory ;;;
    addClassLoaderOwnerForAllExistingMetaObjectsForLibrary library_path loader
  else
    setCurrentlyActiveClassLoader loader ;;;
    setCurrentlyLoadingLibraryName library_path ;;;
    opened <- SharedLibrary_make_shared library_path ;;
    match opened with
    | inr (runtime_error what) =>
        setCurrentlyLoadingLibraryName "" ;;;
        setCurrentlyActiveClassLoader None ;;;
        throw (LibraryLoadException ("Could not load library " ++ what))
    | inr (bad_alloc what) =>
        setCurrentlyLoadingLibraryName "" ;;;
        setCurrentlyActiveClassLoader None ;;;
        throw (LibraryLoadException ("Bad alloc " ++ what))
    | inl library_handle =>
        setCurrentlyLoadingLibraryName "" ;;;
        setCurrentlyActiveClassLoader None ;;;
        log LogDebug (MsgSuccessfullyLoaded library_path library_handle) ;;;
        lib_objs <- allMetaObjectsForLibrary library_path ;;
        (if (0 =? length lib_objs)%nat then
           log LogDebug (MsgNoFactoriesCheckingGraveyard library_path) ;;;
           revivePreviouslyCreateMetaobjectsFromGraveyard library_path loader
         else
           log LogDebug (MsgGeneratedNewFactories library_path)) ;;;
        purgeGraveyardOfMetaobjects library_path loader ;;;
        modify (fun s => set_loaded_libraries
                           (loaded_libraries s ++ [(library_path, library_handle)])%list s)
    end.

Definition unloadLibrary (library_path : string) (loader : loader_ptr) : M unit :=
  non_pure <- hasANonPurePluginLibraryBeenOpened ;;
  if non_pure then
    log LogDebug (MsgCannotUnloadNonPure library_path)
  else
    log LogDebug (MsgUnloading library_path loader) ;;;
    itr <- findLoadedLibrary library_path ;;
    match itr with
    | Some (library_path, library) =>
        destroyMetaObjectsForLibrary library_path loader ;;;
        remaining <- areThereAnyExistingMetaObjectsForLibrary library_path ;;
        if negb remaining then
          log LogDebug (MsgNoMoreMetaObjects library_path) ;;;
          closed <- SharedLibrary_unload_library library_path ;;
          match closed with
          | Some what =>
              throw (LibraryUnloadException
                       ("Could not unload library (rcpputils exception = " ++ what ++ ")"))
          | None =>
              modify (fun s => set_loaded_libraries
                                 (eraseLoadedLibrary library_path (loaded_libraries s)) s)
          end
        else
          log LogDebug (MsgMetaObjectsStillRemain library_path)
    | None =>
        log LogDebug (MsgUnloadUnaware library_path)
    end.

(** *** createInstance<Base> and getAvailableClasses<Base> *)

Definition createInstance (Base : string) (derived_class_name : string) (loader : loader_ptr)
  : M unit :=
  factoryMap <- getFactoryMapForBaseClass Base ;;
  factory <-
    match StdMap.find derived_class_name factoryMap with
    | Some p =>
        (* dynamic_cast<impl::AbstractMetaObject<Base> *>(factoryMap[derived_class_name]) *)
        o <- read_meta p ;;
        ret (if String.eqb (typeidBaseClassName o) Base then Some (p, o) else None)
    | None =>
        log LogError (MsgNoMetaobjectExists derived_class_name) ;;;
        ret None
    end ;;
  match factory with
  | Some (p, o) =>
      if isOwnedBy loader o then
        log LogDebug MsgCreatedInstance
      else if isOwnedBy None o then
        log LogDebug MsgAlertFactoryHasNoOwner ;;;
        log LogDebug MsgCreatedInstance
      else
        throw (CreateClassException ("Could not create instance of type " ++ derived_class_name))
  | None =>
      throw (CreateClassException ("Could not create instance of type " ++ derived_class_name))
  end.

Fixpoint getAvailableClasses_loop (factory_map : stdmap nat) (loader : loader_ptr)
    (classes classes_with_no_owner : list string) : M (list string * list string) :=
  match factory_map with
  | [] => ret (classes, classes_with_no_owner)
  | it :: rest =>
      o <- read_meta (snd it) ;;
      if isOwnedBy loader o then
        getAvailableClasses_loop rest loader (classes ++ [fst it])%list classes_with_no_owner
      else if isOwnedBy None o then
        getAvailableClasses_loop rest loader classes (classes_with_no_owner ++ [fst it])%list
      else
        getAvailableClasses_loop rest loader classes classes_with_no_owner
  end.

Definition getAvailableClasses (Base : string) (loader : loader_ptr) : M (list string) :=
  factory_map <- getFactoryMapForBaseClass Base ;;
  r <- getAvailableClasses_loop factory_map loader [] [] ;;
  ret (fst r ++ snd r)%list.

End impl.

(** ** class_loader.hpp and class_loader.cpp *)

Module ClassLoader.

Definition with_load_ref_count (n : Z) (c : ClassLoaderData) : ClassLoaderData :=
  {| ondemand_load_unload_ := ondemand_load_unload_ c;
     library_path_ := library_path_ c;
     load_ref_count_ := n;
     plugin_ref_count_ := plugin_ref_count_ c |}.

Definition with_plugin_ref_count (n : Z) (c : ClassLoaderData) : ClassLoaderData :=
  {| ondemand_load_unload_ := ondemand_load_unload_ c;
     library_path_ := library_path_ c;
     load_ref_count_ := load_ref_count_ c;
     plugin_ref_count_ := n |}.

Definition hasUnmanagedInstanceBeenCreated : M bool :=
  gets has_unmananged_instance_been_created_.

Definition setUnmanagedInstanceBeenCreated (state : bool) : M unit :=
  modify (set_has_unmananged_instance_been_created state).

Definition getLibraryPath (this : nat) : M string :=
  c <- read_loader this ;; ret (library_path_ c).

Definition isLibraryLoaded (this : nat) : M bool :=
  path <- getLibraryPath this ;; impl.isLibraryLoaded path (Some this).

Definition isLibraryLoadedByAnyClassloader (this : nat) : M bool :=
  path <- getLibraryPath this ;; impl.isLibraryLoadedByAnybody path.

Definition isOnDemandLoadUnloadEnabled (this : nat) : M bool :=
  c <- read_loader this ;; ret (ondemand_load_unload_ c).

Definition loadLibrary (this : nat) : M unit :=
  path <- getLibraryPath this ;;
  if String.eqb path "" then ret tt
  else
    (* ++load_ref_count_ *)
    c <- read_loader this ;;
    n <- int_result (load_ref_count_ c + 1) ;;
    write_loader this (with_load_ref_count n c) ;;;
    path <- getLibraryPath this ;;
    impl.loadLibrary path (Some this).

(** The two mutexes only serialise threads; [lock_plugin_ref_count]
    selects whether the first one is taken and has no other effect. *)
Definition unloadLibraryInternal (this : nat) (lock_plugin_ref_count : bool) : M Z :=
  c <- read_loader this ;;
  (if 0 <? plugin_ref_count_ c then
     log LogWarn MsgSevereWarningObjectsExist
   else
     n <- int_result (load_ref_count_ c - 1) ;;
     write_loader this (with_load_ref_count n c) ;;;
     if n =? 0 then
       path <- getLibraryPath this ;;
       impl.unloadLibrary path (Some this)
     else if n <? 0 then
       c <- read_loader this ;;
       write_loader this (with_load_ref_count 0 c)
     else ret tt) ;;;
  c <- read_loader this ;;
  ret (load_ref_count_ c).

Definition unloadLibrary (this : nat) : M Z :=
  path <- getLibraryPath this ;;
  if String.eqb path "" then ret 0
  else unloadLibraryInternal this true.

(** [new ClassLoader(library_path, ondemand_load_unload)]; when the
    constructor throws, the storage is released again. *)
Definition new (library_path : string) (ondemand_load_unload : bool) : M nat :=
  this <- fresh_address ;;
  write_loader this {| ondemand_load_unload_ := ondemand_load_unload;
                       library_path_ := library_path;
                       load_ref_count_ := 0;
                       plugin_ref_count_ := 0 |} ;;;
  log LogDebug (MsgConstructingClassLoader this library_path) ;;;
  ondemand <- isOnDemandLoadUnloadEnabled this ;;
  (if negb ondemand then
     rethrowing (loadLibrary this)
                (modify (fun s => set_class_loaders (delete this (class_loaders s)) s))
   else ret tt) ;;;
  ret this.

(** [delete loader]: the destructor body, then the storage is
    released.  The destructor is [noexcept]: an exception leaving it
    ends the process. *)
Definition delete_ (this : nat) : M unit :=
  log LogDebug MsgDestroyingClassLoader ;;;
  noexcept (unloadLibrary this) ;;;
  modify (fun s => set_class_loaders (delete this (class_loaders s)) s).

Definition getAvailableClasses (Base : string) (this : nat) : M (list string) :=
  impl.getAvailableClasses Base (Some this).

Definition isClassAvailable (Base : string) (this : nat) (class_name : string) : M bool :=
  available_classes <- getAvailableClasses Base this ;;
  ret (existsb (String.eqb class_name) available_classes).

Definition createRawInstance (Base : string) (this : nat) (derived_class_name : string)
    (managed : bool) : M unit :=
  when (negb managed) (setUnmanagedInstanceBeenCreated true) ;;;
  unmanaged <- hasUnmanagedInstanceBeenCreated ;;
  ondemand <- isOnDemandLoadUnloadEnabled this ;;
  when (managed && unmanaged && ondemand) (log LogInform MsgManagedAfterUnmanaged) ;;;
  loaded <- isLibraryLoaded this ;;
  when (negb loaded) (loadLibrary this) ;;;
  impl.createInstance Base derived_class_name (Some this) ;;;
  if managed then
    c <- read_loader this ;;
    n <- int_result (plugin_ref_count_ c + 1) ;;
    write_loader this (with_plugin_ref_count n c)
  else ret tt.

(** A managed handle ([std::shared_ptr] or [UniquePtr]) remembers the
    loader bound into its deleter. *)
Record Handle := { deleter_this : nat }.

Definition createInstance (Base : string) (this : nat) (derived_class_name : string)
  : M Handle :=
  createRawInstance Base this derived_class_name true ;;;
  ret {| deleter_this := this |}.

Definition createUniqueInstance (Base : string) (this : nat) (derived_class_name : string)
  : M Handle :=
  createRawInstance Base this derived_class_name true ;;;
  ret {| deleter_this := this |}.

Definition createUnmanagedInstance (Base : string) (this : nat) (derived_class_name : string)
  : M unit :=
  createRawInstance Base this derived_class_name false.

(** Runs when a managed handle releases a non-null object. *)
Definition onPluginDeletion (this : nat) : M unit :=
  log LogDebug MsgCallingOnPluginDeletion ;;;
  c <- read_loader this ;;
  (if 0 <? plugin_ref_count_ c then ret tt else crash AssertionFailed) ;;;
  n <- int_result (plugin_ref_count_ c - 1) ;;
  write_loader this (with_plugin_ref_count n c) ;;;
  ondemand <- isOnDemandLoadUnloadEnabled this ;;
  if (n =? 0) && ondemand then
    unmanaged <- hasUnmanagedInstanceBeenCreated ;;
    if negb unmanaged then
      _ <- unloadLibraryInternal this false ;; ret tt
    else
      path <- getLibraryPath this ;;
      log LogWarn (MsgCannotUnloadUnmanaged path)
  else ret tt.

Definition release (h : Handle) : M unit := onPluginDeletion (deleter_this h).

End ClassLoader.

(** ** multi_library_class_loader.hpp and multi_library_class_loader.cpp *)

Module MultiLibraryClassLoader.

Definition with_active_class_loaders (m : stdmap loader_ptr) (i : MultiLibraryClassLoaderImpl) :=
  {| enable_ondemand_loadunload_ := enable_ondemand_loadunload_ i;
     active_class_loaders_ := m |}.

Definition new (enable_ondemand_loadunload : bool) : M nat :=
  this <- fresh_address ;;
  write_multi this {| enable_ondemand_loadunload_ := enable_ondemand_loadunload;
                      active_class_loaders_ := [] |} ;;;
  ret this.

Definition isOnDemandLoadUnloadEnabled (this : nat) : M bool :=
  i <- read_multi this ;; ret (enable_ondemand_loadunload_ i).

Definition getRegisteredLibraries (this : nat) : M (list string) :=
  i <- read_multi this ;;
  ret (map fst (List.filter (fun it => negb (ptr_eqb (snd it) None)) (active_class_loaders_ i))).

(** [return impl_->active_class_loaders_[library_path];] *)
Definition getClassLoaderForLibrary (this : nat) (library_path : string) : M loader_ptr :=
  i <- read_multi this ;;
  let r := StdMap.index None library_path (active_class_loaders_ i) in
  write_multi this (with_active_class_loaders (snd r) i) ;;;
  ret (fst r).

Definition getAllAvailableClassLoaders (this : nat) : M (list loader_ptr) :=
  i <- read_multi this ;;
  ret (map snd (active_class_loaders_ i)).

Definition isLibraryAvailable (this : nat) (library_name : string) : M bool :=
  available_libraries <- getRegisteredLibraries this ;;
  ret (existsb (String.eqb library_name) available_libraries).

Definition loadLibrary (this : nat) (library_path : string) : M unit :=
  available <- isLibraryAvailable this library_path ;;
  if negb available then
    ondemand <- isOnDemandLoadUnloadEnabled this ;;
    loader <- ClassLoader.new library_path ondemand ;;
    modify (fun s => set_class_loader_ptrs (class_loader_ptrs_ s ++ [loader])%list s) ;;;
    i <- read_multi this ;;
    write_multi this (with_active_class_loaders
                        (StdMap.assign library_path (Some loader) (active_class_loaders_ i)) i)
  else ret tt.

(** The loop over [class_loader_ptrs]: the first shared pointer equal to
    [loader] is erased, which destroys the ClassLoader it owns. *)
Fixpoint erase_shared (loader : nat) (class_loader_ptrs : list nat) : list nat * bool :=
  match class_loader_ptrs with
  | [] => ([], false)
  | p :: rest =>
      if Nat.eqb p loader then (rest, true)
      else let r := erase_shared loader rest in (p :: fst r, snd r)
  end.

Definition unloadLibrary (this : nat) (library_path : string) : M Z :=
  available <- isLibraryAvailable this library_path ;;
  if available then
    loader <- getClassLoaderForLibrary this library_path ;;
    remaining_unloads <- arrow loader ClassLoader.unloadLibrary ;;
    (if remaining_unloads =? 0 then
       i <- read_multi this ;;
       write_multi this (with_active_class_loaders
                           (StdMap.assign library_path None (active_class_loaders_ i)) i) ;;;
       match loader with
       | Some l =>
           ptrs <- gets class_loader_ptrs_ ;;
           let r := erase_shared l ptrs in
           modify (set_class_loader_ptrs (fst r)) ;;;
           when (snd r) (ClassLoader.delete_ l)
       | None => ret tt
       end
     else ret tt) ;;;
    ret remaining_unloads
  else ret 0.

Definition shutdownAllClassLoaders (this : nat) : M unit :=
  libraries <- getRegisteredLibraries this ;;
  for_each libraries (fun library_path => _ <- unloadLibrary this library_path ;; ret tt).

Definition delete_ (this : nat) : M unit :=
  noexcept (shutdownAllClassLoaders this) ;;;
  modify (fun s => set_multi_loaders (delete this (multi_loaders s)) s).

Fixpoint getAvailableClasses_loop (Base : string) (loaders : list loader_ptr)
    (available_classes : list string) : M (list string) :=
  match loaders with
  | [] => ret available_classes
  | loader :: rest =>
      loader_classes <- arrow loader (ClassLoader.getAvailableClasses Base) ;;
      getAvailableClasses_loop Base rest (available_classes ++ loader_classes)%list
  end.

Definition getAvailableClasses (Base : string) (this : nat) : M (list string) :=
  loaders <- getAllAvailableClassLoaders this ;;
  getAvailableClasses_loop Base loaders [].

Definition isClassAvailable (Base : string) (this : nat) (class_name : string) : M bool :=
  available_classes <- getAvailableClasses Base this ;;
  ret (existsb (String.eqb class_name) available_classes).

Definition no_loader_bound (library_path : string) : string :=
  "Could not create instance as there is no ClassLoader in MultiLibraryClassLoader bound to library "
  ++ library_path ++ " Ensure you called MultiLibraryClassLoader::loadLibrary()".

Definition getAvailableClassesForLibrary (Base : string) (this : nat) (library_path : string)
  : M (list string) :=
  loader <- getClassLoaderForLibrary this library_path ;;
  match loader with
  | None =>
      throw (NoClassLoaderExistsException
               ("There is no ClassLoader in MultiLibraryClassLoader bound to library "
                ++ library_path ++ " Ensure you called MultiLibraryClassLoader::loadLibrary()"))
  | Some l => ClassLoader.getAvailableClasses Base l
  end.

Fixpoint getClassLoaderForClass_loop (Base : string) (class_name : string)
    (loaders : list loader_ptr) : M loader_ptr :=
  match loaders with
  | [] => ret None
  | i :: rest =>
      loaded <- arrow i ClassLoader.isLibraryLoaded ;;
      when (negb loaded) (arrow i ClassLoader.loadLibrary) ;;;
      available <- arrow i (fun l => ClassLoader.isClassAvailable Base l class_name) ;;
      if available then ret i
      else getClassLoaderForClass_loop Base class_name rest
  end.

Definition getClassLoaderForClass (Base : string) (this : nat) (class_name : string)
  : M loader_ptr :=
  loaders <- getAllAvailableClassLoaders this ;;
  getClassLoaderForClass_loop Base class_name loaders.

(** The one-argument creators. *)
Definition createInstance (Base : string) (this : nat) (class_name : string)
  : M ClassLoader.Handle :=
  log LogDebug (MsgMultiAttemptingToCreate class_name) ;;;
  loader <- getClassLoaderForClass Base this class_name ;;
  match loader with
  | None =>
      throw (CreateClassException
               ("MultiLibraryClassLoader: Could not create object of class type " ++ class_name
                ++ " as no factory exists for it. Make sure that the library exists and "
                ++ "was explicitly loaded through MultiLibraryClassLoader::loadLibrary()"))
  | Some l => ClassLoader.createInstance Base l class_name
  end.

Definition createUniqueInstance (Base : string) (this : nat) (class_name : string)
  : M ClassLoader.Handle :=
  log LogDebug (MsgMultiAttemptingToCreate class_name) ;;;
  loader <- getClassLoaderForClass Base this class_name ;;
  match loader with
  | None =>
      throw (CreateClassException
               ("MultiLibraryClassLoader: Could not create object of class type " ++ class_name
                ++ " as no factory exists for it. "
                ++ "Make sure that the library exists and was explicitly loaded through "
                ++ "MultiLibraryClassLoader::loadLibrary()"))
  | Some l => ClassLoader.createUniqueInstance Base l class_name
  end.

Definition createUnmanagedInstance (Base : string) (this : nat) (class_name : string)
  : M unit :=
  loader <- getClassLoaderForClass Base this class_name ;;
  match loader with
  | None =>
      throw (CreateClassException
               ("MultiLibraryClassLoader: Could not create class of type " ++ class_name))
  | Some l => ClassLoader.createUnmanagedInstance Base l class_name
  end.

(** The two-argument creators. *)
Definition createInstance_from (Base : string) (this : nat) (class_name library_path : string)
  : M ClassLoader.Handle :=
  loader <- getClassLoaderForLibrary this library_path ;;
  match loader with
  | None => throw (NoClassLoaderExistsException (no_loader_bound library_path))
  | Some l => ClassLoader.createInstance Base l class_name
  end.

Definition createUniqueInstance_from (Base : string) (this : nat)
    (class_name library_path : string) : M ClassLoader.Handle :=
  loader <- getClassLoaderForLibrary this library_path ;;
  match loader with
  | None => throw (NoClassLoaderExistsException (no_loader_bound library_path))
  | Some l => ClassLoader.createUniqueInstance Base l class_name
  end.

Definition createUnmanagedInstance_from (Base : string) (this : nat)
    (class_name library_path : string) : M unit :=
  loader <- getClassLoaderForLibrary this library_path ;;
  match loader with
  | None => throw (NoClassLoaderExistsException (no_loader_bound library_path))
  | Some l => ClassLoader.createUnmanagedInstance Base l class_name
  end.

End MultiLibraryClassLoader.

(** ** A process at start-up *)

Definition initial (os : OS) : State :=
  {| meta_objects := ∅; class_loaders := ∅; multi_loaders := ∅; next_address := 1%nat;
     factory_map_map := []; graveyard := []; loaded_libraries := [];
     currently_loading_library := ""; currently_active_loader := None;
     non_pure_plugin_library_opened := false;
     has_unmananged_instance_been_created_ := false;
     class_loader_ptrs_ := []; plugin_holders := [];
     os := os; os_calls := 0%nat; console := [] |}.

(** ** Histories

    The operations a client (or the static initialisers of a linked
    image) can perform, and the states a process can reach by them. *)

(** Operations on the owner vector of one MetaObject. *)
Inductive OwnerOp :=
| AddOwner (loader : loader_ptr)
| RemoveOwner (loader : loader_ptr).

Definition apply_owner_op (o : AbstractMetaObjectBaseImpl) (op : OwnerOp)
  : AbstractMetaObjectBaseImpl :=
  match op with
  | AddOwner loader => AbstractMetaObjectBase.addOwningClassLoader loader o
  | RemoveOwner loader => AbstractMetaObjectBase.removeOwningClassLoader loader o
  end.

Definition apply_owner_ops (ops : list OwnerOp) (o : AbstractMetaObjectBaseImpl)
  : AbstractMetaObjectBaseImpl :=
  fold_left apply_owner_op ops o.

Inductive Call :=
(* a registration macro whose static initialiser runs outside loadLibrary *)
| StaticInitialiser (image : string) (r : Registration)
(* class_loader::impl *)
| ImplLoadLibrary (library_path : string) (loader : loader_ptr)
| ImplUnloadLibrary (library_path : string) (loader : loader_ptr)
(* ClassLoader *)
| NewClassLoader (library_path : string) (ondemand_load_unload : bool)
| DeleteClassLoader (this : nat)
| LoadLibrary (this : nat)
| UnloadLibrary (this : nat)
| IsLibraryLoaded (this : nat)
| GetAvailableClasses (Base : string) (this : nat)
| CreateInstance (Base : string) (this : nat) (derived_class_name : string)
| CreateUniqueInstance (Base : string) (this : nat) (derived_class_name : string)
| CreateUnmanagedInstance (Base : string) (this : nat) (derived_class_name : string)
| ReleaseInstance (h : ClassLoader.Handle)
(* MultiLibraryClassLoader *)
| NewMulti (enable_ondemand_loadunload : bool)
| DeleteMulti (this : nat)
| MultiLoadLibrary (this : nat) (library_path : string)
| MultiUnloadLibrary (this : nat) (library_path : string)
| MultiGetAvailableClasses (Base : string) (this : nat)
| MultiGetAvailableClassesForLibrary (Base : string) (this : nat) (library_path : string)
| MultiCreateInstance (Base : string) (this : nat) (class_name : string)
| MultiCreateUniqueInstance (Base : string) (this : nat) (class_name : string)
| MultiCreateUnmanagedInstance (Base : string) (this : nat) (class_name : string)
| MultiCreateInstanceFrom (Base : string) (this : nat) (class_name library_path : string)
| MultiCreateUniqueInstanceFrom (Base : string) (this : nat) (class_name library_path : string)
| MultiCreateUnmanagedInstanceFrom (Base : string) (this : nat) (class_name library_path : string).

Definition discard {A} (m : M A) : M unit := _ <- m ;; ret tt.

Definition run_call (c : Call) : M unit :=
  match c with
  | StaticInitialiser image r => impl.ProxyExec image r
  | ImplLoadLibrary p l => impl.loadLibrary p l
  | ImplUnloadLibrary p l => impl.unloadLibrary p l
  | NewClassLoader p b => discard (ClassLoader.new p b)
  | DeleteClassLoader this => ClassLoader.delete_ this
  | LoadLibrary this => ClassLoader.loadLibrary this
  | UnloadLibrary this => discard (ClassLoader.unloadLibrary this)
  | IsLibraryLoaded this => discard (ClassLoader.isLibraryLoaded this)
  | GetAvailableClasses B this => discard (ClassLoader.getAvailableClasses B this)
  | CreateInstance B this n => discard (ClassLoader.createInstance B this n)
  | CreateUniqueInstance B this n => discard (ClassLoader.createUniqueInstance B this n)
  | CreateUnmanagedInstance B this n => ClassLoader.createUnmanagedInstance B this n
  | ReleaseInstance h => ClassLoader.release h
  | NewMulti b => discard (MultiLibraryClassLoader.new b)
  | DeleteMulti this => MultiLibraryClassLoader.delete_ this
  | MultiLoadLibrary this p => MultiLibraryClassLoader.loadLibrary this p
  | MultiUnloadLibrary this p => discard (MultiLibraryClassLoader.unloadLibrary this p)
  | MultiGetAvailableClasses B this =>
      discard (MultiLibraryClassLoader.getAvailableClasses B this)
  | MultiGetAvailableClassesForLibrary B this p =>
      discard (MultiLibraryClassLoader.getAvailableClassesForLibrary B this p)
  | MultiCreateInstance B this n => discard (MultiLibraryClassLoader.createInstance B this n)
  | MultiCreateUniqueInstance B this n =>
      discard (MultiLibraryClassLoader.createUniqueInstance B this n)
  | MultiCreateUnmanagedInstance B this n =>
      MultiLibraryClassLoader.createUnmanagedInstance B this n
  | MultiCreateInstanceFrom B this n p =>
      discard (MultiLibraryClassLoader.createInstance_from B this n p)
  | MultiCreateUniqueInstanceFrom B this n p =>
      discard (MultiLibraryClassLoader.createUniqueInstance_from B this n p)
  | MultiCreateUnmanagedInstanceFrom B this n p =>
      MultiLibraryClassLoader.createUnmanagedInstance_from B this n p
  end.

(** The state a call leaves behind, whether it returns or throws. *)
Inductive leaves {A} : Outcome A -> State -> Prop :=
| leaves_ret a s : leaves (Ret a s) s
| leaves_throw e s : leaves (Throw e s) s.

Inductive reaches (s0 : State) : State -> Prop :=
| reaches_refl : reaches s0 s0
| reaches_call s c s' : reaches s0 s -> leaves (run_call c s) s' -> reaches s0 s'.

(** [run calls s]: the state after the calls, performed in order; [None]
    once one of them has undefined behaviour. *)
Fixpoint run (calls : list Call) (s : State) : option State :=
  match calls with
  | [] => Some s
  | c :: rest =>
      match run_call c s with
      | Ret _ s' | Throw _ s' => run rest s'
      | Undefined _ => None
      end
  end.

(** ** Example images

    Two plugin libraries for the scenarios below: [/p/libA] registers
    [Foo], [/p/libB] registers [Bar], both for the base class [Base];
    nothing else can be opened. *)

Definition typeid_Base : string := "4Base".

Definition register (derived : string) : Registration :=
  {| reg_derived := derived; reg_base := "Base";
     reg_typeid_base := typeid_Base; reg_message := "" |}.

Definition example_os : OS :=
  {| dl_open := fun _ path =>
       if String.eqb path "/p/libA" then OpenOk [register "Foo"]
       else if String.eqb path "/p/libB" then OpenOk [register "Bar"]
       else OpenRuntimeError "cannot open shared object file";
     dl_close := fun _ _ => CloseOk true |}.

(** The state after a history from start-up ([initial] if the history is
    undefined). *)
Definition after (calls : list Call) : State :=
  match run calls (initial example_os) with
  | Some s => s
  | None => initial example_os
  end.

(** A ClassLoader for the empty path (the loader of classes linked into
    the executable) with one live instance of a linked-in plugin: the
    MetaObject is at address 1, the ClassLoader at address 2. *)
Definition linked_plugin_in_use : State :=
  after [StaticInitialiser "" (register "Foo");
         NewClassLoader "" false;
         CreateInstance typeid_Base 2%nat "Foo"].

(** Scenario 3 of the specification: a ClassLoader (address 1) for
    [/p/libA] with one live instance of [Foo]. *)
Definition libA_in_use : State :=
  after [NewClassLoader "/p/libA" false;
         CreateInstance typeid_Base 1%nat "Foo"].

(** A ClassLoader (address 1) for the empty path, nothing else. *)
Definition empty_path_loader : State := after [NewClassLoader "" false].

(** [loadLibrary] invoked [k] times, and [unloadLibrary] invoked [k]
    times collecting the values returned. *)
Fixpoint load_times (k : nat) (this : nat) : M unit :=
  match k with
  | O => ret tt
  | S k' => ClassLoader.loadLibrary this ;;; load_times k' this
  end.

Fixpoint unload_times (k : nat) (this : nat) : M (list Z) :=
  match k with
  | O => ret []
  | S k' =>
      r <- ClassLoader.unloadLibrary this ;;
      rs <- unload_times k' this ;;
      ret (r :: rs)
  end.

(** [countdown n] is [n; n-1; ...; 1]. *)
Fixpoint countdown (n : nat) : list Z :=
  match n with
  | O => []
  | S n' => Z.of_nat n :: countdown n'
  end.

(** The ClassLoader at [this] with its load count replaced. *)
Definition with_load_count (this : nat) (c : ClassLoaderData) (n : Z) (s : State) : State :=
  set_class_loaders (<[this := ClassLoader.with_load_ref_count n c]> (class_loaders s)) s.

(** A linked-in plugin has registered itself outside any load. *)
Definition non_pure_process : State := after [StaticInitialiser "" (register "Foo")].

(** An on-demand ClassLoader (address 1) for [/p/libA], not yet loaded. *)
Definition lazy_libA_loader : State := after [NewClassLoader "/p/libA" true].

(** The non-pure process after a ClassLoader (address 2) for [/p/libA]
    has been constructed and has loaded its library. *)
Definition non_pure_process_with_libA : State :=
  after [StaticInitialiser "" (register "Foo"); NewClassLoader "/p/libA" false].

(** The on-demand ClassLoader of [lazy_libA_loader] after three calls of
    its [loadLibrary]. *)
Definition libA_loaded_three_times : State :=
  after [NewClassLoader "/p/libA" true; LoadLibrary 1%nat; LoadLibrary 1%nat; LoadLibrary 1%nat].

(** Two ClassLoaders for [/p/libA]: the first (address 1) is on demand
    and has never loaded it; the second (address 2) has, and is the only
    owner of the MetaObject of [Foo] (address 3). *)
Definition libA_loaded_by_the_other : State :=
  after [NewClassLoader "/p/libA" true; NewClassLoader "/p/libA" false].

(** An on-demand ClassLoader (address 1) for a library that cannot be
    opened. *)
Definition lazy_libZ_loader : State := after [NewClassLoader "/p/libZ" true].

(** A MultiLibraryClassLoader (address 1) that has loaded [/p/libA]
    through the ClassLoader at address 2. *)
Definition multi_with_libA : State :=
  after [NewMulti false; MultiLoadLibrary 1%nat "/p/libA"].

(** A linked-in plugin [Baz] (MetaObject at address 1, no owner) and a
    MultiLibraryClassLoader (address 2) that has loaded [/p/libB] first
    (ClassLoader 3) and [/p/libA] second (ClassLoader 5). *)
Definition multi_libB_then_libA : State :=
  after [StaticInitialiser "" (register "Baz");
         NewMulti false;
         MultiLoadLibrary 2%nat "/p/libB";
         MultiLoadLibrary 2%nat "/p/libA"].

(** The ClassLoader at address 1 has loaded [/p/libA] twice, a second
    ClassLoader (address 3) has loaded it as well, and the first has
    then unloaded it twice and loaded it again. *)
Definition libA_reloaded_and_shared : State :=
  after [NewClassLoader "/p/libA" false; LoadLibrary 1%nat;
         NewClassLoader "/p/libA" false;
         UnloadLibrary 1%nat; UnloadLibrary 1%nat; LoadLibrary 1%nat].

(** Every loader map in the state is in ascending key order. *)
Definition multi_ordered (s : State) : Prop :=
  forall this i, multi_loaders s !! this = Some i -> StdMap.ordered (active_class_loaders_ i).

(** The child loader [p] of a MultiLibraryClassLoader is not null, its
    library is loaded, and it answers [b] when asked whether the class
    is available. *)
Definition answers (Base class_name : string) (s : State) (b : bool) (p : loader_ptr) : Prop :=
  exists l,
    p = Some l /\
    ClassLoader.isLibraryLoaded l s = Ret true s /\
    ClassLoader.isClassAvailable Base l class_name s = Ret b s.

(** One turn of the loop of [getClassLoaderForClass]: the child loader
    loads its library if it is not loaded, and is then asked whether
    the class is available. *)
Definition asks (Base class_name : string) (p : loader_ptr) : M bool :=
  loaded <- arrow p ClassLoader.isLibraryLoaded ;;
  when (negb loaded) (arrow p ClassLoader.loadLibrary) ;;;
  arrow p (fun l => ClassLoader.isClassAvailable Base l class_name).

(** [declined Base class_name entries s s']: asked one after the other
    from the state [s], in the order of the list, every child loader of
    [entries] answers that the class is not available, and this leaves
    the state [s']. *)
Inductive declined (Base class_name : string)
  : stdmap loader_ptr -> State -> State -> Prop :=
| declined_nil s : declined Base class_name [] s s
| declined_cons e entries s s1 s2 :
    asks Base class_name (snd e) s = Ret false s1 ->
    declined Base class_name entries s1 s2 ->
    declined Base class_name (e :: entries) s s2.





(** ** Frame reasoning

    [preserves R m]: whenever [m] returns or throws, the state it leaves
    is [R]-related to the state it started from.  A relation that is a
    preorder and is respected by every field update that a group of
    functions performs is respected by the functions themselves. *)

Definition preserves {A} (R : State -> State -> Prop) (m : M A) : Prop :=
  forall s, match m s with
            | Ret _ s' => R s s'
            | Throw _ s' => R s s'
            | Undefined _ => True
            end.

(** Respected by the updates of the library's statics (the non-pure flag
    may only be raised) and by the updates of the MetaObject heap, as
    long as the MetaObjects written satisfy [PM]; in return [PM] may be
    assumed of every MetaObject read.  [PM] holds of a newly constructed
    MetaObject and is kept by its three mutators. *)
Class Frame (R : State -> State -> Prop) (PM : AbstractMetaObjectBaseImpl -> Prop) : Prop := {
  frame_refl s : R s s;
  frame_trans s1 s2 s3 : R s1 s2 -> R s2 s3 -> R s1 s3;
  frame_meta_write p o s :
    PM o -> R s (set_meta_objects (<[p := o]> (meta_objects s)) s);
  frame_meta_read s s' p o :
    meta_objects s !! p = Some o -> (PM o -> R s s') -> R s s';
  frame_meta_delete p s : R s (set_meta_objects (delete p (meta_objects s)) s);
  frame_meta_init class_name base_class_name typeid_base_class_name :
    PM (AbstractMetaObjectBase.init class_name base_class_name typeid_base_class_name);
  frame_meta_add loader o : PM o -> PM (AbstractMetaObjectBase.addOwningClassLoader loader o);
  frame_meta_remove loader o :
    PM o -> PM (AbstractMetaObjectBase.removeOwningClassLoader loader o);
  frame_meta_path library_path o :
    PM o -> PM (AbstractMetaObjectBase.setAssociatedLibraryPath library_path o);
  frame_next_address v s : R s (set_next_address v s);
  frame_factory_map_map v s : R s (set_factory_map_map v s);
  frame_graveyard v s : R s (set_graveyard v s);
  frame_loaded_libraries v s : R s (set_loaded_libraries v s);
  frame_currently_loading_library v s : R s (set_currently_loading_library v s);
  frame_currently_active_loader v s : R s (set_currently_active_loader v s);
  frame_non_pure_raised s : R s (set_non_pure_plugin_library_opened true s);
  frame_has_unmananged_instance_been_created v s :
    R s (set_has_unmananged_instance_been_created v s);
  frame_class_loader_ptrs v s : R s (set_class_loader_ptrs v s);
  frame_plugin_holders v s : R s (set_plugin_holders v s);
  frame_os_calls v s : R s (set_os_calls v s);
  frame_console v s : R s (set_console v s)
}.

(** Respected by updates of the ClassLoader objects too. *)
Class FrameLoaders (R : State -> State -> Prop) : Prop :=
  frame_class_loaders : forall v s, R s (set_class_loaders v s).

(** Respected by the updates of the MultiLibraryClassLoader objects
    too, as long as the objects written satisfy [P]; in return [P] may be
    assumed of every object read.  [P] holds of a new object and is kept
    by the two updates of the loader map. *)
Class FrameMulti (R : State -> State -> Prop) (P : MultiLibraryClassLoaderImpl -> Prop) : Prop := {
  frame_multi_write p i s :
    P i -> R s (set_multi_loaders (<[p := i]> (multi_loaders s)) s);
  frame_multi_read s s' p i :
    multi_loaders s !! p = Some i -> (P i -> R s s') -> R s s';
  frame_multi_delete p s : R s (set_multi_loaders (delete p (multi_loaders s)) s);
  frame_multi_new b : P {| enable_ondemand_loadunload_ := b; active_class_loaders_ := [] |};
  frame_multi_assign k v i :
    P i ->
    P (MultiLibraryClassLoader.with_active_class_loaders
         (StdMap.assign k v (active_class_loaders_ i)) i);
  frame_multi_index d k i :
    P i ->
    P (MultiLibraryClassLoader.with_active_class_loaders
         (snd (StdMap.index d k (active_class_loaders_ i))) i)
}.

(** The frames used below: the non-pure flag is a latch; the ClassLoader
    objects are untouched; the loader maps stay ordered; the owner
    vectors stay free of duplicates. *)

Definition flag_latched (s s' : State) : Prop :=
  non_pure_plugin_library_opened s = true -> non_pure_plugin_library_opened s' = true.

Definition same_class_loaders (s s' : State) : Prop := class_loaders s = class_loaders s'.

Definition keeps_ordered (s s' : State) : Prop := multi_ordered s -> multi_ordered s'.

Definition ordered_map (i : MultiLibraryClassLoaderImpl) : Prop :=
  StdMap.ordered (active_class_loaders_ i).

(** Every MetaObject on the heap has a duplicate-free owner vector. *)
Definition owners_distinct (s : State) : Prop :=
  forall p o, meta_objects s !! p = Some o -> NoDup (associated_class_loaders_ o).

Definition keeps_owners_distinct (s s' : State) : Prop :=
  owners_distinct s -> owners_distinct s'.

Definition distinct_owners (o : AbstractMetaObjectBaseImpl) : Prop :=
  NoDup (associated_class_loaders_ o).

Definition any_meta (o : AbstractMetaObjectBaseImpl) : Prop := True.
Definition any_multi (i : MultiLibraryClassLoaderImpl) : Prop := True.

(** ** Well-formed registries *)

(** The MetaObjects reachable from the global factory map, in the order
    in which [allMetaObjects] lists them. *)
Definition registered (s : State) : list nat :=
  concat (map (fun it => impl.allMetaObjects_of (snd it)) (factory_map_map s)).

(** No factory pointer of the global map dangles. *)
Definition factories_live (s : State) : Prop :=
  Forall (fun p => is_Some (meta_objects s !! p)) (registered s).

(** What [isOwnedBy] and the comparison of the library path answer for
    the MetaObject at an address. *)
Definition owned_by (s : State) (owner : loader_ptr) (p : nat) : bool :=
  match meta_objects s !! p with
  | Some o => AbstractMetaObjectBase.isOwnedBy owner o
  | None => false
  end.

Definition associated_with (s : State) (library_path : string) (p : nat) : bool :=
  match meta_objects s !! p with
  | Some o => String.eqb (AbstractMetaObjectBase.getAssociatedLibraryPath o) library_path
  | None => false
  end.

(** The registry while the ClassLoader at address 1 is opening
    [/p/libA]: the loading context names both. *)
Definition opening_libA : State :=
  set_currently_loading_library "/p/libA"
    (set_currently_active_loader (Some 1%nat) lazy_libA_loader).

(** A dynamic loader for which the image of [/p/libA] stays resident
    once it has been opened: the first open runs the static initialiser
    that registers [Foo], a close runs no static destructor, and a
    later open finds the image in memory and runs nothing. *)
Definition resident_os : OS :=
  {| dl_open := fun n path =>
       if String.eqb path "/p/libA"
       then (if Nat.eqb n 0 then OpenOk [register "Foo"] else OpenOk [])
       else OpenRuntimeError "cannot open shared object file";
     dl_close := fun _ _ => CloseOk false |}.

Definition after_on (os : OS) (calls : list Call) : State :=
  match run calls (initial os) with
  | Some s => s
  | None => initial os
  end.

(** With that dynamic loader: an on-demand ClassLoader (address 1) has
    loaded and unloaded [/p/libA]; the MetaObject of [Foo] (address 2)
    lies in the graveyard. *)
Definition libA_unloaded_but_resident : State :=
  after_on resident_os [NewClassLoader "/p/libA" true; LoadLibrary 1%nat; UnloadLibrary 1%nat].

(** The factories of a map are live MetaObjects made for the base class
    [Base], so that the [dynamic_cast] of [createInstance] succeeds. *)
Definition factories_of (Base : string) (s : State) (factory_map : stdmap nat) : Prop :=
  Forall (fun it => exists o, meta_objects s !! snd it = Some o /\
                              AbstractMetaObjectBase.typeidBaseClassName o = Base)
         factory_map.

(** What a failed open leaves behind: one more call to the dynamic
    loader, a cleared loading context, and nothing registered, opened
    or allocated. *)
Definition failed_open_leaves (s s' : State) : Prop :=
  currently_loading_library s' = "" /\
  currently_active_loader s' = None /\
  os_calls s' = S (os_calls s) /\
  loaded_libraries s' = loaded_libraries s /\
  meta_objects s' = meta_objects s /\
  factory_map_map s' = factory_map_map s /\
  graveyard s' = graveyard s /\
  non_pure_plugin_library_opened s' = non_pure_plugin_library_opened s /\
  class_loaders s' = class_loaders s.

(** The ClassLoader at [this] with its count of live instances
    replaced. *)
Definition with_plugin_count (this : nat) (c : ClassLoaderData) (n : Z) (s : State) : State :=
  set_class_loaders (<[this := ClassLoader.with_plugin_ref_count n c]> (class_loaders s)) s.

(** An on-demand ClassLoader (address 1) for [/p/libA] with one live
    managed instance of [Foo], and the same process after an unmanaged
    instance of [Foo] has been created as well. *)
Definition lazy_libA_in_use : State :=
  after [NewClassLoader "/p/libA" true; CreateInstance typeid_Base 1%nat "Foo"].

Definition lazy_libA_in_use_unmanaged : State :=
  after [NewClassLoader "/p/libA" true; CreateInstance typeid_Base 1%nat "Foo";
         CreateUnmanagedInstance typeid_Base 1%nat "Foo"].

(** The MultiLibraryClassLoader objects are untouched. *)
Definition same_multi_loaders (s s' : State) : Prop := multi_loaders s = multi_loaders s'.

(** The keys of a loader map that are bound to a loader, as
    [getRegisteredLibraries] collects them. *)
Definition bound_libraries (m : stdmap loader_ptr) : list string :=
  map fst (List.filter (fun it => negb (ptr_eqb (snd it) None)) m).

(** The MultiLibraryClassLoader of [multi_with_libA] after it has
    unloaded [/p/libA] again. *)
Definition multi_libA_unloaded : State :=
  after [NewMulti false; MultiLoadLibrary 1%nat "/p/libA"; MultiUnloadLibrary 1%nat "/p/libA"].

(** ** Footprints

    A finer account of which statics each layer of the library
    updates and of what it throws.  A relation on states is kept by a
    layer when it is a preorder kept by every update the layer
    performs; the layers above the registry are described relative to
    the registry functions they call, so that a relation these keep for
    a reason of their own can be carried through the callers. *)

(** Kept by writes to the log and by allocation. *)
Class Basic (R : State -> State -> Prop) : Prop := {
  basic_refl s : R s s;
  basic_trans s1 s2 s3 : R s1 s2 -> R s2 s3 -> R s1 s3;
  keeps_console v s : R s (set_console v s);
  keeps_next_address v s : R s (set_next_address v s)
}.

(** Kept by the updates of the factory map, the graveyard and the
    MetaObjects: what registrations and the bookkeeping of owners do. *)
Class Registry (R : State -> State -> Prop) : Prop := {
  keeps_meta_objects v s : R s (set_meta_objects v s);
  keeps_factory_map_map v s : R s (set_factory_map_map v s);
  keeps_graveyard v s : R s (set_graveyard v s);
  keeps_plugin_holders v s : R s (set_plugin_holders v s);
  keeps_non_pure_raised s : R s (set_non_pure_plugin_library_opened true s)
}.

(** Kept by calls to the dynamic loader. *)
Class DynamicLoader (R : State -> State -> Prop) : Prop :=
  keeps_os_calls : forall v s, R s (set_os_calls v s).

(** Kept by the updates of the vector of open libraries. *)
Class OpenLibraries (R : State -> State -> Prop) : Prop :=
  keeps_loaded_libraries : forall v s, R s (set_loaded_libraries v s).

(** Kept by the updates of the loading context. *)
Class LoadingContext (R : State -> State -> Prop) : Prop := {
  keeps_currently_loading_library v s : R s (set_currently_loading_library v s);
  keeps_currently_active_loader v s : R s (set_currently_active_loader v s)
}.

(** [ensures R P m]: whenever [m] returns or throws, the state it
    leaves is [R]-related to the state it started from, and what it
    throws satisfies [P]. *)
Definition ensures {A} (R : State -> State -> Prop) (P : exn -> Prop) (m : M A) : Prop :=
  forall s, match m s with
            | Ret _ s' => R s s'
            | Throw e s' => R s s' /\ P e
            | Undefined _ => True
            end.

(** The exceptions of exceptions.hpp that a set of exceptions admits. *)
Class AdmitsLoad (P : exn -> Prop) : Prop :=
  admits_load : forall what, P (LibraryLoadException what).
Class AdmitsUnload (P : exn -> Prop) : Prop :=
  admits_unload : forall what, P (LibraryUnloadException what).
Class AdmitsCreate (P : exn -> Prop) : Prop :=
  admits_create : forall what, P (CreateClassException what).
Class AdmitsNoLoader (P : exn -> Prop) : Prop :=
  admits_no_loader : forall what, P (NoClassLoaderExistsException what).

(** The registry functions that the ClassLoader calls, one class for
    each, so that a caller depends on what it calls and on nothing
    else. *)
Class CallsProxyExec (R : State -> State -> Prop) (P : exn -> Prop) : Prop :=
  ensures_ProxyExec : forall image r, ensures R P (impl.ProxyExec image r).
Class CallsLoadLibrary (R : State -> State -> Prop) (P : exn -> Prop) : Prop :=
  ensures_impl_loadLibrary :
    forall library_path loader, ensures R P (impl.loadLibrary library_path loader).
Class CallsUnloadLibrary (R : State -> State -> Prop) (P : exn -> Prop) : Prop :=
  ensures_impl_unloadLibrary :
    forall library_path loader, ensures R P (impl.unloadLibrary library_path loader).
Class CallsIsLibraryLoaded (R : State -> State -> Prop) (P : exn -> Prop) : Prop :=
  ensures_impl_isLibraryLoaded :
    forall library_path loader, ensures R P (impl.isLibraryLoaded library_path loader).
Class CallsIsLibraryLoadedByAnybody (R : State -> State -> Prop) (P : exn -> Prop) : Prop :=
  ensures_impl_isLibraryLoadedByAnybody :
    forall library_path, ensures R P (impl.isLibraryLoadedByAnybody library_path).
Class CallsCreateInstance (R : State -> State -> Prop) (P : exn -> Prop) : Prop :=
  ensures_impl_createInstance :
    forall Base derived_class_name loader,
      ensures R P (impl.createInstance Base derived_class_name loader).
Class CallsGetAvailableClasses (R : State -> State -> Prop) (P : exn -> Prop) : Prop :=
  ensures_impl_getAvailableClasses :
    forall Base loader, ensures R P (impl.getAvailableClasses Base loader).

(** Kept by the updates of the ClassLoader objects and by the raising
    of the flag that records an unmanaged instance. *)
Class LoaderObjects (R : State -> State -> Prop) : Prop := {
  keeps_class_loaders v s : R s (set_class_loaders v s);
  keeps_unmanaged_raised s : R s (set_has_unmananged_instance_been_created true s)
}.

(** Kept by the updates of the MultiLibraryClassLoader objects and of
    the vector of shared ClassLoader pointers. *)
Class MultiObjects (R : State -> State -> Prop) : Prop := {
  keeps_multi_loaders v s : R s (set_multi_loaders v s);
  keeps_class_loader_ptrs v s : R s (set_class_loader_ptrs v s)
}.

(** The relations whose footprints are studied below: the flag that
    records an unmanaged instance is a latch; the statics that the
    bookkeeping of the registry never touches are unchanged. *)
Definition unmanaged_latched (s s' : State) : Prop :=
  has_unmananged_instance_been_created_ s = true ->
  has_unmananged_instance_been_created_ s' = true.

Definition same_outside_registry (s s' : State) : Prop :=
  loaded_libraries s' = loaded_libraries s /\
  currently_loading_library s' = currently_loading_library s /\
  currently_active_loader s' = currently_active_loader s /\
  os_calls s' = os_calls s /\
  os s' = os s.

(** An on-demand ClassLoader (address 1) for [/p/libA] that was asked
    for an unmanaged instance of a class nobody registered, and the
    same process after it has then created and released a managed
    instance of [Foo]. *)
Definition unmanaged_attempt : State :=
  after [NewClassLoader "/p/libA" true; CreateUnmanagedInstance typeid_Base 1%nat "Nope"].

Definition unmanaged_attempt_then_use : State :=
  after [NewClassLoader "/p/libA" true; CreateUnmanagedInstance typeid_Base 1%nat "Nope";
         CreateInstance typeid_Base 1%nat "Foo";
         ReleaseInstance {| ClassLoader.deleter_this := 1%nat |}].

(** No library is being loaded and no loader is active. *)
Definition context_clear (s : State) : Prop :=
  currently_loading_library s = "" /\ currently_active_loader s = None.

(** No restriction on what is thrown, and no restriction on the state
    that is left. *)
Definition any_exception (e : exn) : Prop := True.
Definition any_state (s s' : State) : Prop := True.
Definition no_exception (e : exn) : Prop := False.

Definition keeps_context_clear (s s' : State) : Prop := context_clear s -> context_clear s'.

(** No library is recorded as open twice. *)
Definition open_once (s : State) : Prop := NoDup (map fst (loaded_libraries s)).

Definition keeps_open_once (s s' : State) : Prop := open_once s -> open_once s'.

(** An on-demand ClassLoader (address 1) that has loaded [/p/libA]. *)
Definition lazy_libA_loaded : State :=
  after [NewClassLoader "/p/libA" true; LoadLibrary 1%nat].

(** ** What the functions throw *)

(** [throws_only P m]: every exception that leaves [m] satisfies [P]. *)
Definition throws_only {A} (P : exn -> Prop) (m : M A) : Prop :=
  forall s e s', m s = Throw e s' -> P e.

Definition load_failure (e : exn) : Prop := exists what, e = LibraryLoadException what.
Definition unload_failure (e : exn) : Prop := exists what, e = LibraryUnloadException what.
Definition create_failure (e : exn) : Prop := exists what, e = CreateClassException what.
Definition no_loader (e : exn) : Prop := exists what, e = NoClassLoaderExistsException what.

Definition either (P Q : exn -> Prop) (e : exn) : Prop := P e \/ Q e.

(** ** Libraries shared between ClassLoaders *)

(** [returning I m Q]: from every state that satisfies [I], [m] returns,
    with a value and a state that satisfy [Q]. *)
Definition returning {A} (I : State -> Prop) (m : M A) (Q : A -> State -> Prop) : Prop :=
  forall st, I st -> exists a st', m st = Ret a st' /\ Q a st'.

(** What [destroyMetaObjectsForLibrary] keeps of a state [s] in which
    the MetaObject [p] of the library, registered for [base] under
    [key], has the owner [other]: no MetaObject is freed, no factory
    appears that was not there, [p] is still registered under its
    key, for its library and with that owner, and the global factory
    map is a [std::map] still. *)
Definition still_shared (s : State) (library_path : string) (other : loader_ptr)
    (base key : string) (p : nat) (st : State) : Prop :=
  (forall q, is_Some (meta_objects s !! q) -> is_Some (meta_objects st !! q)) /\
  (forall b m e, StdMap.find b (factory_map_map st) = Some m -> In e m ->
                 exists m0, StdMap.find b (factory_map_map s) = Some m0 /\ In e m0) /\
  (exists m, StdMap.find base (factory_map_map st) = Some m /\ In (key, p) m) /\
  (exists o, meta_objects st !! p = Some o /\
             AbstractMetaObjectBase.getAssociatedLibraryPath o = library_path /\
             AbstractMetaObjectBase.isOwnedBy other o = true) /\
  StdMap.ordered (factory_map_map st).

(** Two ClassLoaders (addresses 1 and 3) have loaded [/p/libA]; both
    own the MetaObject of [Foo] (address 2). *)
Definition libA_shared : State :=
  after [NewClassLoader "/p/libA" false; NewClassLoader "/p/libA" false].

(** * Properties *)

(** ** Basic facts *)

(** Rewrites [<[k:=v]> m !! k] wherever it stands outside a binder. *)
Ltac simpl_lookup :=
  repeat match goal with
         | |- context [(<[?k:=?v]> ?m) !! ?k] => rewrite (lookup_insert_eq m k v); cbn
         end.

(** Decides the range test of [int_result] for a value known to be in range. *)
Ltac in_int_range :=
  unfold int_result;
  match goal with
  | |- context [(INT_MIN <=? ?x) && (?x <=? INT_MAX)] =>
      replace ((INT_MIN <=? x) && (x <=? INT_MAX)) with true
        by (symmetry; apply andb_true_iff; split; apply Z.leb_le;
            unfold INT_MIN, INT_MAX in *; lia)
  end.

Lemma read_loader_at this s c :
  class_loaders s !! this = Some c -> read_loader this s = Ret c s.
Proof. intros H. unfold read_loader. now rewrite H. Qed.

Lemma read_meta_at p s o :
  meta_objects s !! p = Some o -> read_meta p s = Ret o s.
Proof. intros H. unfold read_meta. now rewrite H. Qed.

Lemma read_multi_at p s i :
  multi_loaders s !! p = Some i -> read_multi p s = Ret i s.
Proof. intros H. unfold read_multi. now rewrite H. Qed.

Lemma compare_refl (k : string) : String.compare k k = Eq.
Proof.
  destruct (String.compare k k) eqn:E; [reflexivity | |];
    pose proof (String.compare_antisym k k) as A; rewrite E in A; discriminate.
Qed.

Lemma compare_neq (k k' : string) : String.compare k k' <> Eq -> String.eqb k k' = false.
Proof.
  intros H. destruct (String.eqb_spec k k') as [->|]; [|reflexivity].
  now rewrite compare_refl in H.
Qed.

Lemma compare_lt_trans (a b c : string) :
  String.compare a b = Lt -> String.compare b c = Lt -> String.compare a c = Lt.
Proof.
  intros H1 H2. apply OrderedTypeEx.String_as_OT.cmp_lt.
  eapply OrderedTypeEx.String_as_OT.lt_trans; apply OrderedTypeEx.String_as_OT.cmp_lt; eassumption.
Qed.

Lemma compare_gt_lt (a b : string) : String.compare a b = Gt -> String.compare b a = Lt.
Proof. intros H. rewrite String.compare_antisym, H. reflexivity. Qed.

(** ** std::map *)

Section StdMapFacts.
Context {V : Type}.
Implicit Types (m : stdmap V) (k : string) (v : V).

Lemma find_assign_same k v m : StdMap.find k (StdMap.assign k v m) = Some v.
Proof.
  induction m as [|[k' v'] m IH]; cbn.
  - now rewrite String.eqb_refl.
  - destruct (String.compare k k') eqn:E; cbn.
    + now rewrite String.eqb_refl.
    + now rewrite String.eqb_refl.
    + rewrite compare_neq by congruence. exact IH.
Qed.

Lemma find_assign_other k k' v m :
  k <> k' -> StdMap.find k' (StdMap.assign k v m) = StdMap.find k' m.
Proof.
  intros Hne. induction m as [|[k0 v0] m IH]; cbn.
  - destruct (String.eqb_spec k' k); congruence.
  - destruct (String.compare k k0) eqn:E; cbn.
    + apply String.compare_eq_iff in E. subst k0.
      destruct (String.eqb_spec k' k); congruence.
    + destruct (String.eqb_spec k' k); congruence.
    + now rewrite IH.
Qed.

Lemma assign_ordered k v m : StdMap.ordered m -> StdMap.ordered (StdMap.assign k v m).
Proof.
  unfold StdMap.ordered. induction m as [|[k' v'] m IH]; cbn; intros Hs.
  - repeat constructor.
  - apply Sorted_inv in Hs as [Hs Hd].
    destruct (String.compare k k') eqn:E.
    + apply String.compare_eq_iff in E. subst k'. constructor; [assumption|].
      destruct m; constructor. now inversion Hd.
    + constructor; [now constructor|]. constructor. exact E.
    + constructor; [now apply IH|].
      destruct m as [|[k0 v0] m]; cbn.
      * constructor. now apply compare_gt_lt.
      * destruct (String.compare k k0) eqn:E0; constructor; unfold StdMap.key_lt; cbn.
        -- now apply compare_gt_lt.
        -- now apply compare_gt_lt.
        -- now inversion Hd.
Qed.

Lemma index_ordered dflt k m : StdMap.ordered m -> StdMap.ordered (snd (StdMap.index dflt k m)).
Proof.
  intros H. unfold StdMap.index. destruct (StdMap.find k m); cbn; [assumption|].
  now apply assign_ordered.
Qed.

End StdMapFacts.

(** ** The owner vector of a MetaObject *)

Section Owners.
Import AbstractMetaObjectBase.
Implicit Types (v : list loader_ptr) (loader : loader_ptr).

Lemma found_In loader v : found loader v = true <-> In loader v.
Proof.
  induction v as [|x v IH]; cbn; [split; [discriminate|tauto]|].
  unfold ptr_eqb. destruct (bool_decide_reflect (x = loader)); [tauto|].
  rewrite IH. split; [tauto|intros [?|?]; [contradiction|assumption]].
Qed.

Lemma erase_found_In loader x v : In x (erase_found loader v) -> In x v.
Proof.
  induction v as [|y v IH]; cbn; [tauto|].
  destruct (ptr_eqb y loader); cbn; tauto.
Qed.

Lemma erase_found_NoDup loader v : NoDup v -> NoDup (erase_found loader v).
Proof.
  induction 1 as [|y v Hy Hv IH]; cbn; [constructor|].
  destruct (ptr_eqb y loader); [assumption|].
  constructor; [|assumption]. rewrite list_elem_of_In in *.
  intros Hin. apply Hy. eapply erase_found_In, Hin.
Qed.

Lemma addOwningClassLoader_NoDup loader o :
  NoDup (associated_class_loaders_ o) ->
  NoDup (associated_class_loaders_ (addOwningClassLoader loader o)).
Proof.
  intros H. unfold addOwningClassLoader.
  destruct (found loader (associated_class_loaders_ o)) eqn:E; cbn; [assumption|].
  apply NoDup_app. split; [assumption|]. split.
  - intros x Hx Hx'. apply list_elem_of_In in Hx, Hx'. destruct Hx' as [<-|[]].
    apply found_In in Hx. congruence.
  - apply NoDup_singleton.
Qed.

Lemma removeOwningClassLoader_NoDup loader o :
  NoDup (associated_class_loaders_ o) ->
  NoDup (associated_class_loaders_ (removeOwningClassLoader loader o)).
Proof.
  intros H. unfold removeOwningClassLoader.
  destruct (found loader (associated_class_loaders_ o)); cbn; [|assumption].
  now apply erase_found_NoDup.
Qed.

Lemma apply_owner_ops_NoDup ops o :
  NoDup (associated_class_loaders_ o) ->
  NoDup (associated_class_loaders_ (apply_owner_ops ops o)).
Proof.
  unfold apply_owner_ops. revert o.
  induction ops as [|op ops IH]; cbn; intros o H; [assumption|].
  apply IH. destruct op; cbn.
  - now apply addOwningClassLoader_NoDup.
  - now apply removeOwningClassLoader_NoDup.
Qed.
End Owners.

(** ** ClassLoader with an empty library path *)

(** C8.  For a ClassLoader whose library path is the empty string,
    [loadLibrary] returns without touching anything (no call to the
    dynamic loader, no change of the load count) and [unloadLibrary]
    returns 0 without touching anything. *)
Theorem empty_library_path_is_inert (this : nat) (s : State) (c : ClassLoaderData) :
  class_loaders s !! this = Some c ->
  library_path_ c = "" ->
  ClassLoader.loadLibrary this s = Ret tt s /\
  ClassLoader.unloadLibrary this s = Ret 0 s.
Proof.
  intros H Hp.
  unfold ClassLoader.loadLibrary, ClassLoader.unloadLibrary, ClassLoader.getLibraryPath, bind.
  rewrite (read_loader_at _ _ _ H). cbn. rewrite Hp. cbn. split; reflexivity.
Qed.

(** C8 at a ClassLoader constructed for the empty path. *)
Lemma empty_library_path_is_inert_witness :
  ClassLoader.loadLibrary 1%nat empty_path_loader = Ret tt empty_path_loader /\
  ClassLoader.unloadLibrary 1%nat empty_path_loader = Ret 0 empty_path_loader.
Proof.
  apply (empty_library_path_is_inert 1%nat empty_path_loader
           {| ondemand_load_unload_ := false; library_path_ := "";
              load_ref_count_ := 0; plugin_ref_count_ := 0 |});
    vm_compute; reflexivity.
Defined.

(** ** unloadLibrary while instances are alive *)

(** C5, counterexample.  A ClassLoader for the empty library path that
    has a live instance: [unloadLibrary] returns 0 and changes nothing,
    so no warning is written to the log. *)
Lemma unloadLibrary_live_instance_empty_path_silent :
  (exists c, class_loaders linked_plugin_in_use !! 2%nat = Some c /\
             library_path_ c = "" /\ 0 < plugin_ref_count_ c) /\
  ClassLoader.unloadLibrary 2%nat linked_plugin_in_use = Ret 0 linked_plugin_in_use /\
  ~ In (LogWarn, MsgSevereWarningObjectsExist) (console linked_plugin_in_use).
Proof.
  split; [|split].
  - eexists. split; [vm_compute; reflexivity|]. split; [reflexivity|]. vm_compute. reflexivity.
  - vm_compute. reflexivity.
  - vm_compute. intros H.
    repeat (destruct H as [H|H]; [discriminate H|]). exact H.
Qed.

(** C5, as amended.  For a ClassLoader with a non-empty library path and
    a positive count of live instances, [unloadLibrary] returns the
    current load count, and the only change to the process state is one
    more log entry, the severe warning: the load count and every other
    field of the ClassLoader are as before, the dynamic loader is not
    called and the library stays in the vector of open libraries. *)
Theorem unloadLibrary_refused_while_instances_live
    (this : nat) (s : State) (c : ClassLoaderData) :
  class_loaders s !! this = Some c ->
  library_path_ c <> "" ->
  0 < plugin_ref_count_ c ->
  ClassLoader.unloadLibrary this s =
    Ret (load_ref_count_ c)
        (set_console (console s ++ [(LogWarn, MsgSevereWarningObjectsExist)])%list s).
Proof.
  intros H Hp Hn.
  unfold ClassLoader.unloadLibrary, ClassLoader.unloadLibraryInternal,
    ClassLoader.getLibraryPath, bind.
  rewrite (read_loader_at _ _ _ H). cbn.
  destruct (String.eqb_spec (library_path_ c) "") as [E|E]; [contradiction|].
  rewrite (read_loader_at _ _ _ H).
  destruct (Z.ltb_spec 0 (plugin_ref_count_ c)); [|lia].
  cbn. unfold read_loader. cbn. now rewrite H.
Qed.

(** C5 as amended, in scenario 3 of the specification: the value returned is
    the load count 1. *)
Lemma unloadLibrary_refused_while_instances_live_witness :
  ClassLoader.unloadLibrary 1%nat libA_in_use =
    Ret 1 (set_console (console libA_in_use ++ [(LogWarn, MsgSevereWarningObjectsExist)])%list
             libA_in_use).
Proof.
  apply (unloadLibrary_refused_while_instances_live 1%nat libA_in_use
           {| ondemand_load_unload_ := false; library_path_ := "/p/libA";
              load_ref_count_ := 1; plugin_ref_count_ := 1 |}).
  - vm_compute. reflexivity.
  - discriminate.
  - reflexivity.
Defined.

(** ** Registration without an active loader *)

(** C4, counterexample.  At start-up the loading context has no active
    loader; the MetaObject a registration creates then has a non-empty
    owner vector: it holds the null pointer, and [isOwnedByAnybody]
    answers true. *)
Lemma registerPlugin_without_loader_owner_vector_not_empty :
  currently_active_loader (initial example_os) = None /\
  exists p s' o,
    impl.registerPlugin typeid_Base "Foo" "Base" (initial example_os) = Ret p s' /\
    meta_objects s' !! p = Some o /\
    associated_class_loaders_ o = [None] /\
    associated_class_loaders_ o <> [] /\
    AbstractMetaObjectBase.isOwnedByAnybody o = true.
Proof.
  split; [reflexivity|].
  eexists _, _, _. split; [vm_compute; reflexivity|].
  split; [vm_compute; reflexivity|].
  split; [reflexivity|]. split; [discriminate|reflexivity].
Qed.

(** C4, as amended.  A registration made while the loading context has
    no active loader returns a new MetaObject whose owner vector holds
    exactly one entry, the null loader, and which carries the names
    given and the current loading path; the MetaObject is the factory
    registered for its class under its base, and the non-pure flag is
    set afterwards. *)
Theorem registerPlugin_without_active_loader
    (Base class_name base_class_name : string) (s : State) :
  currently_active_loader s = None ->
  exists s',
    impl.registerPlugin Base class_name base_class_name s = Ret (next_address s) s' /\
    meta_objects s' !! next_address s =
      Some {| associated_class_loaders_ := [None];
              associated_library_path_ := currently_loading_library s;
              base_class_name_ := base_class_name;
              class_name_ := class_name;
              typeid_base_class_name_ := Base |} /\
    (exists factory_map,
        StdMap.find Base (factory_map_map s') = Some factory_map /\
        StdMap.find class_name factory_map = Some (next_address s)) /\
    non_pure_plugin_library_opened s' = true.
Proof.
  intros Hnone.
  unfold impl.registerPlugin, impl.getCurrentlyActiveClassLoader,
    impl.getCurrentlyLoadingLibraryName, impl.hasANonPurePluginLibraryBeenOpened_set,
    impl.getFactoryMapForBaseClass, impl.storeFactoryMap,
    bind, gets, get, log, modify, fresh_address, write_meta, read_meta, ret.
  cbn. rewrite Hnone. cbn. simpl_lookup.
  destruct (StdMap.find Base (factory_map_map s)) as [fm|] eqn:Efm; cbn.
  - destruct (StdMap.find class_name fm) eqn:Ecl; cbn;
      (eexists; split; [reflexivity|]; cbn; simpl_lookup;
       rewrite ?Hnone; split; [reflexivity|]; split; [|reflexivity];
       eexists; split; [apply find_assign_same | apply find_assign_same]).
  - eexists; split; [reflexivity|]; cbn; simpl_lookup.
    rewrite ?Hnone; split; [reflexivity|]; split; [|reflexivity].
    eexists; split; [apply find_assign_same | apply (find_assign_same class_name _ [])].
Qed.

(** C4 as amended, for a registration of [Foo] at start-up. *)
Lemma registerPlugin_without_active_loader_witness :
  exists s',
    impl.registerPlugin typeid_Base "Foo" "Base" (initial example_os) = Ret 1%nat s' /\
    meta_objects s' !! 1%nat =
      Some {| associated_class_loaders_ := [None];
              associated_library_path_ := "";
              base_class_name_ := "Base";
              class_name_ := "Foo";
              typeid_base_class_name_ := typeid_Base |} /\
    (exists factory_map,
        StdMap.find typeid_Base (factory_map_map s') = Some factory_map /\
        StdMap.find "Foo" factory_map = Some 1%nat) /\
    non_pure_plugin_library_opened s' = true.
Proof.
  apply (registerPlugin_without_active_loader typeid_Base "Foo" "Base" (initial example_os)).
  reflexivity.
Defined.

(** ** Frame reasoning *)

Ltac frame_instance :=
  try lazymatch goal with
      | |- Frame _ _ => exact _
      | |- FrameLoaders _ => exact _
      | |- FrameMulti _ _ => exact _
      end.

Ltac frame_field :=
  first [ eapply frame_console | eapply frame_meta_delete | eapply frame_next_address
        | eapply frame_factory_map_map | eapply frame_graveyard
        | eapply frame_loaded_libraries | eapply frame_currently_loading_library
        | eapply frame_currently_active_loader | eapply frame_non_pure_raised
        | eapply frame_has_unmananged_instance_been_created | eapply frame_class_loader_ptrs
        | eapply frame_plugin_holders | eapply frame_os_calls
        | apply frame_class_loaders | eapply frame_multi_delete | eapply frame_refl ];
  frame_instance.

Create HintDb frame discriminated.

Section Combinators.
Context (R : State -> State -> Prop) (PM : AbstractMetaObjectBaseImpl -> Prop)
  `{!Frame R PM}.

Lemma preserves_ret {A} (a : A) : preserves R (ret a).
Proof. intros s. apply frame_refl. Qed.

Lemma preserves_throw {A} (e : exn) : preserves R (@throw A e).
Proof. intros s. apply frame_refl. Qed.

Lemma preserves_crash {A} (c : Crash) : preserves R (@crash A c).
Proof. intros s. exact I. Qed.

Lemma preserves_get : preserves R get.
Proof. intros s. apply frame_refl. Qed.

Lemma preserves_gets {A} (f : State -> A) : preserves R (gets f).
Proof. intros s. apply frame_refl. Qed.

Lemma preserves_modify (f : State -> State) :
  (forall s, R s (f s)) -> preserves R (modify f).
Proof. intros H s. apply H. Qed.

Lemma preserves_bind {A B} (m : M A) (k : A -> M B) :
  preserves R m -> (forall a, preserves R (k a)) -> preserves R (bind m k).
Proof.
  intros Hm Hk s. unfold bind. specialize (Hm s).
  destruct (m s) as [a s'| |]; [|assumption|exact I].
  specialize (Hk a s'). destruct (k a s'); try exact I; eapply frame_trans; eassumption.
Qed.

Lemma preserves_rethrowing {A} (m : M A) (h : M unit) :
  preserves R m -> preserves R h -> preserves R (rethrowing m h).
Proof.
  intros Hm Hh s. unfold rethrowing. specialize (Hm s).
  destruct (m s) as [a s'|e s'|]; [assumption| |exact I].
  unfold bind. specialize (Hh s'). destruct (h s'); try exact I; cbn;
    eapply frame_trans; eassumption.
Qed.

Lemma preserves_noexcept {A} (m : M A) : preserves R m -> preserves R (noexcept m).
Proof.
  intros Hm s. unfold noexcept. specialize (Hm s). destruct (m s); [assumption|exact I..].
Qed.

Lemma preserves_for_each {A} (l : list A) (body : A -> M unit) :
  (forall x, preserves R (body x)) -> preserves R (for_each l body).
Proof.
  intros H. induction l as [|x l IH]; cbn.
  - apply preserves_ret.
  - apply preserves_bind; [apply H|intros _; exact IH].
Qed.

Lemma preserves_when (b : bool) (m : M unit) : preserves R m -> preserves R (when b m).
Proof. intros H. destruct b; cbn; [assumption|apply preserves_ret]. Qed.

Lemma preserves_discard {A} (m : M A) : preserves R m -> preserves R (discard m).
Proof. intros H. apply preserves_bind; [assumption|intros; apply preserves_ret]. Qed.

Lemma preserves_log lvl msg : preserves R (log lvl msg).
Proof. apply preserves_modify. intros s. apply frame_console. Qed.

Lemma preserves_fresh_address : preserves R fresh_address.
Proof. intros s. apply frame_next_address. Qed.

Lemma preserves_read_meta p : preserves R (read_meta p).
Proof. intros s. unfold read_meta. destruct (_ !! _); [apply frame_refl|exact I]. Qed.

Lemma preserves_write_meta p o : PM o -> preserves R (write_meta p o).
Proof. intros Ho s. now apply (frame_meta_write (PM := PM)). Qed.

Lemma preserves_read_meta_bind {A} p (k : AbstractMetaObjectBaseImpl -> M A) :
  (forall o, PM o -> preserves R (k o)) -> preserves R (bind (read_meta p) k).
Proof.
  intros H s. unfold bind, read_meta.
  destruct (meta_objects s !! p) as [o|] eqn:E; [|exact I].
  destruct (k o s) as [a s'|e s'|] eqn:Ek; [| |exact I];
    apply (frame_meta_read (PM := PM) s s' p o E); intros Ho;
    specialize (H o Ho s); now rewrite Ek in H.
Qed.

Lemma preserves_read_loader p : preserves R (read_loader p).
Proof. intros s. unfold read_loader. destruct (_ !! _); [apply frame_refl|exact I]. Qed.

Lemma preserves_read_multi p : preserves R (read_multi p).
Proof. intros s. unfold read_multi. destruct (_ !! _); [apply frame_refl|exact I]. Qed.

Lemma preserves_int_result z : preserves R (int_result z).
Proof. unfold int_result. destruct (_ && _); [apply preserves_ret|apply preserves_crash]. Qed.

Lemma preserves_arrow {A} (p : loader_ptr) (f : nat -> M A) :
  (forall this, preserves R (f this)) -> preserves R (arrow p f).
Proof. intros H. destruct p; cbn; [apply H|apply preserves_crash]. Qed.
End Combinators.

#[export] Hint Resolve preserves_ret preserves_throw preserves_crash preserves_get preserves_gets
  preserves_log preserves_fresh_address preserves_read_meta
  preserves_read_loader preserves_read_multi preserves_int_result : frame.

(** One step of a frame proof: split the monadic structure of the goal,
    case on the scrutinee of a conditional, or close the goal with a
    lemma of the [frame] database. *)
#[export] Hint Extern 0 (Frame _ _) => exact _ : frame.
#[export] Hint Extern 0 (FrameLoaders _) => exact _ : frame.
#[export] Hint Extern 0 (FrameMulti _ _) => exact _ : frame.

Ltac frame_meta_closed :=
  first [ assumption
        | eapply frame_meta_init; frame_instance
        | eapply frame_meta_add; frame_instance; assumption
        | eapply frame_meta_remove; frame_instance; assumption
        | eapply frame_meta_path; frame_instance; assumption ].

Ltac frame_step :=
  lazymatch goal with
  | |- preserves _ (bind (read_meta _) _) =>
      eapply preserves_read_meta_bind; frame_instance; intros ? ?
  | |- preserves _ (write_meta _ _) =>
      eapply preserves_write_meta; frame_instance; frame_meta_closed
  | |- preserves _ (bind _ _) => eapply preserves_bind; frame_instance; [|intros ?]
  | |- preserves _ (for_each _ _) => eapply preserves_for_each; frame_instance; intros ?
  | |- preserves _ (when _ _) => eapply preserves_when; frame_instance
  | |- preserves _ (discard _) => eapply preserves_discard; frame_instance
  | |- preserves _ (noexcept _) => eapply preserves_noexcept; frame_instance
  | |- preserves _ (rethrowing _ _) => eapply preserves_rethrowing; frame_instance
  | |- preserves _ (arrow _ _) => eapply preserves_arrow; frame_instance; intros ?
  | |- preserves _ (modify _) =>
      eapply preserves_modify; frame_instance; intros ?; frame_field
  | |- preserves _ (match ?x with _ => _ end) => destruct x
  | |- preserves _ (let _ := _ in _) => cbv zeta
  | |- preserves _ _ => solve [eauto with frame]
  end.

Ltac frame := repeat frame_step.

(** *** The functions of [impl] respect every frame *)

Section ImplFrames.
Context (R : State -> State -> Prop) (PM : AbstractMetaObjectBaseImpl -> Prop)
  `{!Frame R PM}.

Local Ltac start f := intros; unfold f; frame.

Lemma getFactoryMapForBaseClass_preserves b : preserves R (impl.getFactoryMapForBaseClass b).
Proof. start impl.getFactoryMapForBaseClass. Qed.

Lemma storeFactoryMap_preserves b fm : preserves R (impl.storeFactoryMap b fm).
Proof. start impl.storeFactoryMap. Qed.

Lemma getCurrentlyLoadingLibraryName_preserves : preserves R impl.getCurrentlyLoadingLibraryName.
Proof. start impl.getCurrentlyLoadingLibraryName. Qed.

Lemma setCurrentlyLoadingLibraryName_preserves n :
  preserves R (impl.setCurrentlyLoadingLibraryName n).
Proof. start impl.setCurrentlyLoadingLibraryName. Qed.

Lemma getCurrentlyActiveClassLoader_preserves : preserves R impl.getCurrentlyActiveClassLoader.
Proof. start impl.getCurrentlyActiveClassLoader. Qed.

Lemma setCurrentlyActiveClassLoader_preserves l :
  preserves R (impl.setCurrentlyActiveClassLoader l).
Proof. start impl.setCurrentlyActiveClassLoader. Qed.

Lemma hasANonPurePluginLibraryBeenOpened_preserves :
  preserves R impl.hasANonPurePluginLibraryBeenOpened.
Proof. start impl.hasANonPurePluginLibraryBeenOpened. Qed.

Lemma raise_non_pure_preserves : preserves R (impl.hasANonPurePluginLibraryBeenOpened_set true).
Proof. start impl.hasANonPurePluginLibraryBeenOpened_set. Qed.

Lemma allMetaObjects_preserves : preserves R impl.allMetaObjects.
Proof. start impl.allMetaObjects. Qed.

Lemma filterAllMetaObjectsOwnedBy_preserves l owner :
  preserves R (impl.filterAllMetaObjectsOwnedBy l owner).
Proof. induction l; cbn; frame. Qed.

Lemma filterAllMetaObjectsAssociatedWithLibrary_preserves l path :
  preserves R (impl.filterAllMetaObjectsAssociatedWithLibrary l path).
Proof. induction l; cbn; frame. Qed.

Hint Resolve getFactoryMapForBaseClass_preserves storeFactoryMap_preserves
  getCurrentlyLoadingLibraryName_preserves setCurrentlyLoadingLibraryName_preserves
  getCurrentlyActiveClassLoader_preserves setCurrentlyActiveClassLoader_preserves
  hasANonPurePluginLibraryBeenOpened_preserves raise_non_pure_preserves
  allMetaObjects_preserves filterAllMetaObjectsOwnedBy_preserves
  filterAllMetaObjectsAssociatedWithLibrary_preserves : frame.

Lemma allMetaObjectsForLibrary_preserves path : preserves R (impl.allMetaObjectsForLibrary path).
Proof. start impl.allMetaObjectsForLibrary. Qed.
Hint Resolve allMetaObjectsForLibrary_preserves : frame.

Lemma allMetaObjectsForLibraryOwnedBy_preserves path owner :
  preserves R (impl.allMetaObjectsForLibraryOwnedBy path owner).
Proof. start impl.allMetaObjectsForLibraryOwnedBy. Qed.

Lemma insertMetaObjectIntoGraveyard_preserves p :
  preserves R (impl.insertMetaObjectIntoGraveyard p).
Proof. start impl.insertMetaObjectIntoGraveyard. Qed.
Hint Resolve allMetaObjectsForLibraryOwnedBy_preserves
  insertMetaObjectIntoGraveyard_preserves : frame.

Lemma destroyMetaObjectsForLibrary_in_preserves path base loader :
  preserves R (impl.destroyMetaObjectsForLibrary_in path base loader).
Proof. start impl.destroyMetaObjectsForLibrary_in. Qed.
Hint Resolve destroyMetaObjectsForLibrary_in_preserves : frame.

Lemma destroyMetaObjectsForLibrary_preserves path loader :
  preserves R (impl.destroyMetaObjectsForLibrary path loader).
Proof. start impl.destroyMetaObjectsForLibrary. Qed.

Lemma areThereAnyExistingMetaObjectsForLibrary_preserves path :
  preserves R (impl.areThereAnyExistingMetaObjectsForLibrary path).
Proof. start impl.areThereAnyExistingMetaObjectsForLibrary. Qed.

Lemma findLoadedLibrary_preserves path : preserves R (impl.findLoadedLibrary path).
Proof. start impl.findLoadedLibrary. Qed.
Hint Resolve destroyMetaObjectsForLibrary_preserves
  areThereAnyExistingMetaObjectsForLibrary_preserves findLoadedLibrary_preserves : frame.

Lemma isLibraryLoadedByAnybody_preserves path : preserves R (impl.isLibraryLoadedByAnybody path).
Proof. start impl.isLibraryLoadedByAnybody. Qed.
Hint Resolve isLibraryLoadedByAnybody_preserves : frame.

Lemma isLibraryLoaded_preserves path loader : preserves R (impl.isLibraryLoaded path loader).
Proof. start impl.isLibraryLoaded. Qed.

Lemma loaderPathOrNULL_preserves loader : preserves R (impl.loaderPathOrNULL loader).
Proof. start impl.loaderPathOrNULL. Qed.
Hint Resolve isLibraryLoaded_preserves loaderPathOrNULL_preserves : frame.

Lemma addClassLoaderOwnerForAllExistingMetaObjectsForLibrary_preserves path loader :
  preserves R (impl.addClassLoaderOwnerForAllExistingMetaObjectsForLibrary path loader).
Proof. start impl.addClassLoaderOwnerForAllExistingMetaObjectsForLibrary. Qed.

Lemma revivePreviouslyCreateMetaobjectsFromGraveyard_preserves path loader :
  preserves R (impl.revivePreviouslyCreateMetaobjectsFromGraveyard path loader).
Proof. start impl.revivePreviouslyCreateMetaobjectsFromGraveyard. Qed.

Lemma purgeGraveyard_loop_preserves path loader g :
  preserves R (impl.purgeGraveyard_loop path loader g).
Proof. induction g; cbn; frame. Qed.
Hint Resolve addClassLoaderOwnerForAllExistingMetaObjectsForLibrary_preserves
  revivePreviouslyCreateMetaobjectsFromGraveyard_preserves purgeGraveyard_loop_preserves : frame.

Lemma purgeGraveyardOfMetaobjects_preserves path loader :
  preserves R (impl.purgeGraveyardOfMetaobjects path loader).
Proof. start impl.purgeGraveyardOfMetaobjects. Qed.

Lemma registerPlugin_preserves Base class_name base_class_name :
  preserves R (impl.registerPlugin Base class_name base_class_name).
Proof. start impl.registerPlugin. Qed.

Lemma deleter_preserves p : preserves R (impl.deleter p).
Proof. start impl.deleter. Qed.
Hint Resolve purgeGraveyardOfMetaobjects_preserves registerPlugin_preserves
  deleter_preserves : frame.

Lemma ProxyExec_preserves image r : preserves R (impl.ProxyExec image r).
Proof. start impl.ProxyExec. Qed.

Lemma os_call_preserves : preserves R impl.os_call.
Proof. intros s. apply frame_os_calls. Qed.
Hint Resolve ProxyExec_preserves os_call_preserves : frame.

Lemma SharedLibrary_make_shared_preserves path :
  preserves R (impl.SharedLibrary_make_shared path).
Proof. start impl.SharedLibrary_make_shared. Qed.

Lemma SharedLibrary_unload_library_preserves path :
  preserves R (impl.SharedLibrary_unload_library path).
Proof. start impl.SharedLibrary_unload_library. Qed.
Hint Resolve SharedLibrary_make_shared_preserves SharedLibrary_unload_library_preserves : frame.

Lemma impl_loadLibrary_preserves path loader : preserves R (impl.loadLibrary path loader).
Proof. start impl.loadLibrary. Qed.

Lemma impl_unloadLibrary_preserves path loader : preserves R (impl.unloadLibrary path loader).
Proof. start impl.unloadLibrary. Qed.

Lemma impl_createInstance_preserves Base name loader :
  preserves R (impl.createInstance Base name loader).
Proof. start impl.createInstance. Qed.

Lemma impl_getAvailableClasses_loop_preserves fm loader a b :
  preserves R (impl.getAvailableClasses_loop fm loader a b).
Proof. revert a b. induction fm; intros; cbn; frame. Qed.
Hint Resolve impl_getAvailableClasses_loop_preserves : frame.

Lemma impl_getAvailableClasses_preserves Base loader :
  preserves R (impl.getAvailableClasses Base loader).
Proof. start impl.getAvailableClasses. Qed.
End ImplFrames.

#[export] Hint Resolve impl_loadLibrary_preserves impl_unloadLibrary_preserves
  impl_createInstance_preserves impl_getAvailableClasses_preserves isLibraryLoaded_preserves
  isLibraryLoadedByAnybody_preserves ProxyExec_preserves : frame.

(** *** So do the member functions of ClassLoader and of
    MultiLibraryClassLoader, for frames that admit the updates of their
    objects *)

Section ClassLoaderFrames.
Context (R : State -> State -> Prop) (PM : AbstractMetaObjectBaseImpl -> Prop)
  `{!Frame R PM} `{!FrameLoaders R}.

Local Ltac start f := intros; unfold f; frame.

Lemma write_loader_preserves p c : preserves R (write_loader p c).
Proof. start @write_loader. Qed.

Lemma setUnmanagedInstanceBeenCreated_preserves b :
  preserves R (ClassLoader.setUnmanagedInstanceBeenCreated b).
Proof. start ClassLoader.setUnmanagedInstanceBeenCreated. Qed.

Lemma hasUnmanagedInstanceBeenCreated_preserves :
  preserves R ClassLoader.hasUnmanagedInstanceBeenCreated.
Proof. start ClassLoader.hasUnmanagedInstanceBeenCreated. Qed.

Lemma getLibraryPath_preserves this : preserves R (ClassLoader.getLibraryPath this).
Proof. start ClassLoader.getLibraryPath. Qed.

Lemma isOnDemandLoadUnloadEnabled_preserves this :
  preserves R (ClassLoader.isOnDemandLoadUnloadEnabled this).
Proof. start ClassLoader.isOnDemandLoadUnloadEnabled. Qed.
Hint Resolve write_loader_preserves setUnmanagedInstanceBeenCreated_preserves
  hasUnmanagedInstanceBeenCreated_preserves getLibraryPath_preserves
  isOnDemandLoadUnloadEnabled_preserves : frame.

Lemma ClassLoader_isLibraryLoaded_preserves this : preserves R (ClassLoader.isLibraryLoaded this).
Proof. start ClassLoader.isLibraryLoaded. Qed.

Lemma ClassLoader_loadLibrary_preserves this : preserves R (ClassLoader.loadLibrary this).
Proof. start ClassLoader.loadLibrary. Qed.

Lemma unloadLibraryInternal_preserves this b :
  preserves R (ClassLoader.unloadLibraryInternal this b).
Proof. start ClassLoader.unloadLibraryInternal. Qed.
Hint Resolve ClassLoader_isLibraryLoaded_preserves ClassLoader_loadLibrary_preserves
  unloadLibraryInternal_preserves : frame.

Lemma ClassLoader_unloadLibrary_preserves this : preserves R (ClassLoader.unloadLibrary this).
Proof. start ClassLoader.unloadLibrary. Qed.
Hint Resolve ClassLoader_unloadLibrary_preserves : frame.

Lemma ClassLoader_new_preserves path ondemand : preserves R (ClassLoader.new path ondemand).
Proof. start ClassLoader.new. Qed.

Lemma ClassLoader_delete_preserves this : preserves R (ClassLoader.delete_ this).
Proof. start ClassLoader.delete_. Qed.

Lemma ClassLoader_getAvailableClasses_preserves Base this :
  preserves R (ClassLoader.getAvailableClasses Base this).
Proof. start ClassLoader.getAvailableClasses. Qed.
Hint Resolve ClassLoader_new_preserves ClassLoader_delete_preserves
  ClassLoader_getAvailableClasses_preserves : frame.

Lemma ClassLoader_isClassAvailable_preserves Base this name :
  preserves R (ClassLoader.isClassAvailable Base this name).
Proof. start ClassLoader.isClassAvailable. Qed.

Lemma createRawInstance_preserves Base this name managed :
  preserves R (ClassLoader.createRawInstance Base this name managed).
Proof. start ClassLoader.createRawInstance. Qed.
Hint Resolve ClassLoader_isClassAvailable_preserves createRawInstance_preserves : frame.

Lemma ClassLoader_createInstance_preserves Base this name :
  preserves R (ClassLoader.createInstance Base this name).
Proof. start ClassLoader.createInstance. Qed.

Lemma ClassLoader_createUniqueInstance_preserves Base this name :
  preserves R (ClassLoader.createUniqueInstance Base this name).
Proof. start ClassLoader.createUniqueInstance. Qed.

Lemma ClassLoader_createUnmanagedInstance_preserves Base this name :
  preserves R (ClassLoader.createUnmanagedInstance Base this name).
Proof. start ClassLoader.createUnmanagedInstance. Qed.

Lemma onPluginDeletion_preserves this : preserves R (ClassLoader.onPluginDeletion this).
Proof. start ClassLoader.onPluginDeletion. Qed.
Hint Resolve onPluginDeletion_preserves : frame.

Lemma release_preserves h : preserves R (ClassLoader.release h).
Proof. start ClassLoader.release. Qed.
End ClassLoaderFrames.

#[export] Hint Resolve ClassLoader_isLibraryLoaded_preserves ClassLoader_loadLibrary_preserves
  ClassLoader_unloadLibrary_preserves ClassLoader_new_preserves ClassLoader_delete_preserves
  ClassLoader_getAvailableClasses_preserves ClassLoader_isClassAvailable_preserves
  ClassLoader_createInstance_preserves ClassLoader_createUniqueInstance_preserves
  ClassLoader_createUnmanagedInstance_preserves release_preserves : frame.

Section MultiLibraryClassLoaderFrames.
Context (R : State -> State -> Prop) (PM : AbstractMetaObjectBaseImpl -> Prop)
  (P : MultiLibraryClassLoaderImpl -> Prop)
  `{!Frame R PM} `{!FrameLoaders R} `{!FrameMulti R P}.

Lemma write_multi_preserves p i : P i -> preserves R (write_multi p i).
Proof. intros Hi s. now apply (frame_multi_write (P := P)). Qed.

Lemma read_multi_bind_preserves {A} this (k : MultiLibraryClassLoaderImpl -> M A) :
  (forall i, P i -> preserves R (k i)) -> preserves R (bind (read_multi this) k).
Proof.
  intros H s. unfold bind, read_multi.
  destruct (multi_loaders s !! this) as [i|] eqn:E; [|exact I].
  destruct (k i s) as [a s'|e s'|] eqn:Ek; [| |exact I];
    apply (frame_multi_read (P := P) s s' this i E); intros Hi;
    specialize (H i Hi s); now rewrite Ek in H.
Qed.

(** Frame steps that know about reads and writes of a
    MultiLibraryClassLoader. *)
Local Ltac multi_step :=
  lazymatch goal with
  | |- preserves _ (bind (read_multi _) _) =>
      apply read_multi_bind_preserves; intros ? ?
  | |- preserves _ (write_multi _ _) =>
      apply write_multi_preserves;
      first [ apply (frame_multi_new (R := R))
            | now apply (frame_multi_assign (R := R))
            | now apply (frame_multi_index (R := R)) ]
  | |- _ => frame_step
  end.

Local Ltac start f := intros; unfold f; repeat multi_step.

Lemma Multi_new_preserves b : preserves R (MultiLibraryClassLoader.new b).
Proof. start MultiLibraryClassLoader.new. Qed.

Lemma Multi_isOnDemandLoadUnloadEnabled_preserves this :
  preserves R (MultiLibraryClassLoader.isOnDemandLoadUnloadEnabled this).
Proof. start MultiLibraryClassLoader.isOnDemandLoadUnloadEnabled. Qed.

Lemma getRegisteredLibraries_preserves this :
  preserves R (MultiLibraryClassLoader.getRegisteredLibraries this).
Proof. start MultiLibraryClassLoader.getRegisteredLibraries. Qed.

Lemma getClassLoaderForLibrary_preserves this path :
  preserves R (MultiLibraryClassLoader.getClassLoaderForLibrary this path).
Proof. start MultiLibraryClassLoader.getClassLoaderForLibrary. Qed.

Lemma getAllAvailableClassLoaders_preserves this :
  preserves R (MultiLibraryClassLoader.getAllAvailableClassLoaders this).
Proof. start MultiLibraryClassLoader.getAllAvailableClassLoaders. Qed.
Hint Resolve Multi_isOnDemandLoadUnloadEnabled_preserves getRegisteredLibraries_preserves
  getClassLoaderForLibrary_preserves getAllAvailableClassLoaders_preserves : frame.

Lemma isLibraryAvailable_preserves this name :
  preserves R (MultiLibraryClassLoader.isLibraryAvailable this name).
Proof. start MultiLibraryClassLoader.isLibraryAvailable. Qed.
Hint Resolve isLibraryAvailable_preserves : frame.

Lemma Multi_loadLibrary_preserves this path :
  preserves R (MultiLibraryClassLoader.loadLibrary this path).
Proof. start MultiLibraryClassLoader.loadLibrary. Qed.

Lemma Multi_unloadLibrary_preserves this path :
  preserves R (MultiLibraryClassLoader.unloadLibrary this path).
Proof. start MultiLibraryClassLoader.unloadLibrary. Qed.
Hint Resolve Multi_unloadLibrary_preserves : frame.

Lemma shutdownAllClassLoaders_preserves this :
  preserves R (MultiLibraryClassLoader.shutdownAllClassLoaders this).
Proof. start MultiLibraryClassLoader.shutdownAllClassLoaders. Qed.
Hint Resolve shutdownAllClassLoaders_preserves : frame.

Lemma Multi_delete_preserves this : preserves R (MultiLibraryClassLoader.delete_ this).
Proof. start MultiLibraryClassLoader.delete_. Qed.

Lemma Multi_getAvailableClasses_loop_preserves Base loaders acc :
  preserves R (MultiLibraryClassLoader.getAvailableClasses_loop Base loaders acc).
Proof. revert acc. induction loaders; intros; cbn; repeat multi_step. Qed.
Hint Resolve Multi_getAvailableClasses_loop_preserves : frame.

Lemma Multi_getAvailableClasses_preserves Base this :
  preserves R (MultiLibraryClassLoader.getAvailableClasses Base this).
Proof. start MultiLibraryClassLoader.getAvailableClasses. Qed.

Lemma getAvailableClassesForLibrary_preserves Base this path :
  preserves R (MultiLibraryClassLoader.getAvailableClassesForLibrary Base this path).
Proof. start MultiLibraryClassLoader.getAvailableClassesForLibrary. Qed.

Lemma getClassLoaderForClass_loop_preserves Base name loaders :
  preserves R (MultiLibraryClassLoader.getClassLoaderForClass_loop Base name loaders).
Proof. induction loaders; cbn; repeat multi_step. Qed.
Hint Resolve getClassLoaderForClass_loop_preserves : frame.

Lemma getClassLoaderForClass_preserves Base this name :
  preserves R (MultiLibraryClassLoader.getClassLoaderForClass Base this name).
Proof. start MultiLibraryClassLoader.getClassLoaderForClass. Qed.
Hint Resolve getClassLoaderForClass_preserves : frame.

Lemma Multi_createInstance_preserves Base this name :
  preserves R (MultiLibraryClassLoader.createInstance Base this name).
Proof. start MultiLibraryClassLoader.createInstance. Qed.

Lemma Multi_createUniqueInstance_preserves Base this name :
  preserves R (MultiLibraryClassLoader.createUniqueInstance Base this name).
Proof. start MultiLibraryClassLoader.createUniqueInstance. Qed.

Lemma Multi_createUnmanagedInstance_preserves Base this name :
  preserves R (MultiLibraryClassLoader.createUnmanagedInstance Base this name).
Proof. start MultiLibraryClassLoader.createUnmanagedInstance. Qed.

Lemma Multi_createInstance_from_preserves Base this name path :
  preserves R (MultiLibraryClassLoader.createInstance_from Base this name path).
Proof. start MultiLibraryClassLoader.createInstance_from. Qed.

Lemma Multi_createUniqueInstance_from_preserves Base this name path :
  preserves R (MultiLibraryClassLoader.createUniqueInstance_from Base this name path).
Proof. start MultiLibraryClassLoader.createUniqueInstance_from. Qed.

Lemma Multi_createUnmanagedInstance_from_preserves Base this name path :
  preserves R (MultiLibraryClassLoader.createUnmanagedInstance_from Base this name path).
Proof. start MultiLibraryClassLoader.createUnmanagedInstance_from. Qed.

Hint Resolve Multi_new_preserves Multi_loadLibrary_preserves Multi_delete_preserves
  Multi_getAvailableClasses_preserves getAvailableClassesForLibrary_preserves
  Multi_createInstance_preserves Multi_createUniqueInstance_preserves
  Multi_createUnmanagedInstance_preserves Multi_createInstance_from_preserves
  Multi_createUniqueInstance_from_preserves Multi_createUnmanagedInstance_from_preserves : frame.

(** Every call respects such a frame, and so does every history. *)
Lemma run_call_preserves c : preserves R (run_call c).
Proof. destruct c; cbn; repeat multi_step. Qed.

Lemma reaches_preserves s0 s : reaches s0 s -> R s0 s.
Proof.
  induction 1 as [|s c s' _ IH Hc]; [apply frame_refl|].
  pose proof (run_call_preserves c s) as Hp.
  inversion Hc as [a s1 E|e s1 E]; subst; rewrite <- E in Hp;
    eapply frame_trans; eassumption.
Qed.
End MultiLibraryClassLoaderFrames.

(** ** The non-pure flag is a latch *)

#[export] Instance flag_latched_frame : Frame flag_latched any_meta.
Proof. split; unfold flag_latched, any_meta; cbn; intuition. Qed.

#[export] Instance flag_latched_loaders : FrameLoaders flag_latched.
Proof. unfold FrameLoaders, flag_latched; cbn; auto. Qed.

#[export] Instance flag_latched_multi : FrameMulti flag_latched any_multi.
Proof. split; unfold flag_latched, any_multi; cbn; auto. Qed.

Lemma unloadLibrary_when_non_pure (library_path : string) (loader : loader_ptr) (s : State) :
  non_pure_plugin_library_opened s = true ->
  impl.unloadLibrary library_path loader s =
    Ret tt (set_console (console s ++ [(LogDebug, MsgCannotUnloadNonPure library_path)])%list s).
Proof.
  intros H. unfold impl.unloadLibrary, impl.hasANonPurePluginLibraryBeenOpened, bind, gets.
  rewrite H. reflexivity.
Qed.

(** C7, counterexample.  In a process whose non-pure flag is set, the
    refused unload writes one entry to the log, at debug level; there is
    no entry at warning level. *)
Lemma refused_unload_is_logged_at_debug_level :
  non_pure_plugin_library_opened non_pure_process = true /\
  exists s',
    impl.unloadLibrary "/p/libA" (Some 2%nat) non_pure_process = Ret tt s' /\
    console s' =
      (console non_pure_process ++ [(LogDebug, MsgCannotUnloadNonPure "/p/libA")])%list /\
    forall msg, ~ In (LogWarn, msg) (console s').
Proof.
  split; [reflexivity|]. eexists. split; [vm_compute; reflexivity|].
  split; [reflexivity|]. intros msg H. cbn in H.
  repeat (destruct H as [H|H]; [discriminate H|]). exact H.
Qed.

(** C7, as amended.  Once the non-pure flag is set it stays set through
    every later call of the library, and from then on every
    registry-level [unloadLibrary], for every path and every loader,
    returns after writing one debug-level entry to the log and nothing
    else: no library is closed, the factory map, the MetaObjects and the
    vector of open libraries are untouched. *)
Theorem unloadLibrary_refused_once_non_pure
    (s0 s : State) (library_path : string) (loader : loader_ptr) :
  non_pure_plugin_library_opened s0 = true ->
  reaches s0 s ->
  non_pure_plugin_library_opened s = true /\
  impl.unloadLibrary library_path loader s =
    Ret tt (set_console (console s ++ [(LogDebug, MsgCannotUnloadNonPure library_path)])%list s).
Proof.
  intros H0 Hr.
  assert (non_pure_plugin_library_opened s = true) as Hs
      by exact (reaches_preserves flag_latched any_meta any_multi s0 s Hr H0).
  split; [assumption|]. now apply unloadLibrary_when_non_pure.
Qed.

Lemma run_reaches (calls : list Call) (s s' : State) : run calls s = Some s' -> reaches s s'.
Proof.
  assert (forall s0, reaches s0 s -> run calls s = Some s' -> reaches s0 s') as G.
  { revert s. induction calls as [|c calls IH]; cbn; intros s s0 Hr Hrun.
    - injection Hrun as <-. assumption.
    - destruct (run_call c s) as [a s1|e s1|] eqn:E; [| |discriminate];
        (apply (IH s1); [|assumption]); eapply reaches_call; try eassumption;
        rewrite E; constructor. }
  apply G. constructor.
Qed.

(** C7 as amended, for a ClassLoader that loaded [/p/libA] after the flag
    was set. *)
Lemma unloadLibrary_refused_once_non_pure_witness :
  non_pure_plugin_library_opened non_pure_process_with_libA = true /\
  impl.unloadLibrary "/p/libA" (Some 2%nat) non_pure_process_with_libA =
    Ret tt (set_console (console non_pure_process_with_libA ++
                         [(LogDebug, MsgCannotUnloadNonPure "/p/libA")])%list
              non_pure_process_with_libA).
Proof.
  apply (unloadLibrary_refused_once_non_pure non_pure_process non_pure_process_with_libA).
  - reflexivity.
  - apply (run_reaches [NewClassLoader "/p/libA" false]). vm_compute. reflexivity.
Defined.

(** ** Load counting *)

#[local] Arguments impl.loadLibrary : simpl never.
#[local] Arguments impl.unloadLibrary : simpl never.

#[export] Instance same_class_loaders_frame : Frame same_class_loaders any_meta.
Proof. split; unfold same_class_loaders, any_meta; cbn; intuition congruence. Qed.

Lemma set_class_loaders_id (s : State) : set_class_loaders (class_loaders s) s = s.
Proof. now destruct s. Qed.

Lemma with_load_count_id this c s :
  class_loaders s !! this = Some c -> with_load_count this c (load_ref_count_ c) s = s.
Proof.
  intros H. unfold with_load_count.
  replace (ClassLoader.with_load_ref_count (load_ref_count_ c) c) with c by now destruct c.
  rewrite insert_id by assumption. apply set_class_loaders_id.
Qed.

Lemma with_load_count_twice this c n m s :
  with_load_count this (ClassLoader.with_load_ref_count n c) m (with_load_count this c n s) =
  with_load_count this c m s.
Proof. unfold with_load_count. cbn. now rewrite insert_insert_eq. Qed.

Lemma with_load_count_lookup this c n s :
  class_loaders (with_load_count this c n s) !! this = Some (ClassLoader.with_load_ref_count n c).
Proof. unfold with_load_count. cbn. apply lookup_insert_eq. Qed.

(** [loadLibrary] on a non-empty path: the count goes up by one, then
    the registry-level load runs; whatever that does, it leaves the
    ClassLoader objects alone. *)
Lemma ClassLoader_loadLibrary_unfold this s c :
  class_loaders s !! this = Some c ->
  library_path_ c <> "" ->
  INT_MIN <= load_ref_count_ c + 1 <= INT_MAX ->
  ClassLoader.loadLibrary this s =
    impl.loadLibrary (library_path_ c) (Some this)
      (with_load_count this c (load_ref_count_ c + 1) s).
Proof.
  intros H Hp Hr.
  unfold ClassLoader.loadLibrary, ClassLoader.getLibraryPath, bind.
  rewrite (read_loader_at _ _ _ H). cbn.
  destruct (String.eqb_spec (library_path_ c) "") as [E|E]; [contradiction|].
  rewrite (read_loader_at _ _ _ H). unfold int_result.
  replace ((INT_MIN <=? load_ref_count_ c + 1) && (load_ref_count_ c + 1 <=? INT_MAX)) with true
    by (symmetry; apply andb_true_iff; split; apply Z.leb_le; lia).
  cbn. unfold read_loader. cbn. rewrite lookup_insert_eq. reflexivity.
Qed.

Lemma ClassLoader_loadLibrary_returns this s c s' :
  class_loaders s !! this = Some c ->
  library_path_ c <> "" ->
  ClassLoader.loadLibrary this s = Ret tt s' ->
  load_ref_count_ c + 1 <= INT_MAX /\
  class_loaders s' =
    <[this := ClassLoader.with_load_ref_count (load_ref_count_ c + 1) c]> (class_loaders s).
Proof.
  intros H Hp Hret.
  destruct (Z_le_gt_dec (load_ref_count_ c + 1) INT_MAX) as [Hle|Hgt];
    destruct (Z_le_gt_dec INT_MIN (load_ref_count_ c + 1)) as [Hge|Hlt].
  - split; [assumption|].
    rewrite (ClassLoader_loadLibrary_unfold this s c) in Hret by (auto; lia).
    pose proof (impl_loadLibrary_preserves same_class_loaders any_meta (library_path_ c) (Some this)
                  (with_load_count this c (load_ref_count_ c + 1) s)) as Hf.
    rewrite Hret in Hf. unfold same_class_loaders in Hf. now rewrite <- Hf.
  - exfalso. revert Hret.
    unfold ClassLoader.loadLibrary, ClassLoader.getLibraryPath, bind.
    rewrite (read_loader_at _ _ _ H). cbn.
    destruct (String.eqb_spec (library_path_ c) "") as [E|E]; [contradiction|].
    rewrite (read_loader_at _ _ _ H). unfold int_result.
    replace (INT_MIN <=? load_ref_count_ c + 1) with false by (symmetry; apply Z.leb_gt; lia).
    cbn. discriminate.
  - exfalso. revert Hret.
    unfold ClassLoader.loadLibrary, ClassLoader.getLibraryPath, bind.
    rewrite (read_loader_at _ _ _ H). cbn.
    destruct (String.eqb_spec (library_path_ c) "") as [E|E]; [contradiction|].
    rewrite (read_loader_at _ _ _ H). unfold int_result.
    replace (load_ref_count_ c + 1 <=? INT_MAX) with false by (symmetry; apply Z.leb_gt; lia).
    rewrite andb_false_r. cbn. discriminate.
  - unfold INT_MIN, INT_MAX in *. lia.
Qed.

Lemma bind_returns {A B} (m : M A) (k : A -> M B) s b s' :
  bind m k s = Ret b s' -> exists a s1, m s = Ret a s1 /\ k a s1 = Ret b s'.
Proof. unfold bind. destruct (m s) as [a s1| |]; [eauto|discriminate..]. Qed.

Lemma with_load_ref_count_twice n m c :
  ClassLoader.with_load_ref_count n (ClassLoader.with_load_ref_count m c) =
  ClassLoader.with_load_ref_count n c.
Proof. reflexivity. Qed.

Lemma load_times_count k this s c s' :
  class_loaders s !! this = Some c ->
  library_path_ c <> "" ->
  load_times k this s = Ret tt s' ->
  (k = O \/ load_ref_count_ c + Z.of_nat k <= INT_MAX) /\
  class_loaders s' !! this =
    Some (ClassLoader.with_load_ref_count (load_ref_count_ c + Z.of_nat k) c).
Proof.
  revert s c. induction k as [|k IH]; intros s c H Hp Hret.
  - cbn in Hret. injection Hret as <-. split; [now left|].
    rewrite Z.add_0_r. rewrite H. f_equal. now destruct c.
  - cbn [load_times] in Hret. apply bind_returns in Hret as ([] & s1 & H1 & H2).
    apply (ClassLoader_loadLibrary_returns this s c s1 H Hp) in H1 as [Hle Hcl].
    assert (class_loaders s1 !! this =
              Some (ClassLoader.with_load_ref_count (load_ref_count_ c + 1) c)) as Hs1
        by (rewrite Hcl; apply lookup_insert_eq).
    destruct (IH s1 _ Hs1 Hp H2) as [Hb Hk]. cbn in Hb, Hk.
    split.
    + right. destruct Hb as [->|Hb]; lia.
    + rewrite Hk. f_equal. rewrite with_load_ref_count_twice. f_equal. lia.
Qed.

(** An [unloadLibrary] that leaves a positive count. *)
Lemma unloadLibrary_counts_down this s c n :
  class_loaders s !! this = Some c ->
  library_path_ c <> "" ->
  plugin_ref_count_ c <= 0 ->
  load_ref_count_ c = n + 1 ->
  1 <= n <= INT_MAX ->
  ClassLoader.unloadLibrary this s = Ret n (with_load_count this c n s).
Proof.
  intros H Hp Hi Hn Hr.
  unfold ClassLoader.unloadLibrary, ClassLoader.unloadLibraryInternal,
    ClassLoader.getLibraryPath, bind.
  rewrite (read_loader_at _ _ _ H). cbn.
  destruct (String.eqb_spec (library_path_ c) "") as [E|E]; [contradiction|].
  rewrite (read_loader_at _ _ _ H).
  destruct (Z.ltb_spec 0 (plugin_ref_count_ c)); [lia|].
  rewrite Hn. replace (n + 1 - 1) with n by lia. in_int_range. cbn.
  destruct (Z.eqb_spec n 0); [lia|]. destruct (Z.ltb_spec n 0); [lia|].
  cbn. unfold read_loader. cbn. rewrite lookup_insert_eq. reflexivity.
Qed.

Lemma unload_times_counts_down k this s c :
  class_loaders s !! this = Some c ->
  library_path_ c <> "" ->
  plugin_ref_count_ c <= 0 ->
  load_ref_count_ c = Z.of_nat k + 1 ->
  load_ref_count_ c <= INT_MAX ->
  unload_times k this s = Ret (countdown k) (with_load_count this c 1 s).
Proof.
  revert s c. induction k as [|k IH]; intros s c H Hp Hi Hn Hmax.
  - cbn. replace 1 with (load_ref_count_ c) by (rewrite Hn; reflexivity).
    now rewrite with_load_count_id.
  - cbn [unload_times countdown]. unfold bind at 1.
    rewrite (unloadLibrary_counts_down this s c (Z.of_nat (S k))) by (auto; lia).
    unfold bind at 1.
    rewrite (IH (with_load_count this c (Z.of_nat (S k)) s)
                (ClassLoader.with_load_ref_count (Z.of_nat (S k)) c));
      [|apply with_load_count_lookup|assumption|assumption|cbn; lia|cbn; lia].
    now rewrite with_load_count_twice.
Qed.

(** The [unloadLibrary] that brings the count to zero hands over to the
    registry-level unload and returns 0 when that returns. *)
Lemma unloadLibrary_last this s c :
  class_loaders s !! this = Some c ->
  library_path_ c <> "" ->
  plugin_ref_count_ c <= 0 ->
  load_ref_count_ c = 1 ->
  ClassLoader.unloadLibrary this s =
    match impl.unloadLibrary (library_path_ c) (Some this) (with_load_count this c 0 s) with
    | Ret _ s' => Ret 0 s'
    | Throw e s' => Throw e s'
    | Undefined u => Undefined u
    end.
Proof.
  intros H Hp Hi Hn.
  unfold ClassLoader.unloadLibrary, ClassLoader.unloadLibraryInternal,
    ClassLoader.getLibraryPath, bind.
  rewrite (read_loader_at _ _ _ H). cbn.
  destruct (String.eqb_spec (library_path_ c) "") as [E|E]; [contradiction|].
  rewrite (read_loader_at _ _ _ H).
  destruct (Z.ltb_spec 0 (plugin_ref_count_ c)); [lia|].
  rewrite Hn. replace (1 - 1) with 0 by reflexivity. in_int_range.
  cbn. unfold read_loader at 1. cbn. simpl_lookup.
  fold (with_load_count this c 0 s).
  pose proof (impl_unloadLibrary_preserves same_class_loaders any_meta (library_path_ c) (Some this)
                (with_load_count this c 0 s)) as Hf.
  destruct (impl.unloadLibrary (library_path_ c) (Some this) (with_load_count this c 0 s))
    as [[] s'|e s'|u]; try reflexivity.
  unfold same_class_loaders in Hf. unfold read_loader. rewrite <- Hf.
  rewrite with_load_count_lookup. reflexivity.
Qed.

(** Once the count is zero, [unloadLibrary] returns 0 and changes
    nothing: the decrement to -1 is reset to 0. *)
Lemma unloadLibrary_clamped this s c :
  class_loaders s !! this = Some c ->
  library_path_ c <> "" ->
  plugin_ref_count_ c <= 0 ->
  load_ref_count_ c = 0 ->
  ClassLoader.unloadLibrary this s = Ret 0 s.
Proof.
  intros H Hp Hi Hn.
  unfold ClassLoader.unloadLibrary, ClassLoader.unloadLibraryInternal,
    ClassLoader.getLibraryPath, bind.
  rewrite (read_loader_at _ _ _ H). cbn.
  destruct (String.eqb_spec (library_path_ c) "") as [E|E]; [contradiction|].
  rewrite (read_loader_at _ _ _ H).
  destruct (Z.ltb_spec 0 (plugin_ref_count_ c)); [lia|].
  rewrite Hn. replace (0 - 1) with (-1) by reflexivity. in_int_range.
  cbn. unfold read_loader. cbn. simpl_lookup. f_equal.
  rewrite insert_insert_eq, with_load_ref_count_twice.
  replace (ClassLoader.with_load_ref_count 0 c) with c
    by (destruct c; cbn in *; subst; reflexivity).
  rewrite insert_id by assumption. now destruct s.
Qed.

Lemma unload_times_clamped n this s c :
  class_loaders s !! this = Some c ->
  library_path_ c <> "" ->
  plugin_ref_count_ c <= 0 ->
  load_ref_count_ c = 0 ->
  unload_times n this s = Ret (repeat 0 n) s.
Proof.
  intros H Hp Hi Hn. induction n as [|n IH]; cbn; [reflexivity|].
  unfold bind. rewrite (unloadLibrary_clamped this s c) by assumption.
  now rewrite IH.
Qed.

Lemma countdown_positive k : Forall (fun r => 0 < r) (countdown k).
Proof. induction k; cbn [countdown]; constructor; [lia|assumption]. Qed.

(** C6, counterexample.  A ClassLoader for the empty path, nothing
    loaded and no instance created: [loadLibrary] twice, then
    [unloadLibrary] twice.  The first unload, which the claim calls
    intermediate, returns 0 and not a positive count. *)
Lemma two_loads_of_the_empty_path_unload_at_once :
  (exists c, class_loaders empty_path_loader !! 1%nat = Some c /\
             load_ref_count_ c = 0 /\ plugin_ref_count_ c = 0) /\
  load_times 2 1%nat empty_path_loader = Ret tt empty_path_loader /\
  unload_times 2 1%nat empty_path_loader = Ret [0; 0] empty_path_loader.
Proof.
  split; [|split].
  - eexists. split; [vm_compute; reflexivity|]. split; reflexivity.
  - vm_compute. reflexivity.
  - vm_compute. reflexivity.
Qed.

(** C6, as amended.  Take a ClassLoader with a non-empty library path,
    load count 0 and no live instance, and let [k >= 1] calls of
    [loadLibrary] return.  Then the load count is [k]; the first [k-1]
    calls of [unloadLibrary] return [k-1], ..., [1], all positive, and
    leave the count at 1; the [k]-th sets the count to 0, hands over to
    the registry-level unload and returns 0 when that returns (it
    throws what that throws); in the state left by it the count is 0,
    and every further [unloadLibrary] returns 0 and changes nothing. *)
Theorem k_loads_need_k_unloads
    (this : nat) (s s1 : State) (c : ClassLoaderData) (k : nat) :
  class_loaders s !! this = Some c ->
  library_path_ c <> "" ->
  load_ref_count_ c = 0 ->
  plugin_ref_count_ c = 0 ->
  (1 <= k)%nat ->
  load_times k this s = Ret tt s1 ->
  class_loaders s1 !! this = Some (ClassLoader.with_load_ref_count (Z.of_nat k) c) /\
  unload_times (k - 1) this s1 = Ret (countdown (k - 1)) (with_load_count this c 1 s1) /\
  Forall (fun r => 0 < r) (countdown (k - 1)) /\
  ClassLoader.unloadLibrary this (with_load_count this c 1 s1) =
    match impl.unloadLibrary (library_path_ c) (Some this) (with_load_count this c 0 s1) with
    | Ret _ s3 => Ret 0 s3
    | Throw e s3 => Throw e s3
    | Undefined u => Undefined u
    end /\
  forall s3,
    leaves (impl.unloadLibrary (library_path_ c) (Some this) (with_load_count this c 0 s1)) s3 ->
    class_loaders s3 !! this = Some (ClassLoader.with_load_ref_count 0 c) /\
    forall n, unload_times n this s3 = Ret (repeat 0 n) s3.
Proof.
  intros H Hp Hl Hi Hk Hloads.
  destruct (load_times_count k this s c s1 H Hp Hloads) as [Hmax Hs1].
  rewrite Hl, Z.add_0_l in Hs1. rewrite Hl in Hmax.
  assert (Z.of_nat k <= INT_MAX) as Hk' by (destruct Hmax; lia).
  split; [assumption|]. split; [|split; [apply countdown_positive|split]].
  - rewrite (unload_times_counts_down (k - 1) this s1 _ Hs1);
      [reflexivity|assumption|..]; cbn [ClassLoader.with_load_ref_count
        plugin_ref_count_ load_ref_count_]; lia.
  - rewrite (unloadLibrary_last this (with_load_count this c 1 s1)
               (ClassLoader.with_load_ref_count 1 c));
      [|apply with_load_count_lookup|assumption|cbn; lia|reflexivity].
    now rewrite with_load_count_twice.
  - intros s3 Hleft.
    assert (class_loaders s3 = class_loaders (with_load_count this c 0 s1)) as Hsame.
    { pose proof (impl_unloadLibrary_preserves same_class_loaders any_meta (library_path_ c) (Some this)
                    (with_load_count this c 0 s1)) as Hf.
      inversion Hleft as [a s' E|e s' E]; subst; rewrite <- E in Hf; now symmetry. }
    assert (class_loaders s3 !! this = Some (ClassLoader.with_load_ref_count 0 c)) as Hs3
        by (rewrite Hsame; apply with_load_count_lookup).
    split; [assumption|]. intros n.
    apply (unload_times_clamped n this s3 _ Hs3); cbn; try assumption; lia.
Qed.

(** C6 as amended, for three loads of [/p/libA] by an on-demand
    ClassLoader. *)
Lemma k_loads_need_k_unloads_witness :
  let c := {| ondemand_load_unload_ := true; library_path_ := "/p/libA";
              load_ref_count_ := 0; plugin_ref_count_ := 0 |} in
  let s1 := libA_loaded_three_times in
  class_loaders s1 !! 1%nat = Some (ClassLoader.with_load_ref_count 3 c) /\
  unload_times 2 1%nat s1 = Ret [2; 1] (with_load_count 1%nat c 1 s1) /\
  Forall (fun r => 0 < r) [2; 1] /\
  ClassLoader.unloadLibrary 1%nat (with_load_count 1%nat c 1 s1) =
    match impl.unloadLibrary "/p/libA" (Some 1%nat) (with_load_count 1%nat c 0 s1) with
    | Ret _ s3 => Ret 0 s3
    | Throw e s3 => Throw e s3
    | Undefined u => Undefined u
    end /\
  forall s3,
    leaves (impl.unloadLibrary "/p/libA" (Some 1%nat) (with_load_count 1%nat c 0 s1)) s3 ->
    class_loaders s3 !! 1%nat = Some (ClassLoader.with_load_ref_count 0 c) /\
    forall n, unload_times n 1%nat s3 = Ret (repeat 0 n) s3.
Proof.
  intros c s1.
  apply (k_loads_need_k_unloads 1%nat lazy_libA_loader s1 c 3).
  - vm_compute. reflexivity.
  - discriminate.
  - reflexivity.
  - reflexivity.
  - lia.
  - vm_compute. reflexivity.
Defined.

(** ** isLibraryLoaded *)

Lemma filterAllMetaObjectsOwnedBy_returns l owner s r s' :
  impl.filterAllMetaObjectsOwnedBy l owner s = Ret r s' ->
  s' = s /\ (length r <= length l)%nat.
Proof.
  revert r s'. induction l as [|f l IH]; cbn; intros r s' H.
  - injection H as <- <-. split; [reflexivity|cbn; lia].
  - unfold bind, read_meta in H. destruct (meta_objects s !! f) as [o|]; [|discriminate].
    destruct (impl.filterAllMetaObjectsOwnedBy l owner s) as [r0 s0| |] eqn:E; try discriminate.
    destruct (IH r0 s0 eq_refl) as [-> Hlen]. injection H as <- <-.
    split; [reflexivity|]. destruct (AbstractMetaObjectBase.isOwnedBy owner o); cbn; lia.
Qed.

Lemma filterAllMetaObjectsAssociatedWithLibrary_returns l path s r s' :
  impl.filterAllMetaObjectsAssociatedWithLibrary l path s = Ret r s' -> s' = s.
Proof.
  revert r s'. induction l as [|f l IH]; cbn; intros r s' H.
  - now injection H as <- <-.
  - unfold bind, read_meta in H. destruct (meta_objects s !! f) as [o|]; [|discriminate].
    destruct (impl.filterAllMetaObjectsAssociatedWithLibrary l path s) as [r0 s0| |] eqn:E;
      try discriminate.
    rewrite (IH r0 s0 eq_refl) in H. now injection H as <- <-.
Qed.

Lemma isLibraryLoadedByAnybody_returns library_path s :
  exists b, impl.isLibraryLoadedByAnybody library_path s = Ret b s.
Proof.
  unfold impl.isLibraryLoadedByAnybody, impl.findLoadedLibrary, bind, gets.
  destruct (impl.findLoadedLibrary_in _ _); eexists; reflexivity.
Qed.

Lemma allMetaObjectsForLibrary_returns library_path s r s' :
  impl.allMetaObjectsForLibrary library_path s = Ret r s' -> s' = s.
Proof.
  unfold impl.allMetaObjectsForLibrary, impl.allMetaObjects, bind, gets.
  apply filterAllMetaObjectsAssociatedWithLibrary_returns.
Qed.

Lemma allMetaObjectsForLibraryOwnedBy_returns library_path owner s r s' :
  impl.allMetaObjectsForLibraryOwnedBy library_path owner s = Ret r s' ->
  s' = s /\
  exists for_lib,
    impl.allMetaObjectsForLibrary library_path s = Ret for_lib s /\
    (length r <= length for_lib)%nat.
Proof.
  unfold impl.allMetaObjectsForLibraryOwnedBy, bind.
  destruct (impl.allMetaObjectsForLibrary library_path s) as [for_lib s1| |] eqn:E;
    try discriminate.
  apply allMetaObjectsForLibrary_returns in E as E'. subst s1.
  intros H. apply filterAllMetaObjectsOwnedBy_returns in H as [-> Hlen].
  split; [reflexivity|]. eauto.
Qed.

(** Whenever [isLibraryLoaded] returns, it returns what
    [isLibraryLoadedByAnybody] returns: the comparison
    [bound <= total] of its last step cannot fail, so the owner of the
    MetaObjects plays no part in the answer. *)
Lemma isLibraryLoaded_is_isLibraryLoadedByAnybody library_path loader s b s' :
  impl.isLibraryLoaded library_path loader s = Ret b s' ->
  s' = s /\ impl.isLibraryLoadedByAnybody library_path s = Ret b s.
Proof.
  unfold impl.isLibraryLoaded, bind.
  destruct (isLibraryLoadedByAnybody_returns library_path s) as [b0 ->].
  destruct (impl.allMetaObjectsForLibrary library_path s) as [for_lib s1| |] eqn:E1;
    try discriminate.
  apply allMetaObjectsForLibrary_returns in E1 as E1'. subst s1.
  destruct (impl.allMetaObjectsForLibraryOwnedBy library_path loader s) as [bound s2| |] eqn:E2;
    try discriminate.
  apply allMetaObjectsForLibraryOwnedBy_returns in E2 as (-> & for_lib' & E3 & Hlen).
  rewrite E1 in E3. injection E3 as <-.
  intros H. injection H as <- <-. split; [reflexivity|]. f_equal.
  replace (length bound <=? length for_lib)%nat with true
    by (symmetry; now apply Nat.leb_le).
  now destruct b0, (length for_lib).
Qed.

(** C1, the code at the failing input.  The library [/p/libA] is
    resident, it has one MetaObject, and the ClassLoader at address 1 is
    not among its owners; [isLibraryLoaded] of that ClassLoader
    nevertheless returns true.  As a consequence its [createInstance]
    does not bind it to the library and fails. *)
Theorem isLibraryLoaded_true_for_a_loader_that_owns_nothing :
  impl.isLibraryLoadedByAnybody "/p/libA" libA_loaded_by_the_other
    = Ret true libA_loaded_by_the_other /\
  impl.allMetaObjectsForLibrary "/p/libA" libA_loaded_by_the_other
    = Ret [3%nat] libA_loaded_by_the_other /\
  impl.allMetaObjectsForLibraryOwnedBy "/p/libA" (Some 1%nat) libA_loaded_by_the_other
    = Ret [] libA_loaded_by_the_other /\
  ClassLoader.isLibraryLoaded 1%nat libA_loaded_by_the_other
    = Ret true libA_loaded_by_the_other /\
  exists s',
    ClassLoader.createInstance typeid_Base 1%nat "Foo" libA_loaded_by_the_other
      = Throw (CreateClassException "Could not create instance of type Foo") s'.
Proof.
  repeat split; try (vm_compute; reflexivity).
  eexists. vm_compute. reflexivity.
Qed.

(** ** A failed open *)

(** Whenever the open fails with a [std::runtime_error], for a
    ClassLoader whose library is not resident: LibraryLoadException is
    thrown, the loading context is cleared, the registry and the vector
    of open libraries are as before, and the load count has gone up by
    one. *)
Lemma loadLibrary_open_failure this s c what :
  class_loaders s !! this = Some c ->
  library_path_ c <> "" ->
  INT_MIN <= load_ref_count_ c + 1 <= INT_MAX ->
  impl.findLoadedLibrary_in (library_path_ c) (loaded_libraries s) = None ->
  dl_open (os s) (os_calls s) (library_path_ c) = OpenRuntimeError what ->
  exists s',
    ClassLoader.loadLibrary this s =
      Throw (LibraryLoadException ("Could not load library " ++ what)) s' /\
    class_loaders s' !! this =
      Some (ClassLoader.with_load_ref_count (load_ref_count_ c + 1) c) /\
    currently_loading_library s' = "" /\
    currently_active_loader s' = None /\
    loaded_libraries s' = loaded_libraries s /\
    factory_map_map s' = factory_map_map s /\
    meta_objects s' = meta_objects s.
Proof.
  intros H Hp Hr Hnot Hopen.
  rewrite (ClassLoader_loadLibrary_unfold this s c H Hp Hr).
  unfold impl.loadLibrary, impl.isLibraryLoadedByAnybody, impl.findLoadedLibrary,
    impl.setCurrentlyActiveClassLoader, impl.setCurrentlyLoadingLibraryName,
    impl.SharedLibrary_make_shared, impl.os_call, with_load_count, bind, gets, log, modify.
  cbn. rewrite Hnot. cbn. rewrite Hopen. cbn.
  eexists. split; [reflexivity|]. cbn. rewrite lookup_insert_eq. repeat split.
Qed.

(** C3, the code at the failing input.  An on-demand ClassLoader with
    load count 0 whose library cannot be opened: [loadLibrary] throws
    LibraryLoadException and the loading context is cleared, but the
    load count is 1 afterwards. *)
Theorem loadLibrary_open_failure_keeps_the_increment :
  (exists c, class_loaders lazy_libZ_loader !! 1%nat = Some c /\ load_ref_count_ c = 0) /\
  exists s',
    ClassLoader.loadLibrary 1%nat lazy_libZ_loader =
      Throw (LibraryLoadException "Could not load library cannot open shared object file") s' /\
    (exists c', class_loaders s' !! 1%nat = Some c' /\ load_ref_count_ c' = 1) /\
    currently_loading_library s' = "" /\
    currently_active_loader s' = None /\
    loaded_libraries s' = [].
Proof.
  split.
  - eexists. split; [vm_compute; reflexivity|reflexivity].
  - eexists. split; [vm_compute; reflexivity|].
    split; [eexists; split; [vm_compute; reflexivity|reflexivity]|].
    repeat split.
Qed.

(** ** A lookup of an unknown library in a MultiLibraryClassLoader *)

Lemma non_null_after_null_entry (path : string) (m : stdmap loader_ptr) :
  StdMap.find path m = None ->
  List.filter (fun it => negb (ptr_eqb (snd it) None)) (StdMap.assign path None m) =
  List.filter (fun it => negb (ptr_eqb (snd it) None)) m.
Proof.
  induction m as [|[k v] m IH]; cbn; intros Hfind; [reflexivity|].
  destruct (String.eqb_spec path k) as [->|Hne]; [discriminate|].
  destruct (String.compare path k) eqn:E.
  - apply String.compare_eq_iff in E. contradiction.
  - reflexivity.
  - cbn [List.filter]. now rewrite IH.
Qed.

(** A two-argument creator called with a path that is not a key of the
    loader map throws NoClassLoaderExistsException and leaves the map
    with one more entry, which binds the path to the null loader;
    [getRegisteredLibraries] skips that entry and answers as before,
    [getAllAvailableClassLoaders] does not skip it. *)
Lemma createInstance_from_unknown_library Base this class_name library_path s i :
  multi_loaders s !! this = Some i ->
  StdMap.find library_path (active_class_loaders_ i) = None ->
  let i' := MultiLibraryClassLoader.with_active_class_loaders
              (StdMap.assign library_path None (active_class_loaders_ i)) i in
  let s' := set_multi_loaders (<[this := i']> (multi_loaders s)) s in
  MultiLibraryClassLoader.createInstance_from Base this class_name library_path s =
    Throw (NoClassLoaderExistsException
             (MultiLibraryClassLoader.no_loader_bound library_path)) s' /\
  (exists registered,
      MultiLibraryClassLoader.getRegisteredLibraries this s = Ret registered s /\
      MultiLibraryClassLoader.getRegisteredLibraries this s' = Ret registered s') /\
  MultiLibraryClassLoader.getAllAvailableClassLoaders this s' =
    Ret (map snd (StdMap.assign library_path None (active_class_loaders_ i))) s' /\
  In None (map snd (StdMap.assign library_path None (active_class_loaders_ i))).
Proof.
  intros Hi Hfind i' s'.
  assert (multi_loaders s' !! this = Some i') as Hi'
      by (subst s'; cbn; apply lookup_insert_eq).
  split; [|split; [|split]].
  - unfold MultiLibraryClassLoader.createInstance_from,
      MultiLibraryClassLoader.getClassLoaderForLibrary, StdMap.index, bind.
    rewrite (read_multi_at _ _ _ Hi), Hfind. reflexivity.
  - eexists. unfold MultiLibraryClassLoader.getRegisteredLibraries, bind.
    rewrite (read_multi_at _ _ _ Hi), (read_multi_at _ _ _ Hi').
    split; [reflexivity|]. subst i'. cbn.
    now rewrite non_null_after_null_entry.
  - unfold MultiLibraryClassLoader.getAllAvailableClassLoaders, bind.
    now rewrite (read_multi_at _ _ _ Hi').
  - clear. induction (active_class_loaders_ i) as [|[k v] m IH]; cbn; [now left|].
    destruct (String.compare library_path k); cbn; auto.
Qed.

(** C10, the code at the failing input.  A MultiLibraryClassLoader that
    has loaded [/p/libA] creates [Foo] and lists its classes; after a
    two-argument [createInstance] for the unknown path [/nope] has
    thrown NoClassLoaderExistsException, the registered libraries are
    as before, but the map holds a null loader for [/nope], and both
    the one-argument [createInstance] and [getAvailableClasses] go
    through that null pointer. *)
Theorem failed_lookup_leaves_a_null_loader_behind :
  MultiLibraryClassLoader.getAvailableClasses typeid_Base 1%nat multi_with_libA
    = Ret ["Foo"] multi_with_libA /\
  (exists s1,
      MultiLibraryClassLoader.createInstance typeid_Base 1%nat "Foo" multi_with_libA
        = Ret {| ClassLoader.deleter_this := 2%nat |} s1) /\
  MultiLibraryClassLoader.getRegisteredLibraries 1%nat multi_with_libA
    = Ret ["/p/libA"] multi_with_libA /\
  exists s',
    MultiLibraryClassLoader.createInstance_from typeid_Base 1%nat "Foo" "/nope" multi_with_libA
      = Throw (NoClassLoaderExistsException (MultiLibraryClassLoader.no_loader_bound "/nope")) s' /\
    MultiLibraryClassLoader.getRegisteredLibraries 1%nat s' = Ret ["/p/libA"] s' /\
    MultiLibraryClassLoader.isLibraryAvailable 1%nat "/nope" s' = Ret false s' /\
    MultiLibraryClassLoader.getAllAvailableClassLoaders 1%nat s' = Ret [None; Some 2%nat] s' /\
    MultiLibraryClassLoader.getAvailableClasses typeid_Base 1%nat s' = Undefined NullPointer /\
    MultiLibraryClassLoader.createInstance typeid_Base 1%nat "Foo" s' = Undefined NullPointer.
Proof.
  split; [vm_compute; reflexivity|].
  split; [eexists; vm_compute; reflexivity|].
  split; [vm_compute; reflexivity|].
  eexists. split; [vm_compute; reflexivity|].
  repeat split; vm_compute; reflexivity.
Qed.

(** ** The order in which a MultiLibraryClassLoader asks its loaders *)

#[export] Instance keeps_ordered_frame : Frame keeps_ordered any_meta.
Proof. split; unfold keeps_ordered, any_meta; cbn; intuition. Qed.

#[export] Instance keeps_ordered_loaders : FrameLoaders keeps_ordered.
Proof. unfold FrameLoaders, keeps_ordered; cbn; auto. Qed.

#[export] Instance keeps_ordered_multi : FrameMulti keeps_ordered ordered_map.
Proof.
  split; unfold keeps_ordered, multi_ordered, ordered_map; cbn.
  - intros p i s Hi Hs this j. rewrite lookup_insert.
    destruct (decide (p = this)); [intros [= <-]; assumption|apply Hs].
  - intros s s' p i Hp H Hs. apply H; [|assumption]. eapply Hs, Hp.
  - intros p s Hs this j. rewrite lookup_delete.
    destruct (decide (p = this)); [discriminate|apply Hs].
  - intros _. constructor.
  - intros k v i. apply assign_ordered.
  - intros d k i. apply index_ordered.
Qed.

Lemma reaches_ordered (os : OS) (s : State) : reaches (initial os) s -> multi_ordered s.
Proof.
  intros Hr. apply (reaches_preserves keeps_ordered any_meta ordered_map _ _ Hr).
  intros this i H. cbn in H. now rewrite lookup_empty in H.
Qed.





(** A child whose library is loaded is asked without any change of
    state: its turn comes to its answer to the availability query. *)
Lemma asks_when_loaded Base class_name s b p :
  answers Base class_name s b p -> asks Base class_name p s = Ret b s.
Proof.
  intros (l & -> & Hloaded & Havailable). unfold asks. cbn [arrow].
  unfold bind at 1. rewrite Hloaded. cbn [negb when]. unfold bind. cbn [ret].
  exact Havailable.
Qed.

Lemma declined_when_loaded Base class_name s entries :
  Forall (fun e => answers Base class_name s false (snd e)) entries ->
  declined Base class_name entries s s.
Proof.
  induction 1 as [|e entries He _ IH]; [constructor|].
  econstructor; [now apply asks_when_loaded|exact IH].
Qed.




(** ** The owner vectors stay free of duplicates *)

#[export] Instance keeps_owners_distinct_frame : Frame keeps_owners_distinct distinct_owners.
Proof.
  split; unfold keeps_owners_distinct, owners_distinct, distinct_owners; cbn; auto.
  - intros s1 s2 s3 H12 H23 H1. exact (H23 (H12 H1)).
  - intros p o s Ho Hs q o'. rewrite lookup_insert.
    destruct (decide (p = q)); [intros [= <-]; assumption|apply Hs].
  - intros s s' p o Hp H Hs. apply H; [|assumption]. eapply Hs, Hp.
  - intros p s Hs q o'. rewrite lookup_delete.
    destruct (decide (p = q)); [discriminate|apply Hs].
  - intros. constructor.
  - intros. now apply addOwningClassLoader_NoDup.
  - intros. now apply removeOwningClassLoader_NoDup.
Qed.

#[export] Instance keeps_owners_distinct_loaders : FrameLoaders keeps_owners_distinct.
Proof. unfold FrameLoaders, keeps_owners_distinct; cbn; auto. Qed.

#[export] Instance keeps_owners_distinct_multi : FrameMulti keeps_owners_distinct any_multi.
Proof. split; unfold keeps_owners_distinct, any_multi; cbn; intuition. Qed.

(** C9.  The owner vector of a MetaObject never holds a loader twice.
    [addOwningClassLoader] leaves the MetaObject alone when the loader
    (possibly [nullptr]) is already an owner and appends it otherwise;
    after any sequence of [addOwningClassLoader] and
    [removeOwningClassLoader] calls on a newly constructed MetaObject the
    vector is duplicate-free; and in every state a process can reach,
    every MetaObject on the heap has a duplicate-free owner vector. *)
Theorem owners_never_duplicated :
  (forall (loader : loader_ptr) (o : AbstractMetaObjectBaseImpl),
      (In loader (associated_class_loaders_ o) ->
       AbstractMetaObjectBase.addOwningClassLoader loader o = o) /\
      (~ In loader (associated_class_loaders_ o) ->
       associated_class_loaders_ (AbstractMetaObjectBase.addOwningClassLoader loader o) =
         (associated_class_loaders_ o ++ [loader])%list)) /\
  (forall (class_name base_class_name typeid_base_class_name : string) (ops : list OwnerOp),
      NoDup (associated_class_loaders_
               (apply_owner_ops ops
                  (AbstractMetaObjectBase.init class_name base_class_name typeid_base_class_name)))) /\
  (forall (os : OS) (s : State) (p : nat) (o : AbstractMetaObjectBaseImpl),
      reaches (initial os) s ->
      meta_objects s !! p = Some o ->
      NoDup (associated_class_loaders_ o)).
Proof.
  split; [|split].
  - intros loader o. unfold AbstractMetaObjectBase.addOwningClassLoader.
    destruct (AbstractMetaObjectBase.found loader (associated_class_loaders_ o)) eqn:E; cbn.
    + apply found_In in E. split; [reflexivity|contradiction].
    + split; [|reflexivity]. intros Hin. apply found_In in Hin. congruence.
  - intros. apply apply_owner_ops_NoDup. cbn. constructor.
  - intros os s p o Hr.
    apply (reaches_preserves keeps_owners_distinct distinct_owners any_multi _ _ Hr).
    intros q o' H. cbn in H. now rewrite lookup_empty in H.
Qed.

(** C9 at work.  Adding the null loader to a MetaObject that it owns
    already changes nothing.  A sequence of calls on a new MetaObject
    that adds two loaders and the null loader, each twice, removes one
    of them and adds it again leaves each owner once.  And in the
    process in which the ClassLoader at address 1 has loaded [/p/libA]
    twice, a second ClassLoader (address 3) has loaded it as well, and
    the first has unloaded it twice and loaded it again, the MetaObject
    of [Foo] (address 2) has its two owners once each. *)
Lemma owners_never_duplicated_witness :
  let shared := {| associated_class_loaders_ := [Some 1%nat; None];
                   associated_library_path_ := "/p/libA";
                   base_class_name_ := "Base";
                   class_name_ := "Foo";
                   typeid_base_class_name_ := typeid_Base |} in
  let ops := [AddOwner (Some 1%nat); AddOwner None; AddOwner (Some 1%nat); AddOwner None;
              AddOwner (Some 2%nat); AddOwner (Some 2%nat);
              RemoveOwner (Some 1%nat); AddOwner (Some 1%nat); AddOwner (Some 1%nat)] in
  AbstractMetaObjectBase.addOwningClassLoader None shared = shared /\
  associated_class_loaders_
    (apply_owner_ops ops (AbstractMetaObjectBase.init "Foo" "Base" typeid_Base))
    = [None; Some 2%nat; Some 1%nat] /\
  NoDup (associated_class_loaders_
           (apply_owner_ops ops (AbstractMetaObjectBase.init "Foo" "Base" typeid_Base))) /\
  (associated_class_loaders_ <$> meta_objects libA_reloaded_and_shared !! 2%nat)
    = Some [Some 3%nat; Some 1%nat] /\
  NoDup [Some 3%nat; Some 1%nat].
Proof.
  cbv zeta. pose proof owners_never_duplicated as (Hadd & Hops & Hreach).
  split; [|split; [|split; [|split]]].
  - apply (Hadd None). cbn. auto.
  - vm_compute. reflexivity.
  - apply Hops.
  - vm_compute. reflexivity.
  - apply (Hreach example_os libA_reloaded_and_shared 2%nat
             {| associated_class_loaders_ := [Some 3%nat; Some 1%nat];
                associated_library_path_ := "/p/libA";
                base_class_name_ := "Base";
                class_name_ := "Foo";
                typeid_base_class_name_ := typeid_Base |}).
    + apply (run_reaches [NewClassLoader "/p/libA" false; LoadLibrary 1%nat;
                          NewClassLoader "/p/libA" false; UnloadLibrary 1%nat;
                          UnloadLibrary 1%nat; LoadLibrary 1%nat]).
      vm_compute. reflexivity.
    + vm_compute. reflexivity.
Defined.

(** * Further properties of the registry, the ClassLoader and the
      MultiLibraryClassLoader *)

(** ** meta_object.cpp: owners of a MetaObject *)

Section OwnerVector.
Import AbstractMetaObjectBase.
Implicit Types (v : list loader_ptr) (loader : loader_ptr) (o : AbstractMetaObjectBaseImpl).

Lemma found_app loader v w : found loader (v ++ w) = found loader v || found loader w.
Proof.
  induction v as [|x v IH]; cbn; [reflexivity|].
  destruct (ptr_eqb x loader); [reflexivity|exact IH].
Qed.

Lemma found_other_erased loader other v :
  other <> loader -> found other (erase_found loader v) = found other v.
Proof.
  intros Hne. induction v as [|x v IH]; cbn; [reflexivity|].
  unfold ptr_eqb at 1. destruct (bool_decide_reflect (x = loader)) as [->|Hx].
  - unfold ptr_eqb. destruct (bool_decide_reflect (loader = other)); congruence.
  - cbn. now rewrite IH.
Qed.

Lemma erase_found_last loader v :
  found loader v = false -> erase_found loader (v ++ [loader]) = v.
Proof.
  induction v as [|x v IH]; cbn.
  - intros _. unfold ptr_eqb. now rewrite bool_decide_eq_true_2.
  - destruct (ptr_eqb x loader); [discriminate|]. intros H. now rewrite IH.
Qed.

Lemma erase_found_length loader v :
  found loader v = true -> S (length (erase_found loader v)) = length v.
Proof.
  induction v as [|x v IH]; cbn; [discriminate|].
  destruct (ptr_eqb x loader); [reflexivity|]. intros H. cbn. now rewrite IH.
Qed.

(** X1.  [addOwningClassLoader(loader)] makes [loader] an owner, leaves the
    answer of [isOwnedBy] for every other loader as it was, touches
    neither the names nor the library path, and has no further effect
    when it is repeated. *)
Theorem addOwningClassLoader_makes_owner loader o :
  isOwnedBy loader (addOwningClassLoader loader o) = true /\
  (forall other, other <> loader ->
     isOwnedBy other (addOwningClassLoader loader o) = isOwnedBy other o) /\
  addOwningClassLoader loader (addOwningClassLoader loader o) = addOwningClassLoader loader o /\
  isOwnedByAnybody (addOwningClassLoader loader o) = true /\
  className (addOwningClassLoader loader o) = className o /\
  getAssociatedLibraryPath (addOwningClassLoader loader o) = getAssociatedLibraryPath o.
Proof.
  unfold isOwnedBy, isOwnedByAnybody, addOwningClassLoader.
  assert (found loader [loader] = true) as Hself
      by (cbn; unfold ptr_eqb; now rewrite bool_decide_eq_true_2).
  destruct (found loader (associated_class_loaders_ o)) eqn:E; cbn.
  - rewrite E. cbn. repeat split; try assumption.
    destruct (associated_class_loaders_ o); [discriminate|reflexivity].
  - rewrite found_app, E, Hself. cbn. repeat split.
    + intros other Hne. rewrite found_app. cbn. unfold ptr_eqb.
      rewrite bool_decide_eq_false_2 by congruence. apply orb_false_r.
    + rewrite length_app, Nat.add_1_r. reflexivity.
Qed.

(** X2.  Removing a loader that has just been added to a MetaObject it did
    not own gives back the MetaObject as it was; removing a loader that
    is not an owner changes nothing. *)
Theorem removeOwningClassLoader_undoes_add loader o :
  isOwnedBy loader o = false ->
  removeOwningClassLoader loader (addOwningClassLoader loader o) = o /\
  removeOwningClassLoader loader o = o.
Proof.
  unfold isOwnedBy, removeOwningClassLoader, addOwningClassLoader. intros H.
  rewrite H. cbn. split; [|reflexivity].
  rewrite found_app, H. cbn. unfold ptr_eqb. rewrite bool_decide_eq_true_2 by reflexivity.
  unfold with_owners. cbn. rewrite erase_found_last by assumption. now destruct o.
Qed.

Lemma removeOwningClassLoader_undoes_add_witness :
  let o := init "Foo" "Base" "4Base" in
  removeOwningClassLoader (Some 7%nat) (addOwningClassLoader (Some 7%nat) o) = o /\
  removeOwningClassLoader (Some 7%nat) o = o.
Proof.
  apply (removeOwningClassLoader_undoes_add (Some 7%nat) (init "Foo" "Base" "4Base")).
  reflexivity.
Defined.

(** X3.  On an owner vector without duplicates (every vector the library
    builds is one), [removeOwningClassLoader(loader)] ends the ownership
    of [loader] and of nobody else, and the number of owners goes down
    by one exactly when [loader] was an owner. *)
Theorem removeOwningClassLoader_ends_ownership loader o :
  NoDup (associated_class_loaders_ o) ->
  isOwnedBy loader (removeOwningClassLoader loader o) = false /\
  (forall other, other <> loader ->
     isOwnedBy other (removeOwningClassLoader loader o) = isOwnedBy other o) /\
  (getAssociatedClassLoadersCount (removeOwningClassLoader loader o)
   + (if isOwnedBy loader o then 1 else 0)
   = getAssociatedClassLoadersCount o)%nat.
Proof.
  unfold isOwnedBy, getAssociatedClassLoadersCount, removeOwningClassLoader. intros Hnd.
  destruct (found loader (associated_class_loaders_ o)) eqn:E; cbn.
  - split; [|split].
    + clear E. induction Hnd as [|x v Hx Hv IH]; cbn; [reflexivity|].
      unfold ptr_eqb at 1. destruct (bool_decide_reflect (x = loader)) as [->|Hne].
      * destruct (found loader v) eqn:F; [|reflexivity].
        apply found_In in F. rewrite list_elem_of_In in Hx. contradiction.
      * cbn. unfold ptr_eqb at 1. rewrite bool_decide_eq_false_2 by assumption. exact IH.
    + intros other Hne. now apply found_other_erased.
    + rewrite Nat.add_1_r. now apply erase_found_length.
  - rewrite E. repeat split. lia.
Qed.

Lemma removeOwningClassLoader_ends_ownership_witness :
  let o := addOwningClassLoader None (addOwningClassLoader (Some 7%nat) (init "Foo" "Base" "4Base")) in
  isOwnedBy (Some 7%nat) (removeOwningClassLoader (Some 7%nat) o) = false /\
  (forall other, other <> Some 7%nat ->
     isOwnedBy other (removeOwningClassLoader (Some 7%nat) o) = isOwnedBy other o) /\
  (getAssociatedClassLoadersCount (removeOwningClassLoader (Some 7%nat) o)
   + (if isOwnedBy (Some 7%nat) o then 1 else 0)
   = getAssociatedClassLoadersCount o)%nat.
Proof.
  apply (removeOwningClassLoader_ends_ownership (Some 7%nat)
           (addOwningClassLoader None
              (addOwningClassLoader (Some 7%nat) (init "Foo" "Base" "4Base")))).
  cbn. repeat constructor; rewrite list_elem_of_In; cbn; intuition discriminate.
Defined.
End OwnerVector.

(** ** class_loader_core.cpp: the global factory map *)

(** X4.  [getFactoryMapForBaseClass] always returns; the map it returns is
    the one stored under the base class afterwards; it is empty when the
    base class had no entry, and otherwise it is the entry found and
    nothing at all is changed; the entries of other base classes are
    never touched; a second call returns the same map and changes
    nothing. *)
Theorem getFactoryMapForBaseClass_creates_once (typeid_base_class_name : string) (s : State) :
  exists factory_map s',
    impl.getFactoryMapForBaseClass typeid_base_class_name s = Ret factory_map s' /\
    StdMap.find typeid_base_class_name (factory_map_map s') = Some factory_map /\
    (StdMap.find typeid_base_class_name (factory_map_map s) = None -> factory_map = []) /\
    (forall found, StdMap.find typeid_base_class_name (factory_map_map s) = Some found ->
                   factory_map = found /\ s' = s) /\
    (forall other, typeid_base_class_name <> other ->
                   StdMap.find other (factory_map_map s') = StdMap.find other (factory_map_map s)) /\
    impl.getFactoryMapForBaseClass typeid_base_class_name s' = Ret factory_map s'.
Proof.
  unfold impl.getFactoryMapForBaseClass, bind, get, modify, ret.
  destruct (StdMap.find typeid_base_class_name (factory_map_map s)) as [fm|] eqn:E.
  - exists fm, s. rewrite E. repeat split; congruence.
  - eexists [], _. split; [reflexivity|]. cbn. rewrite find_assign_same.
    repeat split; try congruence.
    intros other Hne. now apply find_assign_other.
Qed.

(** ** class_loader_core.cpp: queries over the registered MetaObjects *)

Section Queries.
Import AbstractMetaObjectBase.

Lemma filterAllMetaObjectsOwnedBy_live l owner s :
  Forall (fun p => is_Some (meta_objects s !! p)) l ->
  impl.filterAllMetaObjectsOwnedBy l owner s = Ret (List.filter (owned_by s owner) l) s.
Proof.
  induction 1 as [|p l [o Ho] _ IH]; cbn [impl.filterAllMetaObjectsOwnedBy List.filter];
    [reflexivity|].
  assert (owned_by s owner p = isOwnedBy owner o) as -> by (unfold owned_by; now rewrite Ho).
  unfold bind. now rewrite (read_meta_at _ _ _ Ho), IH.
Qed.

Lemma filterAllMetaObjectsAssociatedWithLibrary_live l library_path s :
  Forall (fun p => is_Some (meta_objects s !! p)) l ->
  impl.filterAllMetaObjectsAssociatedWithLibrary l library_path s =
    Ret (List.filter (associated_with s library_path) l) s.
Proof.
  induction 1 as [|p l [o Ho] _ IH];
    cbn [impl.filterAllMetaObjectsAssociatedWithLibrary List.filter]; [reflexivity|].
  assert (associated_with s library_path p = String.eqb (getAssociatedLibraryPath o) library_path)
    as -> by (unfold associated_with; now rewrite Ho).
  unfold bind. now rewrite (read_meta_at _ _ _ Ho), IH.
Qed.

Lemma Forall_filter_live (f : nat -> bool) l s :
  Forall (fun p => is_Some (meta_objects s !! p)) l ->
  Forall (fun p => is_Some (meta_objects s !! p)) (List.filter f l).
Proof.
  intros H. apply List.Forall_forall. intros p Hp. apply List.filter_In in Hp as [Hp _].
  rewrite List.Forall_forall in H. now apply H.
Qed.

Lemma allMetaObjectsForClassLoader_live owner s :
  factories_live s ->
  impl.allMetaObjectsForClassLoader owner s = Ret (List.filter (owned_by s owner) (registered s)) s.
Proof.
  intros H. unfold impl.allMetaObjectsForClassLoader, impl.allMetaObjects, bind, gets.
  now apply filterAllMetaObjectsOwnedBy_live.
Qed.

Lemma allMetaObjectsForLibrary_live library_path s :
  factories_live s ->
  impl.allMetaObjectsForLibrary library_path s =
    Ret (List.filter (associated_with s library_path) (registered s)) s.
Proof.
  intros H. unfold impl.allMetaObjectsForLibrary, impl.allMetaObjects, bind, gets.
  now apply filterAllMetaObjectsAssociatedWithLibrary_live.
Qed.

Lemma allMetaObjectsForLibraryOwnedBy_live library_path owner s :
  factories_live s ->
  impl.allMetaObjectsForLibraryOwnedBy library_path owner s =
    Ret (List.filter (owned_by s owner)
           (List.filter (associated_with s library_path) (registered s))) s.
Proof.
  intros H. unfold impl.allMetaObjectsForLibraryOwnedBy, bind.
  rewrite allMetaObjectsForLibrary_live by assumption.
  apply filterAllMetaObjectsOwnedBy_live, Forall_filter_live, H.
Qed.

Lemma absent_In (x : string) (l : list string) : impl.absent x l = true <-> ~ In x l.
Proof.
  unfold impl.absent. rewrite negb_true_iff, <- not_true_iff_false, existsb_exists.
  split; intros H.
  - intros Hin. apply H. exists x. split; [assumption|apply String.eqb_refl].
  - intros (y & Hy & E). apply String.eqb_eq in E. subst y. contradiction.
Qed.

(** The loop of [getAllLibrariesUsedByClassLoader], from any list of
    libraries collected so far. *)
Lemma getAllLibrariesUsedByClassLoader_walk objs s :
  Forall (fun p => is_Some (meta_objects s !! p)) objs ->
  forall all_libs, NoDup all_libs ->
  exists libs,
    (fix walk (objs : list nat) (all_libs : list string) : M (list string) :=
       match objs with
       | [] => ret all_libs
       | meta_obj :: rest =>
           o <- read_meta meta_obj ;;
           let lib_path := getAssociatedLibraryPath o in
           walk rest (if impl.absent lib_path all_libs
                      then (all_libs ++ [lib_path])%list else all_libs)
       end) objs all_libs s = Ret libs s /\
    NoDup libs /\
    forall lib, In lib libs <->
                In lib all_libs \/
                exists p o, In p objs /\ meta_objects s !! p = Some o /\
                            getAssociatedLibraryPath o = lib.
Proof.
  induction 1 as [|p objs [o Ho] _ IH]; intros all_libs Hnd.
  - exists all_libs. split; [reflexivity|]. split; [assumption|].
    intros lib. split; [tauto|]. intros [?|(? & ? & [] & _)]. assumption.
  - unfold bind. rewrite (read_meta_at _ _ _ Ho). cbv zeta.
    destruct (impl.absent (getAssociatedLibraryPath o) all_libs) eqn:E.
    + apply absent_In in E.
      destruct (IH (all_libs ++ [getAssociatedLibraryPath o])%list) as (libs & Hrun & Hnd' & Hin).
      { apply NoDup_app. split; [assumption|]. split; [|apply NoDup_singleton].
        intros x Hx Hx'. apply list_elem_of_In in Hx, Hx'. destruct Hx' as [<-|[]].
        contradiction. }
      exists libs. split; [exact Hrun|]. split; [assumption|].
      intros lib. rewrite Hin, in_app_iff. cbn. split.
      * intros [[?|[<-|[]]]|(q & oq & ? & ? & ?)].
        -- now left.
        -- right. exists p, o. split; [now left|auto].
        -- right. exists q, oq. split; [now right|auto].
      * intros [?|(q & oq & [<-|?] & Hq & Hl)]; [now left; left| |right; eauto].
        rewrite Ho in Hq. injection Hq as <-. now left; right; left.
    + apply not_true_iff_false in E. rewrite absent_In in E.
      destruct (IH all_libs Hnd) as (libs & Hrun & Hnd' & Hin).
      exists libs. split; [exact Hrun|]. split; [assumption|].
      intros lib. rewrite Hin. split.
      * intros [?|(q & oq & ? & ? & ?)]; [now left|].
        right. exists q, oq. split; [now right|auto].
      * intros [?|(q & oq & [<-|?] & Hq & Hl)]; [now left| |right; eauto].
        rewrite Ho in Hq. injection Hq as <-. subst lib. left.
        destruct (in_dec string_dec (getAssociatedLibraryPath o) all_libs); tauto.
Qed.

(** X5.  As long as no factory pointer dangles, [getAllLibrariesUsedByClassLoader]
    returns without changing anything; no library is listed twice, and
    the libraries listed are exactly the library paths of the registered
    MetaObjects that the loader owns. *)
Theorem getAllLibrariesUsedByClassLoader_lists_each_library_once
    (loader : loader_ptr) (s : State) :
  factories_live s ->
  exists libs,
    impl.getAllLibrariesUsedByClassLoader loader s = Ret libs s /\
    NoDup libs /\
    forall lib,
      In lib libs <->
      exists p o, In p (registered s) /\ meta_objects s !! p = Some o /\
                  isOwnedBy loader o = true /\ getAssociatedLibraryPath o = lib.
Proof.
  intros Hlive. unfold impl.getAllLibrariesUsedByClassLoader, bind.
  rewrite allMetaObjectsForClassLoader_live by assumption.
  destruct (getAllLibrariesUsedByClassLoader_walk
              (List.filter (owned_by s loader) (registered s)) s
              (Forall_filter_live _ _ _ Hlive) [] (NoDup_nil_2))
    as (libs & Hrun & Hnd & Hin).
  exists libs. split; [exact Hrun|]. split; [assumption|].
  intros lib. rewrite Hin. split.
  - intros [[]|(p & o & Hp & Ho & Hl)]. apply List.filter_In in Hp as [Hp Hown].
    unfold owned_by in Hown. rewrite Ho in Hown. eauto 8.
  - intros (p & o & Hp & Ho & Hown & Hl). right. exists p, o.
    split; [|auto]. apply List.filter_In. split; [assumption|].
    unfold owned_by. now rewrite Ho.
Qed.
End Queries.

Lemma getAllLibrariesUsedByClassLoader_lists_each_library_once_witness :
  exists libs,
    impl.getAllLibrariesUsedByClassLoader (Some 3%nat) multi_libB_then_libA
      = Ret libs multi_libB_then_libA /\
    NoDup libs /\
    forall lib,
      In lib libs <->
      exists p o, In p (registered multi_libB_then_libA) /\
                  meta_objects multi_libB_then_libA !! p = Some o /\
                  AbstractMetaObjectBase.isOwnedBy (Some 3%nat) o = true /\
                  AbstractMetaObjectBase.getAssociatedLibraryPath o = lib.
Proof.
  apply (getAllLibrariesUsedByClassLoader_lists_each_library_once (Some 3%nat)
           multi_libB_then_libA).
  unfold factories_live.
  replace (registered multi_libB_then_libA) with [4%nat; 1%nat; 6%nat]
    by (vm_compute; reflexivity).
  repeat constructor; eexists; vm_compute; reflexivity.
Defined.

(** ** class_loader_core.hpp: registerPlugin *)

(** What one registration does to the registry, for every state: the
    new MetaObject is allocated at the next free address, is owned by
    the active loader of the loading context and by nobody else, and
    carries the path of the library being loaded; it replaces whatever
    factory the class name had under its base class. *)
Lemma registerPlugin_returns (Base class_name base_class_name : string) (s : State) :
  exists s' factory_map entries,
    impl.registerPlugin Base class_name base_class_name s = Ret (next_address s) s' /\
    meta_objects s' =
      <[next_address s :=
          {| associated_class_loaders_ := [currently_active_loader s];
             associated_library_path_ := currently_loading_library s;
             base_class_name_ := base_class_name;
             class_name_ := class_name;
             typeid_base_class_name_ := Base |}]> (meta_objects s) /\
    next_address s' = S (next_address s) /\
    factory_map = default [] (StdMap.find Base (factory_map_map s)) /\
    StdMap.find Base (factory_map_map s') =
      Some (StdMap.assign class_name (next_address s) factory_map) /\
    (forall other, Base <> other ->
       StdMap.find other (factory_map_map s') = StdMap.find other (factory_map_map s)) /\
    non_pure_plugin_library_opened s' =
      (if currently_active_loader s is Some _ then non_pure_plugin_library_opened s else true) /\
    console s' = (console s ++ entries)%list /\
    (In (LogWarn, MsgNamespaceCollision class_name) entries <->
     is_Some (StdMap.find class_name factory_map)) /\
    graveyard s' = graveyard s /\
    loaded_libraries s' = loaded_libraries s /\
    currently_loading_library s' = currently_loading_library s /\
    currently_active_loader s' = currently_active_loader s /\
    class_loaders s' = class_loaders s /\
    os_calls s' = os_calls s.
Proof.
  unfold impl.registerPlugin, impl.getCurrentlyActiveClassLoader,
    impl.getCurrentlyLoadingLibraryName, impl.hasANonPurePluginLibraryBeenOpened_set,
    impl.getFactoryMapForBaseClass, impl.storeFactoryMap,
    bind, gets, get, log, modify, fresh_address, write_meta, read_meta, ret.
  cbn.
  assert (forall (l : loader_ptr),
             AbstractMetaObjectBase.addOwningClassLoader l
               (AbstractMetaObjectBase.init class_name base_class_name Base) =
             AbstractMetaObjectBase.with_owners [l]
               (AbstractMetaObjectBase.init class_name base_class_name Base)) as Hadd
      by reflexivity.
  destruct (currently_active_loader s) as [l|] eqn:Eactive; cbn; simpl_lookup;
    (destruct (StdMap.find Base (factory_map_map s)) as [fm|] eqn:Efm; cbn;
     [destruct (StdMap.find class_name fm) as [old|] eqn:Ecl; cbn|]);
    eexists _, _, _; (split; [reflexivity|]); cbn; simpl_lookup;
    rewrite ?insert_insert_eq, ?Eactive; cbn;
    (split; [reflexivity|]); (split; [reflexivity|]); (split; [reflexivity|]);
    (split; [apply find_assign_same|]);
    (split; [intros other Hne; rewrite ?find_assign_other by assumption; reflexivity|]);
    (split; [reflexivity|]);
    (split; [rewrite <- ?app_assoc; reflexivity|]);
    (split; [|repeat split]);
    rewrite ?Ecl; cbn;
    (split; [intros H; repeat (destruct H as [H|H]; try discriminate H); eauto; contradiction
            |intros [x Hx]; try discriminate Hx; tauto]).
Qed.

(** X6.  A registration made while a loader is active (that is, from a
    static initialiser that runs inside [loadLibrary]) returns a new
    MetaObject owned by that loader alone and associated with the
    library being loaded, installs it as the factory of its class, and
    leaves the non-pure flag, every other MetaObject, the open
    libraries and the loading context as they were. *)
Theorem registerPlugin_binds_the_active_loader
    (Base class_name base_class_name : string) (loader : nat) (s : State) :
  currently_active_loader s = Some loader ->
  exists s' factory_map,
    impl.registerPlugin Base class_name base_class_name s = Ret (next_address s) s' /\
    meta_objects s' !! next_address s =
      Some {| associated_class_loaders_ := [Some loader];
              associated_library_path_ := currently_loading_library s;
              base_class_name_ := base_class_name;
              class_name_ := class_name;
              typeid_base_class_name_ := Base |} /\
    (forall p, p <> next_address s -> meta_objects s' !! p = meta_objects s !! p) /\
    StdMap.find Base (factory_map_map s') = Some factory_map /\
    StdMap.find class_name factory_map = Some (next_address s) /\
    non_pure_plugin_library_opened s' = non_pure_plugin_library_opened s /\
    loaded_libraries s' = loaded_libraries s /\
    currently_loading_library s' = currently_loading_library s /\
    currently_active_loader s' = Some loader.
Proof.
  intros Hactive.
  destruct (registerPlugin_returns Base class_name base_class_name s)
    as (s' & fm & entries & Hret & Hmeta & _ & _ & Hfind & _ & Hflag & _ & _ & _ & Hlibs
        & Hloading & Hloader & _).
  exists s', (StdMap.assign class_name (next_address s) fm).
  rewrite Hactive in *. rewrite Hmeta, lookup_insert_eq.
  repeat split; try assumption.
  - intros p Hp. now apply lookup_insert_ne.
  - apply find_assign_same.
Qed.

Lemma registerPlugin_binds_the_active_loader_witness :
  exists s' factory_map,
    impl.registerPlugin typeid_Base "Foo" "Base" opening_libA = Ret 2%nat s' /\
    meta_objects s' !! 2%nat =
      Some {| associated_class_loaders_ := [Some 1%nat];
              associated_library_path_ := "/p/libA";
              base_class_name_ := "Base";
              class_name_ := "Foo";
              typeid_base_class_name_ := typeid_Base |} /\
    (forall p, p <> 2%nat -> meta_objects s' !! p = meta_objects opening_libA !! p) /\
    StdMap.find typeid_Base (factory_map_map s') = Some factory_map /\
    StdMap.find "Foo" factory_map = Some 2%nat /\
    non_pure_plugin_library_opened s' = false /\
    loaded_libraries s' = [] /\
    currently_loading_library s' = "/p/libA" /\
    currently_active_loader s' = Some 1%nat.
Proof.
  apply (registerPlugin_binds_the_active_loader typeid_Base "Foo" "Base" 1%nat opening_libA).
  reflexivity.
Defined.

(** X7.  A registration under a class name that already has a factory for
    the same base class logs the severe warning about a namespace
    collision and overwrites the entry: the class name now leads to the
    new MetaObject, the factories of all other class names stay, and
    the MetaObject registered before stays allocated.  A registration
    under a new class name logs no such warning. *)
Theorem registerPlugin_overwrites_on_collision
    (Base class_name base_class_name : string) (s : State) (before : stdmap nat) :
  StdMap.find Base (factory_map_map s) = Some before ->
  exists s' factory_map entries,
    impl.registerPlugin Base class_name base_class_name s = Ret (next_address s) s' /\
    StdMap.find Base (factory_map_map s') = Some factory_map /\
    StdMap.find class_name factory_map = Some (next_address s) /\
    (forall other, class_name <> other ->
       StdMap.find other factory_map = StdMap.find other before) /\
    console s' = (console s ++ entries)%list /\
    (In (LogWarn, MsgNamespaceCollision class_name) entries <->
     is_Some (StdMap.find class_name before)) /\
    (forall old, StdMap.find class_name before = Some old -> old <> next_address s ->
       meta_objects s' !! old = meta_objects s !! old).
Proof.
  intros Hbefore.
  destruct (registerPlugin_returns Base class_name base_class_name s)
    as (s' & fm & entries & Hret & Hmeta & _ & Hfm & Hfind & _ & _ & Hconsole & Hwarn & _).
  rewrite Hbefore in Hfm. cbn in Hfm. subst fm.
  exists s', (StdMap.assign class_name (next_address s) before), entries.
  repeat split; try assumption; try apply Hwarn.
  - apply find_assign_same.
  - intros other Hne. now apply find_assign_other.
  - intros old _ Hne. rewrite Hmeta. now apply lookup_insert_ne.
Qed.

Lemma registerPlugin_overwrites_on_collision_witness :
  exists s' factory_map entries,
    impl.registerPlugin typeid_Base "Foo" "Base" non_pure_process = Ret 2%nat s' /\
    StdMap.find typeid_Base (factory_map_map s') = Some factory_map /\
    StdMap.find "Foo" factory_map = Some 2%nat /\
    (forall other, "Foo" <> other ->
       StdMap.find other factory_map = StdMap.find other [("Foo", 1%nat)]) /\
    console s' = (console non_pure_process ++ entries)%list /\
    (In (LogWarn, MsgNamespaceCollision "Foo") entries <->
     is_Some (StdMap.find "Foo" [("Foo", 1%nat)])) /\
    (forall old, StdMap.find "Foo" [("Foo", 1%nat)] = Some old -> old <> 2%nat ->
       meta_objects s' !! old = meta_objects non_pure_process !! old).
Proof.
  apply (registerPlugin_overwrites_on_collision typeid_Base "Foo" "Base" non_pure_process
           [("Foo", 1%nat)]).
  vm_compute. reflexivity.
Defined.

(** ** class_loader_core.cpp: the graveyard *)

Lemma set_console_id (s : State) : set_console (console s) s = s.
Proof. now destruct s. Qed.

Lemma set_console_twice (v w : list (LogLevel * LogMsg)) (s : State) :
  set_console w (set_console v s) = set_console w s.
Proof. reflexivity. Qed.

Lemma loaderPathOrNULL_returns (loader : loader_ptr) (s : State) :
  (forall l, loader = Some l -> is_Some (class_loaders s !! l)) ->
  exists path, impl.loaderPathOrNULL loader s = Ret path s.
Proof.
  intros H. destruct loader as [l|]; cbn; [|eexists; reflexivity].
  destruct (H l eq_refl) as [c Hc]. unfold bind. rewrite (read_loader_at _ _ _ Hc).
  eexists; reflexivity.
Qed.

Lemma purgeGraveyard_loop_returns (library_path : string) (loader : loader_ptr) (g : list nat) :
  forall s,
    Forall (fun p => is_Some (meta_objects s !! p)) g ->
    (forall l, loader = Some l -> is_Some (class_loaders s !! l)) ->
    exists entries,
      impl.purgeGraveyard_loop library_path loader g s =
        Ret (List.filter (fun p => negb (associated_with s library_path p)) g)
            (set_console (console s ++ entries) s).
Proof.
  induction g as [|p g IH]; intros s Hlive Hloader.
  - exists []. cbn. now rewrite app_nil_r, set_console_id.
  - apply Forall_cons_1 in Hlive as [[o Ho] Hlive].
    cbn [impl.purgeGraveyard_loop List.filter]. unfold bind at 1.
    rewrite (read_meta_at _ _ _ Ho).
    assert (associated_with s library_path p =
              String.eqb (AbstractMetaObjectBase.getAssociatedLibraryPath o) library_path) as ->
        by (unfold associated_with; now rewrite Ho).
    destruct (String.eqb _ library_path); cbn [negb].
    + destruct (loaderPathOrNULL_returns loader s Hloader) as [path Hpath].
      unfold bind at 1. rewrite Hpath. unfold bind at 1. unfold log, modify.
      match goal with |- context [set_console ?v s] => set (s1 := set_console v s) end.
      destruct (IH s1 Hlive Hloader) as [entries ->].
      eexists. subst s1. rewrite set_console_twice. cbn [console set_console].
      rewrite <- app_assoc. reflexivity.
    + destruct (IH s Hlive Hloader) as [entries Hrun].
      exists entries. unfold bind. now rewrite Hrun.
Qed.

(** X8.  [purgeGraveyardOfMetaobjects] drops from the graveyard every
    MetaObject associated with the library and keeps the others in
    their order; beyond that it only writes to the log: the MetaObjects
    themselves stay allocated and the factory map is not touched. *)
Theorem purgeGraveyardOfMetaobjects_drops_the_library
    (library_path : string) (loader : loader_ptr) (s : State) :
  Forall (fun p => is_Some (meta_objects s !! p)) (graveyard s) ->
  (forall l, loader = Some l -> is_Some (class_loaders s !! l)) ->
  exists entries,
    impl.purgeGraveyardOfMetaobjects library_path loader s =
      Ret tt (set_graveyard
                (List.filter (fun p => negb (associated_with s library_path p)) (graveyard s))
                (set_console (console s ++ entries) s)) /\
    Forall (fun p => associated_with s library_path p = false)
      (List.filter (fun p => negb (associated_with s library_path p)) (graveyard s)).
Proof.
  intros Hlive Hloader.
  destruct (purgeGraveyard_loop_returns library_path loader (graveyard s) s Hlive Hloader)
    as [entries Hrun].
  exists entries. split.
  - unfold impl.purgeGraveyardOfMetaobjects, impl.allMetaObjects, bind, gets, modify.
    rewrite Hrun. reflexivity.
  - apply List.Forall_forall. intros p Hp. apply List.filter_In in Hp as [_ Hp].
    now apply negb_true_iff.
Qed.

Lemma purgeGraveyardOfMetaobjects_drops_the_library_witness :
  exists entries,
    impl.purgeGraveyardOfMetaobjects "/p/libA" (Some 1%nat) libA_unloaded_but_resident =
      Ret tt (set_graveyard
                (List.filter
                   (fun p => negb (associated_with libA_unloaded_but_resident "/p/libA" p))
                   (graveyard libA_unloaded_but_resident))
                (set_console (console libA_unloaded_but_resident ++ entries)
                   libA_unloaded_but_resident)) /\
    Forall (fun p => associated_with libA_unloaded_but_resident "/p/libA" p = false)
      (List.filter (fun p => negb (associated_with libA_unloaded_but_resident "/p/libA" p))
         (graveyard libA_unloaded_but_resident)).
Proof.
  apply (purgeGraveyardOfMetaobjects_drops_the_library "/p/libA" (Some 1%nat)
           libA_unloaded_but_resident).
  - replace (graveyard libA_unloaded_but_resident) with [2%nat] by (vm_compute; reflexivity).
    repeat constructor. eexists. vm_compute. reflexivity.
  - intros l [= <-]. eexists. vm_compute. reflexivity.
Defined.

(** ** class_loader_core.hpp: createInstance and getAvailableClasses *)

Section Factories.
Import AbstractMetaObjectBase.
Context {V : Type}.
Implicit Types (m : stdmap V) (k : string) (v : V).

Lemma ordered_head_lt k v m :
  StdMap.ordered ((k, v) :: m) -> Forall (fun e => String.compare k (fst e) = Lt) m.
Proof.
  unfold StdMap.ordered. intros H. apply Sorted_StronglySorted in H.
  - now apply StronglySorted_inv in H as [_ H].
  - intros a b c. unfold StdMap.key_lt. apply compare_lt_trans.
Qed.

Lemma ordered_tail k v m : StdMap.ordered ((k, v) :: m) -> StdMap.ordered m.
Proof. unfold StdMap.ordered. intros H. now apply Sorted_inv in H as [H _]. Qed.

(** In a [std::map] a key has one entry: [find] returns the value of
    the only entry with that key. *)
Lemma find_In_ordered k v m : StdMap.ordered m -> StdMap.find k m = Some v <-> In (k, v) m.
Proof.
  induction m as [|[k' v'] m IH]; intros Hord; cbn; [split; [discriminate|tauto]|].
  pose proof (ordered_head_lt _ _ _ Hord) as Hlt.
  specialize (IH (ordered_tail _ _ _ Hord)).
  destruct (String.eqb_spec k k') as [->|Hne].
  - split; [intros [= ->]; now left|].
    intros [[= ->]|Hin]; [reflexivity|].
    rewrite List.Forall_forall in Hlt. specialize (Hlt _ Hin). cbn in Hlt.
    now rewrite compare_refl in Hlt.
  - rewrite IH. split; [tauto|]. intros [[= -> ->]|?]; [contradiction|assumption].
Qed.
End Factories.

Section Creation.
Import AbstractMetaObjectBase.

Lemma getAvailableClasses_loop_returns (loader : loader_ptr) (s : State) (factory_map : stdmap nat) :
  Forall (fun it => is_Some (meta_objects s !! snd it)) factory_map ->
  forall classes classes_with_no_owner,
    impl.getAvailableClasses_loop factory_map loader classes classes_with_no_owner s =
      Ret (classes ++ map fst (List.filter (fun it => owned_by s loader (snd it)) factory_map),
           classes_with_no_owner ++
             map fst (List.filter (fun it => negb (owned_by s loader (snd it))
                                             && owned_by s None (snd it)) factory_map))%list
          s.
Proof.
  induction 1 as [|[name p] fm [o Ho] _ IH]; intros a b;
    cbn [impl.getAvailableClasses_loop List.filter map snd fst].
  - now rewrite !app_nil_r.
  - cbn [snd] in Ho. unfold bind. rewrite (read_meta_at _ _ _ Ho).
    assert (forall l, owned_by s l p = isOwnedBy l o) as Hown
        by (intros l; unfold owned_by; now rewrite Ho).
    rewrite !Hown.
    destruct (isOwnedBy loader o); cbn [negb andb map fst].
    + rewrite IH, <- app_assoc. reflexivity.
    + destruct (isOwnedBy None o); cbn [map fst]; rewrite IH, <- ?app_assoc; reflexivity.
Qed.

Lemma factories_of_live (Base : string) (s : State) (factory_map : stdmap nat) :
  factories_of Base s factory_map ->
  Forall (fun it => is_Some (meta_objects s !! snd it)) factory_map.
Proof. apply List.Forall_impl. intros it (o & Ho & _). now exists o. Qed.

(** X9.  [createInstance] and [getAvailableClasses] agree: with the factory
    map of the base class in order, [createInstance] returns an object
    exactly for the class names that [getAvailableClasses] lists for
    the loader, and throws CreateClassException for every other name.
    Neither changes the registry. *)
Theorem createInstance_succeeds_exactly_for_available_classes
    (Base : string) (loader : loader_ptr) (s : State) (factory_map : stdmap nat) :
  StdMap.find Base (factory_map_map s) = Some factory_map ->
  StdMap.ordered factory_map ->
  factories_of Base s factory_map ->
  exists classes,
    impl.getAvailableClasses Base loader s = Ret classes s /\
    forall derived_class_name,
      (In derived_class_name classes ->
       exists entries,
         impl.createInstance Base derived_class_name loader s =
           Ret tt (set_console (console s ++ entries) s)) /\
      (~ In derived_class_name classes ->
       exists entries,
         impl.createInstance Base derived_class_name loader s =
           Throw (CreateClassException ("Could not create instance of type " ++ derived_class_name))
                 (set_console (console s ++ entries) s)).
Proof.
  intros Hfind Hord Hfac.
  unfold impl.getAvailableClasses, impl.createInstance, impl.getFactoryMapForBaseClass,
    bind, get. rewrite Hfind. cbn [ret].
  rewrite (getAvailableClasses_loop_returns loader s factory_map (factories_of_live _ _ _ Hfac)).
  cbn [app fst snd]. eexists. split; [reflexivity|].
  intros name.
  assert (forall p o, StdMap.find name factory_map = Some p -> meta_objects s !! p = Some o ->
            In name (map fst (List.filter (fun it => owned_by s loader (snd it)) factory_map) ++
                     map fst (List.filter (fun it => negb (owned_by s loader (snd it))
                                                      && owned_by s None (snd it)) factory_map))
            <-> isOwnedBy loader o || isOwnedBy None o = true) as Hin.
  { intros p o Hp Ho. rewrite in_app_iff, !in_map_iff. split.
    - intros [([n q] & Hn & Hq)|([n q] & Hn & Hq)]; cbn in Hn; subst n;
        apply List.filter_In in Hq as [Hq Hown]; cbn in Hown;
        apply (find_In_ordered _ _ _ Hord) in Hq; rewrite Hp in Hq; injection Hq as <-;
        unfold owned_by in Hown; rewrite Ho in Hown.
      + now rewrite Hown.
      + apply andb_true_iff in Hown as [_ ->]. apply orb_true_r.
    - intros Hown. apply (find_In_ordered _ _ _ Hord) in Hp.
      destruct (isOwnedBy loader o) eqn:E.
      + left. exists (name, p). split; [reflexivity|]. apply List.filter_In.
        split; [assumption|]. cbn. unfold owned_by. now rewrite Ho.
      + right. exists (name, p). split; [reflexivity|]. apply List.filter_In.
        split; [assumption|]. cbn. unfold owned_by. rewrite Ho, E. exact Hown. }
  destruct (StdMap.find name factory_map) as [p|] eqn:Hp.
  - apply (find_In_ordered _ _ _ Hord) in Hp as Hmem.
    unfold factories_of in Hfac. rewrite List.Forall_forall in Hfac.
    destruct (Hfac _ Hmem) as (o & Ho & Hbase). cbn in Ho.
    specialize (Hin p o eq_refl Ho).
    rewrite (read_meta_at _ _ _ Ho). rewrite Hbase, String.eqb_refl. cbn [ret].
    destruct (isOwnedBy loader o); [|destruct (isOwnedBy None o)]; cbn in Hin.
    + split; [intros _|intros H; exfalso; apply H, Hin; reflexivity].
      eexists. reflexivity.
    + split; [intros _|intros H; exfalso; apply H, Hin; reflexivity].
      eexists. unfold log, modify, bind. cbn. rewrite <- app_assoc. reflexivity.
    + split; [intros H; apply Hin in H; discriminate|intros _].
      exists []. unfold throw. now rewrite app_nil_r, set_console_id.
  - split.
    + intros H. exfalso. apply in_app_iff in H. rewrite !in_map_iff in H.
      destruct H as [([n q] & Hn & Hq)|([n q] & Hn & Hq)]; cbn in Hn; subst n;
        apply List.filter_In in Hq as [Hq _];
        apply (find_In_ordered _ _ _ Hord) in Hq; congruence.
    + intros _. eexists. unfold log, modify, bind, throw. cbn. reflexivity.
Qed.
End Creation.

Lemma createInstance_succeeds_exactly_for_available_classes_witness :
  exists classes,
    impl.getAvailableClasses typeid_Base (Some 3%nat) multi_libB_then_libA
      = Ret classes multi_libB_then_libA /\
    forall derived_class_name,
      (In derived_class_name classes ->
       exists entries,
         impl.createInstance typeid_Base derived_class_name (Some 3%nat) multi_libB_then_libA =
           Ret tt (set_console (console multi_libB_then_libA ++ entries) multi_libB_then_libA)) /\
      (~ In derived_class_name classes ->
       exists entries,
         impl.createInstance typeid_Base derived_class_name (Some 3%nat) multi_libB_then_libA =
           Throw (CreateClassException ("Could not create instance of type " ++ derived_class_name))
                 (set_console (console multi_libB_then_libA ++ entries) multi_libB_then_libA)).
Proof.
  apply (createInstance_succeeds_exactly_for_available_classes typeid_Base (Some 3%nat)
           multi_libB_then_libA [("Bar", 4%nat); ("Baz", 1%nat); ("Foo", 6%nat)]).
  - vm_compute. reflexivity.
  - repeat constructor.
  - repeat constructor; eexists; split; vm_compute; reflexivity.
Defined.

(** ** class_loader_core.cpp: loadLibrary and unloadLibrary at their edges *)

Lemma findLoadedLibrary_in_None (library_path : string) (open_libraries : list (string * nat)) :
  impl.findLoadedLibrary_in library_path open_libraries = None <->
  ~ In library_path (map fst open_libraries).
Proof.
  induction open_libraries as [|[k h] l IH]; cbn; [tauto|].
  destruct (String.eqb_spec k library_path) as [->|Hne].
  - split; [discriminate|]. intros H. exfalso. apply H. now left.
  - rewrite IH. tauto.
Qed.

Lemma findLoadedLibrary_in_Some (library_path : string) (open_libraries : list (string * nat)) it :
  impl.findLoadedLibrary_in library_path open_libraries = Some it ->
  fst it = library_path /\ In it open_libraries.
Proof.
  induction open_libraries as [|[k h] l IH]; cbn; [discriminate|].
  destruct (String.eqb_spec k library_path) as [->|Hne].
  - intros [= <-]. split; [reflexivity|now left].
  - intros H. destruct (IH H). split; [assumption|now right].
Qed.

(** X10.  When the dynamic loader cannot open a library that is not yet in
    the vector of open libraries, [loadLibrary] throws
    LibraryLoadException, whose message tells a failed open from an
    allocation failure; the loading context is cleared and nothing has
    been registered or recorded as open. *)
Theorem impl_loadLibrary_reports_a_failed_open
    (library_path : string) (loader : loader_ptr) (s : State) (what : string) :
  ~ In library_path (map fst (loaded_libraries s)) ->
  (dl_open (os s) (os_calls s) library_path = OpenRuntimeError what ->
   exists s',
     impl.loadLibrary library_path loader s =
       Throw (LibraryLoadException ("Could not load library " ++ what)) s' /\
     failed_open_leaves s s') /\
  (dl_open (os s) (os_calls s) library_path = OpenBadAlloc what ->
   exists s',
     impl.loadLibrary library_path loader s =
       Throw (LibraryLoadException ("Bad alloc " ++ what)) s' /\
     failed_open_leaves s s').
Proof.
  intros Hnot. apply findLoadedLibrary_in_None in Hnot.
  split; intros Hopen;
    unfold impl.loadLibrary, impl.isLibraryLoadedByAnybody, impl.findLoadedLibrary,
      impl.setCurrentlyActiveClassLoader, impl.setCurrentlyLoadingLibraryName,
      impl.SharedLibrary_make_shared, impl.os_call, bind, gets, log, modify;
    cbn; rewrite Hnot; cbn; rewrite Hopen; cbn;
    eexists; (split; [reflexivity|]); repeat split.
Qed.

Lemma impl_loadLibrary_reports_a_failed_open_witness :
  exists s',
    impl.loadLibrary "/p/libZ" (Some 1%nat) lazy_libZ_loader =
      Throw (LibraryLoadException ("Could not load library " ++ "cannot open shared object file"))
            s' /\
    failed_open_leaves lazy_libZ_loader s'.
Proof.
  apply (impl_loadLibrary_reports_a_failed_open "/p/libZ" (Some 1%nat) lazy_libZ_loader
           "cannot open shared object file").
  - vm_compute. tauto.
  - vm_compute. reflexivity.
Defined.

(** X11.  [unloadLibrary] for a library that is not in the vector of open
    libraries (never loaded, or unloaded already) throws nothing: in a
    process without non-pure plugins it writes two debug messages and
    changes nothing else. *)
Theorem impl_unloadLibrary_of_an_unknown_library
    (library_path : string) (loader : loader_ptr) (s : State) :
  non_pure_plugin_library_opened s = false ->
  ~ In library_path (map fst (loaded_libraries s)) ->
  impl.unloadLibrary library_path loader s =
    Ret tt (set_console (console s ++ [(LogDebug, MsgUnloading library_path loader);
                                       (LogDebug, MsgUnloadUnaware library_path)])%list s).
Proof.
  intros Hpure Hnot. apply findLoadedLibrary_in_None in Hnot.
  unfold impl.unloadLibrary, impl.hasANonPurePluginLibraryBeenOpened, impl.findLoadedLibrary,
    bind, gets, log, modify.
  rewrite Hpure. cbn. rewrite Hnot. cbn. now rewrite <- app_assoc.
Qed.

Lemma impl_unloadLibrary_of_an_unknown_library_witness :
  impl.unloadLibrary "/p/libB" (Some 1%nat) lazy_libA_loader =
    Ret tt (set_console (console lazy_libA_loader ++
                           [(LogDebug, MsgUnloading "/p/libB" (Some 1%nat));
                            (LogDebug, MsgUnloadUnaware "/p/libB")])%list lazy_libA_loader).
Proof.
  apply (impl_unloadLibrary_of_an_unknown_library "/p/libB" (Some 1%nat) lazy_libA_loader).
  - reflexivity.
  - vm_compute. tauto.
Defined.

(** ** class_loader.cpp and class_loader.hpp: construction and the
       release of instances *)

(** X12.  A constructor that has to load the library at once and cannot open
    it throws LibraryLoadException and leaves no ClassLoader behind:
    the object at the new address is gone, every other ClassLoader is
    as before, and the registry is as after any failed open. *)
Theorem ClassLoader_constructor_failed_open
    (library_path : string) (s : State) (what : string) :
  library_path <> "" ->
  class_loaders s !! next_address s = None ->
  ~ In library_path (map fst (loaded_libraries s)) ->
  dl_open (os s) (os_calls s) library_path = OpenRuntimeError what ->
  exists s',
    ClassLoader.new library_path false s =
      Throw (LibraryLoadException ("Could not load library " ++ what)) s' /\
    class_loaders s' = class_loaders s /\
    failed_open_leaves s s'.
Proof.
  intros Hpath Hfresh Hnot Hopen. apply findLoadedLibrary_in_None in Hnot.
  unfold ClassLoader.new, ClassLoader.isOnDemandLoadUnloadEnabled, ClassLoader.loadLibrary,
    ClassLoader.getLibraryPath, rethrowing, bind, fresh_address, write_loader, read_loader,
    log, modify.
  cbn. simpl_lookup.
  destruct (String.eqb_spec library_path "") as [E|_]; [contradiction|].
  cbn. simpl_lookup. in_int_range. cbn. simpl_lookup.
  unfold impl.loadLibrary, impl.isLibraryLoadedByAnybody, impl.findLoadedLibrary,
    impl.setCurrentlyActiveClassLoader, impl.setCurrentlyLoadingLibraryName,
    impl.SharedLibrary_make_shared, impl.os_call, bind, gets, log, modify.
  cbn. rewrite Hnot. cbn. rewrite Hopen. cbn.
  eexists. split; [reflexivity|]. cbn.
  assert (delete (next_address s)
            (<[next_address s :=
                 ClassLoader.with_load_ref_count 1
                   {| ondemand_load_unload_ := false; library_path_ := library_path;
                      load_ref_count_ := 0; plugin_ref_count_ := 0 |}]>
               (<[next_address s :=
                    {| ondemand_load_unload_ := false; library_path_ := library_path;
                       load_ref_count_ := 0; plugin_ref_count_ := 0 |}]> (class_loaders s)))
          = class_loaders s) as Hdel
      by (rewrite insert_insert_eq, delete_insert_eq; now apply delete_id).
  split; [exact Hdel|]. repeat split. exact Hdel.
Qed.

Lemma ClassLoader_constructor_failed_open_witness :
  exists s',
    ClassLoader.new "/p/libZ" false (initial example_os) =
      Throw (LibraryLoadException ("Could not load library " ++ "cannot open shared object file"))
            s' /\
    class_loaders s' = class_loaders (initial example_os) /\
    failed_open_leaves (initial example_os) s'.
Proof.
  apply (ClassLoader_constructor_failed_open "/p/libZ" (initial example_os)
           "cannot open shared object file").
  - discriminate.
  - reflexivity.
  - cbn. tauto.
  - reflexivity.
Defined.

(** X13.  The release of a managed instance takes one off the count of live
    instances; as long as other instances stay alive, or the loader
    does not load on demand, nothing else happens apart from one debug
    message: no library is unloaded. *)
Theorem release_counts_down (h : ClassLoader.Handle) (s : State) (c : ClassLoaderData) :
  class_loaders s !! ClassLoader.deleter_this h = Some c ->
  0 < plugin_ref_count_ c <= INT_MAX ->
  1 < plugin_ref_count_ c \/ ondemand_load_unload_ c = false ->
  ClassLoader.release h s =
    Ret tt (with_plugin_count (ClassLoader.deleter_this h) c (plugin_ref_count_ c - 1)
              (set_console (console s ++ [(LogDebug, MsgCallingOnPluginDeletion)])%list s)).
Proof.
  intros Hc Hpos Hcase. destruct h as [this]. cbn [ClassLoader.deleter_this] in *.
  unfold ClassLoader.release, ClassLoader.onPluginDeletion,
    ClassLoader.isOnDemandLoadUnloadEnabled, bind, log, modify, read_loader.
  cbn. rewrite Hc. destruct (Z.ltb_spec 0 (plugin_ref_count_ c)); [|lia]. cbn.
  in_int_range. cbn. simpl_lookup.
  destruct Hcase as [Hmore| ->].
  - destruct (Z.eqb_spec (plugin_ref_count_ c - 1) 0); [lia|]. reflexivity.
  - now rewrite andb_false_r.
Qed.

Lemma release_counts_down_witness :
  ClassLoader.release {| ClassLoader.deleter_this := 1%nat |} libA_in_use =
    Ret tt (with_plugin_count 1%nat
              {| ondemand_load_unload_ := false; library_path_ := "/p/libA";
                 load_ref_count_ := 1; plugin_ref_count_ := 1 |} (1 - 1)
              (set_console (console libA_in_use ++ [(LogDebug, MsgCallingOnPluginDeletion)])%list
                 libA_in_use)).
Proof.
  apply (release_counts_down {| ClassLoader.deleter_this := 1%nat |} libA_in_use
           {| ondemand_load_unload_ := false; library_path_ := "/p/libA";
              load_ref_count_ := 1; plugin_ref_count_ := 1 |}).
  - vm_compute. reflexivity.
  - cbn. unfold INT_MAX. lia.
  - now right.
Defined.

(** X14.  Once an unmanaged instance has been created anywhere in the
    process, the release of the last managed instance of an on-demand
    loader no longer unloads the library: the count of live instances
    goes to zero, a warning is logged, and the load count, the open
    libraries and the registry stay as they are. *)
Theorem last_release_after_unmanaged_keeps_the_library
    (h : ClassLoader.Handle) (s : State) (c : ClassLoaderData) :
  class_loaders s !! ClassLoader.deleter_this h = Some c ->
  plugin_ref_count_ c = 1 ->
  ondemand_load_unload_ c = true ->
  has_unmananged_instance_been_created_ s = true ->
  ClassLoader.release h s =
    Ret tt (set_console
              (console s ++ [(LogDebug, MsgCallingOnPluginDeletion);
                             (LogWarn, MsgCannotUnloadUnmanaged (library_path_ c))])%list
              (with_plugin_count (ClassLoader.deleter_this h) c 0 s)).
Proof.
  intros Hc Hone Hlazy Hflag. destruct h as [this]. cbn [ClassLoader.deleter_this] in *.
  unfold ClassLoader.release, ClassLoader.onPluginDeletion,
    ClassLoader.isOnDemandLoadUnloadEnabled, ClassLoader.hasUnmanagedInstanceBeenCreated,
    ClassLoader.getLibraryPath, bind, gets, log, modify, read_loader.
  cbn. rewrite Hc, Hone. cbn. in_int_range. cbn. simpl_lookup. rewrite Hlazy.
  change (1 - 1) with 0. cbn. rewrite Hflag. cbn. simpl_lookup.
  unfold with_plugin_count. cbn. now rewrite <- app_assoc.
Qed.

Lemma last_release_after_unmanaged_keeps_the_library_witness :
  ClassLoader.release {| ClassLoader.deleter_this := 1%nat |} lazy_libA_in_use_unmanaged =
    Ret tt (set_console
              (console lazy_libA_in_use_unmanaged ++
                 [(LogDebug, MsgCallingOnPluginDeletion);
                  (LogWarn, MsgCannotUnloadUnmanaged "/p/libA")])%list
              (with_plugin_count 1%nat
                 {| ondemand_load_unload_ := true; library_path_ := "/p/libA";
                    load_ref_count_ := 1; plugin_ref_count_ := 1 |} 0
                 lazy_libA_in_use_unmanaged)).
Proof.
  apply (last_release_after_unmanaged_keeps_the_library
           {| ClassLoader.deleter_this := 1%nat |} lazy_libA_in_use_unmanaged
           {| ondemand_load_unload_ := true; library_path_ := "/p/libA";
              load_ref_count_ := 1; plugin_ref_count_ := 1 |});
    vm_compute; reflexivity.
Defined.

(** X15.  In a process without unmanaged instances, the release of the last
    managed instance of an on-demand loader that holds one load takes
    both counts to zero and hands over to the registry-level
    [unloadLibrary]; the release returns when that returns and throws
    what that throws. *)
Theorem last_release_unloads_on_demand
    (h : ClassLoader.Handle) (s : State) (c : ClassLoaderData) :
  class_loaders s !! ClassLoader.deleter_this h = Some c ->
  plugin_ref_count_ c = 1 ->
  load_ref_count_ c = 1 ->
  ondemand_load_unload_ c = true ->
  has_unmananged_instance_been_created_ s = false ->
  ClassLoader.release h s =
    match impl.unloadLibrary (library_path_ c) (Some (ClassLoader.deleter_this h))
            (with_load_count (ClassLoader.deleter_this h)
               (ClassLoader.with_plugin_ref_count 0 c) 0
               (with_plugin_count (ClassLoader.deleter_this h) c 0
                  (set_console (console s ++ [(LogDebug, MsgCallingOnPluginDeletion)])%list s)))
    with
    | Ret _ s' => Ret tt s'
    | Throw e s' => Throw e s'
    | Undefined u => Undefined u
    end.
Proof.
  intros Hc Hone Hload Hlazy Hflag. destruct h as [this]. cbn [ClassLoader.deleter_this] in *.
  unfold ClassLoader.release, ClassLoader.onPluginDeletion,
    ClassLoader.isOnDemandLoadUnloadEnabled, ClassLoader.hasUnmanagedInstanceBeenCreated,
    ClassLoader.unloadLibraryInternal, ClassLoader.getLibraryPath,
    bind, gets, log, modify, read_loader.
  cbn. rewrite Hc, Hone. cbn. in_int_range. cbn. simpl_lookup. rewrite Hlazy.
  change (1 - 1) with 0. cbn. rewrite Hflag. cbn. simpl_lookup. rewrite Hload.
  change (1 - 1) with 0. in_int_range. cbn. simpl_lookup.
  unfold with_load_count, with_plugin_count. cbn.
  match goal with
  | |- context [impl.unloadLibrary ?p ?l ?st] =>
      pose proof (impl_unloadLibrary_preserves same_class_loaders any_meta p l st) as Hf;
      destruct (impl.unloadLibrary p l st) as [[] s'|e s'|u]; try reflexivity
  end.
  unfold same_class_loaders in Hf. cbn in Hf. rewrite <- Hf. simpl_lookup. reflexivity.
Qed.

Lemma last_release_unloads_on_demand_witness :
  let c := {| ondemand_load_unload_ := true; library_path_ := "/p/libA";
              load_ref_count_ := 1; plugin_ref_count_ := 1 |} in
  ClassLoader.release {| ClassLoader.deleter_this := 1%nat |} lazy_libA_in_use =
    match impl.unloadLibrary "/p/libA" (Some 1%nat)
            (with_load_count 1%nat (ClassLoader.with_plugin_ref_count 0 c) 0
               (with_plugin_count 1%nat c 0
                  (set_console
                     (console lazy_libA_in_use ++ [(LogDebug, MsgCallingOnPluginDeletion)])%list
                     lazy_libA_in_use)))
    with
    | Ret _ s' => Ret tt s'
    | Throw e s' => Throw e s'
    | Undefined u => Undefined u
    end.
Proof.
  apply (last_release_unloads_on_demand {| ClassLoader.deleter_this := 1%nat |} lazy_libA_in_use
           {| ondemand_load_unload_ := true; library_path_ := "/p/libA";
              load_ref_count_ := 1; plugin_ref_count_ := 1 |});
    vm_compute; reflexivity.
Defined.

(** ** multi_library_class_loader.cpp *)

#[export] Instance same_multi_loaders_frame : Frame same_multi_loaders any_meta.
Proof. split; unfold same_multi_loaders, any_meta; cbn; intuition congruence. Qed.

#[export] Instance same_multi_loaders_loaders : FrameLoaders same_multi_loaders.
Proof. intros v s. reflexivity. Qed.

Section MultiLibraryClassLoaderFacts.
Implicit Types (m : stdmap loader_ptr) (i : MultiLibraryClassLoaderImpl).

Lemma bound_libraries_In library_path m :
  In library_path (bound_libraries m) <-> exists l, In (library_path, Some l) m.
Proof.
  unfold bound_libraries. rewrite in_map_iff. split.
  - intros ([k [l|]] & Hk & Hin); cbn in Hk; subst k;
      apply List.filter_In in Hin as [Hin Hnn]; [eauto|discriminate].
  - intros (l & Hin). exists (library_path, Some l). split; [reflexivity|].
    apply List.filter_In. split; [assumption|reflexivity].
Qed.

Lemma existsb_eqb_In (x : string) (l : list string) :
  existsb (String.eqb x) l = true <-> In x l.
Proof.
  rewrite existsb_exists. split.
  - intros (y & Hy & E). apply String.eqb_eq in E. now subst y.
  - intros H. exists x. split; [assumption|apply String.eqb_refl].
Qed.

Lemma getRegisteredLibraries_at this s i :
  multi_loaders s !! this = Some i ->
  MultiLibraryClassLoader.getRegisteredLibraries this s =
    Ret (bound_libraries (active_class_loaders_ i)) s.
Proof.
  intros Hi. unfold MultiLibraryClassLoader.getRegisteredLibraries, bind.
  now rewrite (read_multi_at _ _ _ Hi).
Qed.

Lemma isLibraryAvailable_at this library_name s i :
  multi_loaders s !! this = Some i ->
  MultiLibraryClassLoader.isLibraryAvailable this library_name s =
    Ret (existsb (String.eqb library_name) (bound_libraries (active_class_loaders_ i))) s.
Proof.
  intros Hi. unfold MultiLibraryClassLoader.isLibraryAvailable, bind.
  now rewrite (getRegisteredLibraries_at _ _ _ Hi).
Qed.

Lemma In_assign (k : string) (v : loader_ptr) m : In (k, v) (StdMap.assign k v m).
Proof.
  induction m as [|[k' v'] m IH]; cbn; [now left|].
  destruct (String.compare k k'); cbn; auto.
Qed.

Lemma with_active_class_loaders_same i :
  MultiLibraryClassLoader.with_active_class_loaders (active_class_loaders_ i) i = i.
Proof. now destruct i. Qed.

(** X16.  When [loadLibrary] of a MultiLibraryClassLoader returns, the
    library is among the registered libraries, and a second
    [loadLibrary] for it returns at once without changing anything: no
    second ClassLoader is made and no load count goes up. *)
Theorem Multi_loadLibrary_registers_once (this : nat) (library_path : string) (s s' : State) :
  MultiLibraryClassLoader.loadLibrary this library_path s = Ret tt s' ->
  MultiLibraryClassLoader.isLibraryAvailable this library_path s' = Ret true s' /\
  MultiLibraryClassLoader.loadLibrary this library_path s' = Ret tt s'.
Proof.
  intros Hrun.
  assert (MultiLibraryClassLoader.isLibraryAvailable this library_path s' = Ret true s') as Hav.
  { unfold MultiLibraryClassLoader.loadLibrary in Hrun.
    apply bind_returns in Hrun as (available & s0 & Hav & Hrun).
    destruct (multi_loaders s !! this) as [i|] eqn:Hi.
    2:{ unfold MultiLibraryClassLoader.isLibraryAvailable,
          MultiLibraryClassLoader.getRegisteredLibraries, bind, read_multi in Hav.
        rewrite Hi in Hav. discriminate. }
    rewrite (isLibraryAvailable_at _ _ _ _ Hi) in Hav. injection Hav as <- <-.
    destruct (existsb _ _) eqn:E; cbn [negb] in Hrun.
    - injection Hrun as <-. now rewrite (isLibraryAvailable_at _ _ _ _ Hi), E.
    - apply bind_returns in Hrun as (ondemand & s1 & Hod & Hrun).
      unfold MultiLibraryClassLoader.isOnDemandLoadUnloadEnabled, bind in Hod.
      rewrite (read_multi_at _ _ _ Hi) in Hod. injection Hod as <- <-.
      apply bind_returns in Hrun as (loader & s2 & Hnew & Hrun).
      pose proof (ClassLoader_new_preserves same_multi_loaders any_meta library_path
                    (enable_ondemand_loadunload_ i) s) as Hf.
      rewrite Hnew in Hf. unfold same_multi_loaders in Hf.
      unfold bind, modify, read_multi, write_multi in Hrun. cbn in Hrun.
      rewrite <- Hf, Hi in Hrun. injection Hrun as <-.
      erewrite isLibraryAvailable_at by (cbn; apply lookup_insert_eq).
      f_equal. cbn. apply existsb_eqb_In, bound_libraries_In.
      exists loader. apply In_assign. }
  split; [exact Hav|].
  unfold MultiLibraryClassLoader.loadLibrary, bind. now rewrite Hav.
Qed.

Lemma Multi_loadLibrary_registers_once_witness :
  MultiLibraryClassLoader.isLibraryAvailable 1%nat "/p/libA" multi_with_libA
    = Ret true multi_with_libA /\
  MultiLibraryClassLoader.loadLibrary 1%nat "/p/libA" multi_with_libA = Ret tt multi_with_libA.
Proof.
  apply (Multi_loadLibrary_registers_once 1%nat "/p/libA" (after [NewMulti false])
           multi_with_libA).
  vm_compute. reflexivity.
Defined.

(** X17.  [unloadLibrary] of a MultiLibraryClassLoader for a library it has
    no loader for returns 0 and changes nothing. *)
Theorem Multi_unloadLibrary_of_an_unknown_library
    (this : nat) (library_path : string) (s : State) (i : MultiLibraryClassLoaderImpl) :
  multi_loaders s !! this = Some i ->
  (forall l, ~ In (library_path, Some l) (active_class_loaders_ i)) ->
  MultiLibraryClassLoader.unloadLibrary this library_path s = Ret 0 s.
Proof.
  intros Hi Hnot. unfold MultiLibraryClassLoader.unloadLibrary, bind.
  rewrite (isLibraryAvailable_at _ _ _ _ Hi).
  destruct (existsb _ _) eqn:E; [|reflexivity].
  apply existsb_eqb_In, bound_libraries_In in E as [l Hl]. now apply Hnot in Hl.
Qed.

Lemma Multi_unloadLibrary_of_an_unknown_library_witness :
  MultiLibraryClassLoader.unloadLibrary 1%nat "/p/libB" multi_with_libA = Ret 0 multi_with_libA.
Proof.
  apply (Multi_unloadLibrary_of_an_unknown_library 1%nat "/p/libB" multi_with_libA
           {| enable_ondemand_loadunload_ := false;
              active_class_loaders_ := [("/p/libA", Some 2%nat)] |}).
  - vm_compute. reflexivity.
  - intros l [[=]|[]].
Defined.

(** X18.  In every state a process can reach, when [unloadLibrary] of a
    MultiLibraryClassLoader returns, the library is still registered
    exactly if the value returned, the number of unloads that remain,
    is not zero. *)
Theorem Multi_unloadLibrary_forgets_at_zero
    (os : OS) (this : nat) (library_path : string) (s s' : State) (remaining_unloads : Z) :
  reaches (initial os) s ->
  MultiLibraryClassLoader.unloadLibrary this library_path s = Ret remaining_unloads s' ->
  MultiLibraryClassLoader.isLibraryAvailable this library_path s' =
    Ret (negb (remaining_unloads =? 0)) s'.
Proof.
  intros Hreach Hrun. apply reaches_ordered in Hreach.
  unfold MultiLibraryClassLoader.unloadLibrary in Hrun.
  apply bind_returns in Hrun as (available & s0 & Hav & Hrun).
  destruct (multi_loaders s !! this) as [i|] eqn:Hi.
  2:{ unfold MultiLibraryClassLoader.isLibraryAvailable,
        MultiLibraryClassLoader.getRegisteredLibraries, bind, read_multi in Hav.
      rewrite Hi in Hav. discriminate. }
  specialize (Hreach this i Hi).
  rewrite (isLibraryAvailable_at _ _ _ _ Hi) in Hav. injection Hav as <- <-.
  destruct (existsb _ _) eqn:E.
  2:{ injection Hrun as <- <-. now rewrite (isLibraryAvailable_at _ _ _ _ Hi), E. }
  apply existsb_eqb_In, bound_libraries_In in E as [l Hl].
  apply (find_In_ordered _ _ _ Hreach) in Hl.
  apply bind_returns in Hrun as (loader & s1 & Hget & Hrun).
  unfold MultiLibraryClassLoader.getClassLoaderForLibrary, StdMap.index, bind, write_multi,
    modify in Hget.
  rewrite (read_multi_at _ _ _ Hi), Hl in Hget. cbn in Hget.
  rewrite with_active_class_loaders_same, insert_id in Hget by assumption.
  injection Hget as <- <-.
  apply bind_returns in Hrun as (n & s2 & Hunload & Hrun). cbn [arrow] in Hunload.
  pose proof (ClassLoader_unloadLibrary_preserves same_multi_loaders any_meta l
                (set_multi_loaders (multi_loaders s) s)) as Hf.
  rewrite Hunload in Hf. unfold same_multi_loaders in Hf. cbn in Hf.
  apply bind_returns in Hrun as ([] & s3 & Hrest & Hret). injection Hret as <- <-.
  destruct (Z.eqb_spec n 0) as [->|Hne]; cbn [negb].
  - unfold bind, read_multi, write_multi, modify, gets in Hrest.
    rewrite <- Hf, Hi in Hrest. cbn in Hrest.
    match type of Hrest with
    | context [when ?b (ClassLoader.delete_ l) ?st] =>
        pose proof (preserves_when same_multi_loaders any_meta b _
                      (ClassLoader_delete_preserves same_multi_loaders any_meta l) st) as Hd;
        destruct (when b (ClassLoader.delete_ l) st) as [[] s4| |]; try discriminate
    end.
    injection Hrest as <-. unfold same_multi_loaders in Hd. cbn in Hd.
    erewrite isLibraryAvailable_at by (rewrite <- Hd; apply lookup_insert_eq).
    f_equal. cbn [MultiLibraryClassLoader.with_active_class_loaders active_class_loaders_].
    apply not_true_iff_false. rewrite existsb_eqb_In, bound_libraries_In.
    intros (l' & Hl').
    apply (find_In_ordered _ _ _ (assign_ordered _ _ _ Hreach)) in Hl'.
    rewrite find_assign_same in Hl'. discriminate.
  - injection Hrest as <-.
    erewrite isLibraryAvailable_at by (rewrite <- Hf; exact Hi).
    f_equal. apply existsb_eqb_In, bound_libraries_In. exists l.
    now apply (find_In_ordered _ _ _ Hreach).
Qed.
End MultiLibraryClassLoaderFacts.

Lemma Multi_unloadLibrary_forgets_at_zero_witness :
  MultiLibraryClassLoader.isLibraryAvailable 1%nat "/p/libA" multi_libA_unloaded =
    Ret (negb (0 =? 0)) multi_libA_unloaded.
Proof.
  apply (Multi_unloadLibrary_forgets_at_zero example_os 1%nat "/p/libA" multi_with_libA
           multi_libA_unloaded 0).
  - apply (run_reaches [NewMulti false; MultiLoadLibrary 1%nat "/p/libA"]).
    vm_compute. reflexivity.
  - vm_compute. reflexivity.
Defined.

Section RegisteredLibraries.

Lemma ordered_StronglySorted {V : Type} (m : stdmap V) :
  StdMap.ordered m -> StronglySorted StdMap.key_lt m.
Proof.
  apply Sorted_StronglySorted. intros a b c. unfold StdMap.key_lt. apply compare_lt_trans.
Qed.

Lemma StronglySorted_filter {A : Type} (R : A -> A -> Prop) (f : A -> bool) (l : list A) :
  StronglySorted R l -> StronglySorted R (List.filter f l).
Proof.
  induction 1 as [|a l Hl IH Ha]; cbn; [constructor|].
  destruct (f a); [|assumption]. constructor; [assumption|].
  apply List.Forall_forall. intros x Hx. apply List.filter_In in Hx as [Hx _].
  rewrite List.Forall_forall in Ha. now apply Ha.
Qed.

Lemma StronglySorted_map_fst {V : Type} (m : stdmap V) :
  StronglySorted StdMap.key_lt m ->
  StronglySorted (fun a b => String.compare a b = Lt) (map fst m).
Proof.
  induction 1 as [|a l Hl IH Ha]; cbn; constructor; [assumption|].
  apply List.Forall_forall. intros x Hx. apply in_map_iff in Hx as (e & <- & He).
  rewrite List.Forall_forall in Ha. now apply Ha.
Qed.

(** X19.  In every state a process can reach, [getRegisteredLibraries]
    returns the libraries that are bound to a loader in strictly
    ascending order of their paths, whatever the order in which they
    were loaded: no library is listed twice, and a library whose entry
    holds the null loader is not listed. *)
Theorem getRegisteredLibraries_in_ascending_order
    (os : OS) (s : State) (this : nat) (i : MultiLibraryClassLoaderImpl) :
  reaches (initial os) s ->
  multi_loaders s !! this = Some i ->
  exists libraries,
    MultiLibraryClassLoader.getRegisteredLibraries this s = Ret libraries s /\
    StronglySorted (fun a b => String.compare a b = Lt) libraries /\
    forall library_path,
      In library_path libraries <->
      exists l, StdMap.find library_path (active_class_loaders_ i) = Some (Some l).
Proof.
  intros Hreach Hi. apply reaches_ordered in Hreach. specialize (Hreach this i Hi).
  exists (bound_libraries (active_class_loaders_ i)).
  split; [now apply getRegisteredLibraries_at|]. split.
  - unfold bound_libraries.
    now apply StronglySorted_map_fst, StronglySorted_filter, ordered_StronglySorted.
  - intros library_path. rewrite bound_libraries_In.
    split; intros (l & Hl); exists l; now apply (find_In_ordered _ _ _ Hreach).
Qed.

Lemma getRegisteredLibraries_in_ascending_order_witness :
  exists libraries,
    MultiLibraryClassLoader.getRegisteredLibraries 2%nat multi_libB_then_libA
      = Ret libraries multi_libB_then_libA /\
    StronglySorted (fun a b => String.compare a b = Lt) libraries /\
    forall library_path,
      In library_path libraries <->
      exists l, StdMap.find library_path [("/p/libA", Some 5%nat); ("/p/libB", Some 3%nat)]
                = Some (Some l).
Proof.
  apply (getRegisteredLibraries_in_ascending_order example_os multi_libB_then_libA 2%nat
           {| enable_ondemand_loadunload_ := false;
              active_class_loaders_ := [("/p/libA", Some 5%nat); ("/p/libB", Some 3%nat)] |}).
  - apply (run_reaches [StaticInitialiser "" (register "Baz"); NewMulti false;
                        MultiLoadLibrary 2%nat "/p/libB"; MultiLoadLibrary 2%nat "/p/libA"]).
    vm_compute. reflexivity.
  - vm_compute. reflexivity.
Defined.
End RegisteredLibraries.

(** X20.  A MultiLibraryClassLoader that has no library: it offers no class,
    and each of its one-argument creators throws CreateClassException
    without touching anything but the log. *)
Theorem Multi_without_libraries_creates_nothing
    (Base : string) (this : nat) (class_name : string) (s : State)
    (i : MultiLibraryClassLoaderImpl) :
  multi_loaders s !! this = Some i ->
  active_class_loaders_ i = [] ->
  MultiLibraryClassLoader.getAvailableClasses Base this s = Ret [] s /\
  MultiLibraryClassLoader.isClassAvailable Base this class_name s = Ret false s /\
  (exists what,
      MultiLibraryClassLoader.createInstance Base this class_name s =
        Throw (CreateClassException what)
              (set_console (console s ++ [(LogDebug, MsgMultiAttemptingToCreate class_name)])%list
                 s)) /\
  (exists what,
      MultiLibraryClassLoader.createUniqueInstance Base this class_name s =
        Throw (CreateClassException what)
              (set_console (console s ++ [(LogDebug, MsgMultiAttemptingToCreate class_name)])%list
                 s)) /\
  (exists what,
      MultiLibraryClassLoader.createUnmanagedInstance Base this class_name s =
        Throw (CreateClassException what) s).
Proof.
  intros Hi Hempty.
  unfold MultiLibraryClassLoader.getAvailableClasses, MultiLibraryClassLoader.isClassAvailable,
    MultiLibraryClassLoader.createInstance, MultiLibraryClassLoader.createUniqueInstance,
    MultiLibraryClassLoader.createUnmanagedInstance,
    MultiLibraryClassLoader.getAvailableClasses, MultiLibraryClassLoader.getClassLoaderForClass,
    MultiLibraryClassLoader.getAllAvailableClassLoaders, bind, log, modify, read_multi.
  cbn. rewrite Hi, Hempty. cbn. repeat split; eexists; reflexivity.
Qed.

Lemma Multi_without_libraries_creates_nothing_witness :
  let s := after [NewMulti false] in
  MultiLibraryClassLoader.getAvailableClasses typeid_Base 1%nat s = Ret [] s /\
  MultiLibraryClassLoader.isClassAvailable typeid_Base 1%nat "Foo" s = Ret false s /\
  (exists what,
      MultiLibraryClassLoader.createInstance typeid_Base 1%nat "Foo" s =
        Throw (CreateClassException what)
              (set_console (console s ++ [(LogDebug, MsgMultiAttemptingToCreate "Foo")])%list s)) /\
  (exists what,
      MultiLibraryClassLoader.createUniqueInstance typeid_Base 1%nat "Foo" s =
        Throw (CreateClassException what)
              (set_console (console s ++ [(LogDebug, MsgMultiAttemptingToCreate "Foo")])%list s)) /\
  (exists what,
      MultiLibraryClassLoader.createUnmanagedInstance typeid_Base 1%nat "Foo" s =
        Throw (CreateClassException what) s).
Proof.
  apply (Multi_without_libraries_creates_nothing typeid_Base 1%nat "Foo" (after [NewMulti false])
           {| enable_ondemand_loadunload_ := false; active_class_loaders_ := [] |});
    vm_compute; reflexivity.
Defined.

(** ** Footprints of the three layers *)

Lemma ensures_preserves {A} (R : State -> State -> Prop) (P : exn -> Prop) (m : M A) :
  ensures R P m -> preserves R m.
Proof. intros H s. specialize (H s). destruct (m s); tauto. Qed.

Section EnsuresCombinators.
Context (R : State -> State -> Prop) (P : exn -> Prop) `{!Basic R}.

Lemma ensures_ret {A} (a : A) : ensures R P (ret a).
Proof. intros s. apply basic_refl. Qed.

Lemma ensures_throw {A} (e : exn) : P e -> ensures R P (@throw A e).
Proof. intros H s. split; [apply basic_refl|exact H]. Qed.

Lemma ensures_crash {A} (c : Crash) : ensures R P (@crash A c).
Proof. intros s. exact I. Qed.

Lemma ensures_get : ensures R P get.
Proof. intros s. apply basic_refl. Qed.

Lemma ensures_gets {A} (f : State -> A) : ensures R P (gets f).
Proof. intros s. apply basic_refl. Qed.

Lemma ensures_modify (f : State -> State) : (forall s, R s (f s)) -> ensures R P (modify f).
Proof. intros H s. apply H. Qed.

Lemma ensures_bind {A B} (m : M A) (k : A -> M B) :
  ensures R P m -> (forall a, ensures R P (k a)) -> ensures R P (bind m k).
Proof.
  intros Hm Hk s. unfold bind. specialize (Hm s).
  destruct (m s) as [a s'| |]; [|assumption|exact I].
  specialize (Hk a s'). destruct (k a s') as [b s''|e s''|]; [| |exact I].
  - eapply basic_trans; eassumption.
  - destruct Hk. split; [eapply basic_trans; eassumption|assumption].
Qed.

Lemma ensures_rethrowing {A} (m : M A) (h : M unit) :
  ensures R P m -> ensures R P h -> ensures R P (rethrowing m h).
Proof.
  intros Hm Hh s. unfold rethrowing. specialize (Hm s).
  destruct (m s) as [a s'|e s'|]; [assumption| |exact I].
  destruct Hm as [Hm He]. unfold bind. specialize (Hh s').
  destruct (h s') as [[] s''|e' s''|]; [| |exact I]; cbn.
  - split; [eapply basic_trans; eassumption|assumption].
  - destruct Hh. split; [eapply basic_trans; eassumption|assumption].
Qed.

Lemma ensures_noexcept {A} (Q : exn -> Prop) (m : M A) :
  ensures R Q m -> ensures R P (noexcept m).
Proof.
  intros Hm s. unfold noexcept. specialize (Hm s). destruct (m s); [assumption|exact I..].
Qed.

Lemma ensures_for_each {A} (l : list A) (body : A -> M unit) :
  (forall x, ensures R P (body x)) -> ensures R P (for_each l body).
Proof.
  intros H. induction l as [|x l IH]; cbn.
  - apply ensures_ret.
  - apply ensures_bind; [apply H|intros _; exact IH].
Qed.

Lemma ensures_when (b : bool) (m : M unit) : ensures R P m -> ensures R P (when b m).
Proof. intros H. destruct b; cbn; [assumption|apply ensures_ret]. Qed.

Lemma ensures_discard {A} (m : M A) : ensures R P m -> ensures R P (discard m).
Proof. intros H. apply ensures_bind; [assumption|intros; apply ensures_ret]. Qed.

Lemma ensures_log lvl msg : ensures R P (log lvl msg).
Proof. apply ensures_modify. intros s. apply keeps_console. Qed.

Lemma ensures_fresh_address : ensures R P fresh_address.
Proof. intros s. apply keeps_next_address. Qed.

Lemma ensures_read_meta p : ensures R P (read_meta p).
Proof. intros s. unfold read_meta. destruct (_ !! _); [apply basic_refl|exact I]. Qed.

Lemma ensures_read_loader p : ensures R P (read_loader p).
Proof. intros s. unfold read_loader. destruct (_ !! _); [apply basic_refl|exact I]. Qed.

Lemma ensures_read_multi p : ensures R P (read_multi p).
Proof. intros s. unfold read_multi. destruct (_ !! _); [apply basic_refl|exact I]. Qed.

Lemma ensures_int_result z : ensures R P (int_result z).
Proof. unfold int_result. destruct (_ && _); [apply ensures_ret|apply ensures_crash]. Qed.

Lemma ensures_arrow {A} (p : loader_ptr) (f : nat -> M A) :
  (forall this, ensures R P (f this)) -> ensures R P (arrow p f).
Proof. intros H. destruct p; cbn; [apply H|apply ensures_crash]. Qed.
End EnsuresCombinators.

Create HintDb keeps discriminated.

#[export] Hint Resolve ensures_ret ensures_crash ensures_get ensures_gets ensures_log
  ensures_fresh_address ensures_read_meta ensures_read_loader ensures_read_multi
  ensures_int_result : keeps.

Ltac keeps_field :=
  first [ apply keeps_console | apply keeps_next_address | apply keeps_meta_objects
        | apply keeps_factory_map_map | apply keeps_graveyard | apply keeps_plugin_holders
        | apply keeps_non_pure_raised | apply keeps_loaded_libraries | apply keeps_os_calls
        | apply keeps_currently_loading_library | apply keeps_currently_active_loader
        | apply keeps_class_loaders | apply keeps_unmanaged_raised
        | apply keeps_multi_loaders | apply keeps_class_loader_ptrs | apply basic_refl ].

Ltac admits_exception :=
  first [ apply admits_load | apply admits_unload | apply admits_create
        | apply admits_no_loader ].

(** One step of a footprint proof. *)
Ltac keeps_step :=
  lazymatch goal with
  | |- ensures _ _ (bind _ _) => apply ensures_bind; try exact _; [|intros ?]
  | |- ensures _ _ (for_each _ _) => apply ensures_for_each; try exact _; intros ?
  | |- ensures _ _ (when _ _) => apply ensures_when; try exact _
  | |- ensures _ _ (discard _) => apply ensures_discard; try exact _
  | |- ensures _ _ (noexcept _) => eapply ensures_noexcept; try exact _
  | |- ensures _ _ (rethrowing _ _) => apply ensures_rethrowing; try exact _
  | |- ensures _ _ (arrow _ _) => apply ensures_arrow; try exact _; intros ?
  | |- ensures _ _ (throw _) => apply ensures_throw; try exact _; admits_exception
  | |- ensures _ _ (modify _) => apply ensures_modify; intros ?; keeps_field
  | |- ensures _ _ (write_meta _ _) => apply ensures_modify; intros ?; keeps_field
  | |- ensures _ _ (write_loader _ _) => apply ensures_modify; intros ?; keeps_field
  | |- ensures _ _ (write_multi _ _) => apply ensures_modify; intros ?; keeps_field
  | |- ensures _ _ (match ?x with _ => _ end) => destruct x
  | |- ensures _ _ (let _ := _ in _) => cbv zeta
  | |- ensures _ _ _ => solve [eauto with keeps typeclass_instances]
  end.

Ltac keeps := repeat keeps_step.

(** *** The registry *)

Section RegistryFootprint.
Context (R : State -> State -> Prop) (P : exn -> Prop) `{!Basic R} `{!Registry R}.

Local Ltac start f := intros; unfold f; keeps.

Lemma getFactoryMapForBaseClass_keeps b : ensures R P (impl.getFactoryMapForBaseClass b).
Proof. start impl.getFactoryMapForBaseClass. Qed.

Lemma storeFactoryMap_keeps b fm : ensures R P (impl.storeFactoryMap b fm).
Proof. start impl.storeFactoryMap. Qed.

Lemma getCurrentlyLoadingLibraryName_keeps : ensures R P impl.getCurrentlyLoadingLibraryName.
Proof. start impl.getCurrentlyLoadingLibraryName. Qed.

Lemma getCurrentlyActiveClassLoader_keeps : ensures R P impl.getCurrentlyActiveClassLoader.
Proof. start impl.getCurrentlyActiveClassLoader. Qed.

Lemma hasANonPurePluginLibraryBeenOpened_keeps :
  ensures R P impl.hasANonPurePluginLibraryBeenOpened.
Proof. start impl.hasANonPurePluginLibraryBeenOpened. Qed.

Lemma raise_non_pure_keeps : ensures R P (impl.hasANonPurePluginLibraryBeenOpened_set true).
Proof. start impl.hasANonPurePluginLibraryBeenOpened_set. Qed.

Lemma allMetaObjects_keeps : ensures R P impl.allMetaObjects.
Proof. start impl.allMetaObjects. Qed.

Lemma filterAllMetaObjectsOwnedBy_keeps l owner :
  ensures R P (impl.filterAllMetaObjectsOwnedBy l owner).
Proof. induction l; cbn; keeps. Qed.

Lemma filterAllMetaObjectsAssociatedWithLibrary_keeps l path :
  ensures R P (impl.filterAllMetaObjectsAssociatedWithLibrary l path).
Proof. induction l; cbn; keeps. Qed.

Hint Resolve getFactoryMapForBaseClass_keeps storeFactoryMap_keeps
  getCurrentlyLoadingLibraryName_keeps getCurrentlyActiveClassLoader_keeps
  hasANonPurePluginLibraryBeenOpened_keeps raise_non_pure_keeps
  allMetaObjects_keeps filterAllMetaObjectsOwnedBy_keeps
  filterAllMetaObjectsAssociatedWithLibrary_keeps : keeps.

Lemma allMetaObjectsForClassLoader_keeps owner :
  ensures R P (impl.allMetaObjectsForClassLoader owner).
Proof. start impl.allMetaObjectsForClassLoader. Qed.

Lemma allMetaObjectsForLibrary_keeps path : ensures R P (impl.allMetaObjectsForLibrary path).
Proof. start impl.allMetaObjectsForLibrary. Qed.
Hint Resolve allMetaObjectsForClassLoader_keeps allMetaObjectsForLibrary_keeps : keeps.

Lemma allMetaObjectsForLibraryOwnedBy_keeps path owner :
  ensures R P (impl.allMetaObjectsForLibraryOwnedBy path owner).
Proof. start impl.allMetaObjectsForLibraryOwnedBy. Qed.

Lemma insertMetaObjectIntoGraveyard_keeps p : ensures R P (impl.insertMetaObjectIntoGraveyard p).
Proof. start impl.insertMetaObjectIntoGraveyard. Qed.
Hint Resolve allMetaObjectsForLibraryOwnedBy_keeps insertMetaObjectIntoGraveyard_keeps : keeps.

Lemma destroyMetaObjectsForLibrary_in_keeps path base loader :
  ensures R P (impl.destroyMetaObjectsForLibrary_in path base loader).
Proof. start impl.destroyMetaObjectsForLibrary_in. Qed.
Hint Resolve destroyMetaObjectsForLibrary_in_keeps : keeps.

Lemma destroyMetaObjectsForLibrary_keeps path loader :
  ensures R P (impl.destroyMetaObjectsForLibrary path loader).
Proof. start impl.destroyMetaObjectsForLibrary. Qed.

Lemma areThereAnyExistingMetaObjectsForLibrary_keeps path :
  ensures R P (impl.areThereAnyExistingMetaObjectsForLibrary path).
Proof. start impl.areThereAnyExistingMetaObjectsForLibrary. Qed.

Lemma findLoadedLibrary_keeps path : ensures R P (impl.findLoadedLibrary path).
Proof. start impl.findLoadedLibrary. Qed.
Hint Resolve destroyMetaObjectsForLibrary_keeps areThereAnyExistingMetaObjectsForLibrary_keeps
  findLoadedLibrary_keeps : keeps.

Lemma isLibraryLoadedByAnybody_keeps path : ensures R P (impl.isLibraryLoadedByAnybody path).
Proof. start impl.isLibraryLoadedByAnybody. Qed.
Hint Resolve isLibraryLoadedByAnybody_keeps : keeps.

Lemma isLibraryLoaded_keeps path loader : ensures R P (impl.isLibraryLoaded path loader).
Proof. start impl.isLibraryLoaded. Qed.

Lemma loaderPathOrNULL_keeps loader : ensures R P (impl.loaderPathOrNULL loader).
Proof. start impl.loaderPathOrNULL. Qed.
Hint Resolve isLibraryLoaded_keeps loaderPathOrNULL_keeps : keeps.

Lemma addClassLoaderOwnerForAllExistingMetaObjectsForLibrary_keeps path loader :
  ensures R P (impl.addClassLoaderOwnerForAllExistingMetaObjectsForLibrary path loader).
Proof. start impl.addClassLoaderOwnerForAllExistingMetaObjectsForLibrary. Qed.

Lemma revivePreviouslyCreateMetaobjectsFromGraveyard_keeps path loader :
  ensures R P (impl.revivePreviouslyCreateMetaobjectsFromGraveyard path loader).
Proof. start impl.revivePreviouslyCreateMetaobjectsFromGraveyard. Qed.

Lemma purgeGraveyard_loop_keeps path loader g :
  ensures R P (impl.purgeGraveyard_loop path loader g).
Proof. induction g; cbn; keeps. Qed.
Hint Resolve addClassLoaderOwnerForAllExistingMetaObjectsForLibrary_keeps
  revivePreviouslyCreateMetaobjectsFromGraveyard_keeps purgeGraveyard_loop_keeps : keeps.

Lemma purgeGraveyardOfMetaobjects_keeps path loader :
  ensures R P (impl.purgeGraveyardOfMetaobjects path loader).
Proof. start impl.purgeGraveyardOfMetaobjects. Qed.

Lemma registerPlugin_keeps Base class_name base_class_name :
  ensures R P (impl.registerPlugin Base class_name base_class_name).
Proof. start impl.registerPlugin. Qed.

Lemma deleter_keeps p : ensures R P (impl.deleter p).
Proof. start impl.deleter. Qed.
Hint Resolve purgeGraveyardOfMetaobjects_keeps registerPlugin_keeps deleter_keeps : keeps.

Lemma ProxyExec_keeps image r : ensures R P (impl.ProxyExec image r).
Proof. start impl.ProxyExec. Qed.

Lemma impl_createInstance_keeps `{!AdmitsCreate P} Base name loader :
  ensures R P (impl.createInstance Base name loader).
Proof. start impl.createInstance. Qed.

Lemma impl_getAvailableClasses_loop_keeps fm loader a b :
  ensures R P (impl.getAvailableClasses_loop fm loader a b).
Proof. revert a b. induction fm; intros; cbn; keeps. Qed.
Hint Resolve impl_getAvailableClasses_loop_keeps : keeps.

Lemma impl_getAvailableClasses_keeps Base loader :
  ensures R P (impl.getAvailableClasses Base loader).
Proof. start impl.getAvailableClasses. Qed.
End RegistryFootprint.

#[export] Hint Resolve getFactoryMapForBaseClass_keeps storeFactoryMap_keeps
  allMetaObjectsForLibrary_keeps destroyMetaObjectsForLibrary_keeps
  areThereAnyExistingMetaObjectsForLibrary_keeps findLoadedLibrary_keeps
  isLibraryLoadedByAnybody_keeps isLibraryLoaded_keeps
  hasANonPurePluginLibraryBeenOpened_keeps
  addClassLoaderOwnerForAllExistingMetaObjectsForLibrary_keeps
  revivePreviouslyCreateMetaobjectsFromGraveyard_keeps purgeGraveyardOfMetaobjects_keeps
  deleter_keeps ProxyExec_keeps impl_createInstance_keeps impl_getAvailableClasses_keeps
  : keeps.

(** *** Opening and closing libraries *)

Section OpenLibrariesFootprint.
Context (R : State -> State -> Prop) (P : exn -> Prop)
  `{!Basic R} `{!Registry R} `{!DynamicLoader R}.

Local Ltac start f := intros; unfold f; keeps.

Lemma os_call_keeps : ensures R P impl.os_call.
Proof. intros s. apply keeps_os_calls. Qed.
Hint Resolve os_call_keeps : keeps.

Lemma SharedLibrary_make_shared_keeps path : ensures R P (impl.SharedLibrary_make_shared path).
Proof. start impl.SharedLibrary_make_shared. Qed.

Lemma SharedLibrary_unload_library_keeps path :
  ensures R P (impl.SharedLibrary_unload_library path).
Proof. start impl.SharedLibrary_unload_library. Qed.
Hint Resolve SharedLibrary_make_shared_keeps SharedLibrary_unload_library_keeps : keeps.

Lemma impl_unloadLibrary_keeps `{!OpenLibraries R} `{!AdmitsUnload P} path loader :
  ensures R P (impl.unloadLibrary path loader).
Proof. start impl.unloadLibrary. Qed.

Lemma impl_loadLibrary_keeps `{!OpenLibraries R} `{!LoadingContext R} `{!AdmitsLoad P}
    path loader :
  ensures R P (impl.loadLibrary path loader).
Proof.
  unfold impl.loadLibrary, impl.setCurrentlyActiveClassLoader,
    impl.setCurrentlyLoadingLibraryName.
  keeps.
Qed.
End OpenLibrariesFootprint.

(** A relation kept by the updates a registry function performs is kept
    by the function. *)
Section CalleesFromUpdates.
Context (R : State -> State -> Prop) (P : exn -> Prop) `{!Basic R} `{!Registry R}.

#[export] Instance CallsProxyExec_of_updates : CallsProxyExec R P.
Proof. intros image r. now apply ProxyExec_keeps. Qed.

#[export] Instance CallsIsLibraryLoaded_of_updates : CallsIsLibraryLoaded R P.
Proof. intros path loader. now apply isLibraryLoaded_keeps. Qed.

#[export] Instance CallsIsLibraryLoadedByAnybody_of_updates : CallsIsLibraryLoadedByAnybody R P.
Proof. intros path. now apply isLibraryLoadedByAnybody_keeps. Qed.

#[export] Instance CallsGetAvailableClasses_of_updates : CallsGetAvailableClasses R P.
Proof. intros Base loader. now apply impl_getAvailableClasses_keeps. Qed.

#[export] Instance CallsCreateInstance_of_updates `{!AdmitsCreate P} : CallsCreateInstance R P.
Proof. intros Base name loader. now apply impl_createInstance_keeps. Qed.

#[export] Instance CallsUnloadLibrary_of_updates
    `{!DynamicLoader R} `{!OpenLibraries R} `{!AdmitsUnload P} : CallsUnloadLibrary R P.
Proof. intros path loader. now apply impl_unloadLibrary_keeps. Qed.

#[export] Instance CallsLoadLibrary_of_updates
    `{!DynamicLoader R} `{!OpenLibraries R} `{!LoadingContext R} `{!AdmitsLoad P} :
  CallsLoadLibrary R P.
Proof. intros path loader. now apply impl_loadLibrary_keeps. Qed.
End CalleesFromUpdates.

(** *** ClassLoader *)

Section ClassLoaderFootprint.
Context (R : State -> State -> Prop) (P : exn -> Prop) `{!Basic R} `{!LoaderObjects R}
  `{!CallsLoadLibrary R P} `{!CallsUnloadLibrary R P} `{!CallsIsLibraryLoaded R P}
  `{!CallsIsLibraryLoadedByAnybody R P} `{!CallsCreateInstance R P}
  `{!CallsGetAvailableClasses R P}.

Local Ltac start f := intros; unfold f; keeps.

Hint Resolve ensures_impl_loadLibrary ensures_impl_unloadLibrary
  ensures_impl_isLibraryLoaded ensures_impl_isLibraryLoadedByAnybody
  ensures_impl_createInstance ensures_impl_getAvailableClasses : keeps.

Lemma raise_unmanaged_keeps : ensures R P (ClassLoader.setUnmanagedInstanceBeenCreated true).
Proof. start ClassLoader.setUnmanagedInstanceBeenCreated. Qed.

Lemma hasUnmanagedInstanceBeenCreated_keeps : ensures R P ClassLoader.hasUnmanagedInstanceBeenCreated.
Proof. start ClassLoader.hasUnmanagedInstanceBeenCreated. Qed.

Lemma getLibraryPath_keeps this : ensures R P (ClassLoader.getLibraryPath this).
Proof. start ClassLoader.getLibraryPath. Qed.

Lemma isOnDemandLoadUnloadEnabled_keeps this :
  ensures R P (ClassLoader.isOnDemandLoadUnloadEnabled this).
Proof. start ClassLoader.isOnDemandLoadUnloadEnabled. Qed.
Hint Resolve raise_unmanaged_keeps hasUnmanagedInstanceBeenCreated_keeps getLibraryPath_keeps
  isOnDemandLoadUnloadEnabled_keeps : keeps.

Lemma ClassLoader_isLibraryLoaded_keeps this : ensures R P (ClassLoader.isLibraryLoaded this).
Proof. start ClassLoader.isLibraryLoaded. Qed.

Lemma ClassLoader_loadLibrary_keeps this : ensures R P (ClassLoader.loadLibrary this).
Proof. start ClassLoader.loadLibrary. Qed.

Lemma unloadLibraryInternal_keeps this b : ensures R P (ClassLoader.unloadLibraryInternal this b).
Proof. start ClassLoader.unloadLibraryInternal. Qed.
Hint Resolve ClassLoader_isLibraryLoaded_keeps ClassLoader_loadLibrary_keeps
  unloadLibraryInternal_keeps : keeps.

Lemma ClassLoader_unloadLibrary_keeps this : ensures R P (ClassLoader.unloadLibrary this).
Proof. start ClassLoader.unloadLibrary. Qed.
Hint Resolve ClassLoader_unloadLibrary_keeps : keeps.

Lemma ClassLoader_new_keeps path ondemand : ensures R P (ClassLoader.new path ondemand).
Proof. start ClassLoader.new. Qed.

Lemma ClassLoader_delete_keeps this : ensures R P (ClassLoader.delete_ this).
Proof. start ClassLoader.delete_. Qed.

Lemma ClassLoader_getAvailableClasses_keeps Base this :
  ensures R P (ClassLoader.getAvailableClasses Base this).
Proof. start ClassLoader.getAvailableClasses. Qed.
Hint Resolve ClassLoader_new_keeps ClassLoader_delete_keeps
  ClassLoader_getAvailableClasses_keeps : keeps.

Lemma ClassLoader_isClassAvailable_keeps Base this name :
  ensures R P (ClassLoader.isClassAvailable Base this name).
Proof. start ClassLoader.isClassAvailable. Qed.

Lemma createRawInstance_keeps Base this name managed :
  ensures R P (ClassLoader.createRawInstance Base this name managed).
Proof. start ClassLoader.createRawInstance. Qed.
Hint Resolve ClassLoader_isClassAvailable_keeps createRawInstance_keeps : keeps.

Lemma ClassLoader_createInstance_keeps Base this name :
  ensures R P (ClassLoader.createInstance Base this name).
Proof. start ClassLoader.createInstance. Qed.

Lemma ClassLoader_createUniqueInstance_keeps Base this name :
  ensures R P (ClassLoader.createUniqueInstance Base this name).
Proof. start ClassLoader.createUniqueInstance. Qed.

Lemma ClassLoader_createUnmanagedInstance_keeps Base this name :
  ensures R P (ClassLoader.createUnmanagedInstance Base this name).
Proof. start ClassLoader.createUnmanagedInstance. Qed.

Lemma onPluginDeletion_keeps this : ensures R P (ClassLoader.onPluginDeletion this).
Proof. start ClassLoader.onPluginDeletion. Qed.
Hint Resolve onPluginDeletion_keeps : keeps.

Lemma release_keeps h : ensures R P (ClassLoader.release h).
Proof. start ClassLoader.release. Qed.
End ClassLoaderFootprint.

#[export] Hint Resolve hasUnmanagedInstanceBeenCreated_keeps getLibraryPath_keeps
  isOnDemandLoadUnloadEnabled_keeps unloadLibraryInternal_keeps
  ClassLoader_isLibraryLoaded_keeps ClassLoader_loadLibrary_keeps
  ClassLoader_unloadLibrary_keeps ClassLoader_new_keeps ClassLoader_delete_keeps
  ClassLoader_getAvailableClasses_keeps ClassLoader_isClassAvailable_keeps
  ClassLoader_createInstance_keeps ClassLoader_createUniqueInstance_keeps
  ClassLoader_createUnmanagedInstance_keeps release_keeps : keeps.

(** *** MultiLibraryClassLoader, and every call *)

Section MultiLibraryClassLoaderFootprint.
Context (R : State -> State -> Prop) (P : exn -> Prop) `{!Basic R} `{!LoaderObjects R}
  `{!MultiObjects R}
  `{!CallsProxyExec R P} `{!CallsLoadLibrary R P} `{!CallsUnloadLibrary R P}
  `{!CallsIsLibraryLoaded R P} `{!CallsIsLibraryLoadedByAnybody R P}
  `{!CallsCreateInstance R P} `{!CallsGetAvailableClasses R P}
  `{!AdmitsCreate P} `{!AdmitsNoLoader P}.

Local Ltac start f := intros; unfold f; keeps.

Hint Resolve ensures_ProxyExec ensures_impl_loadLibrary ensures_impl_unloadLibrary : keeps.

Lemma Multi_new_keeps b : ensures R P (MultiLibraryClassLoader.new b).
Proof. start MultiLibraryClassLoader.new. Qed.

Lemma Multi_isOnDemandLoadUnloadEnabled_keeps this :
  ensures R P (MultiLibraryClassLoader.isOnDemandLoadUnloadEnabled this).
Proof. start MultiLibraryClassLoader.isOnDemandLoadUnloadEnabled. Qed.

Lemma getRegisteredLibraries_keeps this :
  ensures R P (MultiLibraryClassLoader.getRegisteredLibraries this).
Proof. start MultiLibraryClassLoader.getRegisteredLibraries. Qed.

Lemma getClassLoaderForLibrary_keeps this path :
  ensures R P (MultiLibraryClassLoader.getClassLoaderForLibrary this path).
Proof. start MultiLibraryClassLoader.getClassLoaderForLibrary. Qed.

Lemma getAllAvailableClassLoaders_keeps this :
  ensures R P (MultiLibraryClassLoader.getAllAvailableClassLoaders this).
Proof. start MultiLibraryClassLoader.getAllAvailableClassLoaders. Qed.
Hint Resolve Multi_isOnDemandLoadUnloadEnabled_keeps getRegisteredLibraries_keeps
  getClassLoaderForLibrary_keeps getAllAvailableClassLoaders_keeps : keeps.

Lemma isLibraryAvailable_keeps this name :
  ensures R P (MultiLibraryClassLoader.isLibraryAvailable this name).
Proof. start MultiLibraryClassLoader.isLibraryAvailable. Qed.
Hint Resolve isLibraryAvailable_keeps : keeps.

Lemma Multi_loadLibrary_keeps this path :
  ensures R P (MultiLibraryClassLoader.loadLibrary this path).
Proof. start MultiLibraryClassLoader.loadLibrary. Qed.

Lemma Multi_unloadLibrary_keeps this path :
  ensures R P (MultiLibraryClassLoader.unloadLibrary this path).
Proof. start MultiLibraryClassLoader.unloadLibrary. Qed.
Hint Resolve Multi_unloadLibrary_keeps : keeps.

Lemma shutdownAllClassLoaders_keeps this :
  ensures R P (MultiLibraryClassLoader.shutdownAllClassLoaders this).
Proof. start MultiLibraryClassLoader.shutdownAllClassLoaders. Qed.
Hint Resolve shutdownAllClassLoaders_keeps : keeps.

Lemma Multi_delete_keeps this : ensures R P (MultiLibraryClassLoader.delete_ this).
Proof. start MultiLibraryClassLoader.delete_. Qed.

Lemma Multi_getAvailableClasses_loop_keeps Base loaders acc :
  ensures R P (MultiLibraryClassLoader.getAvailableClasses_loop Base loaders acc).
Proof. revert acc. induction loaders; intros; cbn; keeps. Qed.
Hint Resolve Multi_getAvailableClasses_loop_keeps : keeps.

Lemma Multi_getAvailableClasses_keeps Base this :
  ensures R P (MultiLibraryClassLoader.getAvailableClasses Base this).
Proof. start MultiLibraryClassLoader.getAvailableClasses. Qed.

Lemma getAvailableClassesForLibrary_keeps Base this path :
  ensures R P (MultiLibraryClassLoader.getAvailableClassesForLibrary Base this path).
Proof. start MultiLibraryClassLoader.getAvailableClassesForLibrary. Qed.

Lemma getClassLoaderForClass_loop_keeps Base name loaders :
  ensures R P (MultiLibraryClassLoader.getClassLoaderForClass_loop Base name loaders).
Proof. induction loaders; cbn; keeps. Qed.
Hint Resolve getClassLoaderForClass_loop_keeps : keeps.

Lemma getClassLoaderForClass_keeps Base this name :
  ensures R P (MultiLibraryClassLoader.getClassLoaderForClass Base this name).
Proof. start MultiLibraryClassLoader.getClassLoaderForClass. Qed.
Hint Resolve getClassLoaderForClass_keeps : keeps.

Lemma Multi_createInstance_keeps Base this name :
  ensures R P (MultiLibraryClassLoader.createInstance Base this name).
Proof. start MultiLibraryClassLoader.createInstance. Qed.

Lemma Multi_createUniqueInstance_keeps Base this name :
  ensures R P (MultiLibraryClassLoader.createUniqueInstance Base this name).
Proof. start MultiLibraryClassLoader.createUniqueInstance. Qed.

Lemma Multi_createUnmanagedInstance_keeps Base this name :
  ensures R P (MultiLibraryClassLoader.createUnmanagedInstance Base this name).
Proof. start MultiLibraryClassLoader.createUnmanagedInstance. Qed.

Lemma Multi_createInstance_from_keeps Base this name path :
  ensures R P (MultiLibraryClassLoader.createInstance_from Base this name path).
Proof. start MultiLibraryClassLoader.createInstance_from. Qed.

Lemma Multi_createUniqueInstance_from_keeps Base this name path :
  ensures R P (MultiLibraryClassLoader.createUniqueInstance_from Base this name path).
Proof. start MultiLibraryClassLoader.createUniqueInstance_from. Qed.

Lemma Multi_createUnmanagedInstance_from_keeps Base this name path :
  ensures R P (MultiLibraryClassLoader.createUnmanagedInstance_from Base this name path).
Proof. start MultiLibraryClassLoader.createUnmanagedInstance_from. Qed.

Hint Resolve Multi_new_keeps Multi_loadLibrary_keeps Multi_delete_keeps
  Multi_getAvailableClasses_keeps getAvailableClassesForLibrary_keeps
  Multi_createInstance_keeps Multi_createUniqueInstance_keeps
  Multi_createUnmanagedInstance_keeps Multi_createInstance_from_keeps
  Multi_createUniqueInstance_from_keeps Multi_createUnmanagedInstance_from_keeps : keeps.

Lemma run_call_keeps c : ensures R P (run_call c).
Proof. destruct c; cbn; keeps. Qed.

(** What every call keeps holds between the start of a history and
    its end. *)
Lemma reaches_keeps s0 s : reaches s0 s -> R s0 s.
Proof.
  induction 1 as [|s c s' _ IH Hc]; [apply basic_refl|].
  pose proof (run_call_keeps c s) as Hp.
  inversion Hc as [a s1 E|e s1 E]; subst; rewrite <- E in Hp;
    [|destruct Hp as [Hp _]]; eapply basic_trans; eassumption.
Qed.
End MultiLibraryClassLoaderFootprint.


#[export] Instance any_exception_load : AdmitsLoad any_exception.
Proof. intros what. exact I. Qed.
#[export] Instance any_exception_unload : AdmitsUnload any_exception.
Proof. intros what. exact I. Qed.
#[export] Instance any_exception_create : AdmitsCreate any_exception.
Proof. intros what. exact I. Qed.
#[export] Instance any_exception_no_loader : AdmitsNoLoader any_exception.
Proof. intros what. exact I. Qed.

(** ** The flag that records an unmanaged instance *)

#[export] Instance unmanaged_latched_basic : Basic unmanaged_latched.
Proof. split; unfold unmanaged_latched; cbn; auto. Qed.

#[export] Instance unmanaged_latched_registry : Registry unmanaged_latched.
Proof. split; unfold unmanaged_latched; cbn; auto. Qed.

#[export] Instance unmanaged_latched_dynamic_loader : DynamicLoader unmanaged_latched.
Proof. unfold DynamicLoader, unmanaged_latched; cbn; auto. Qed.

#[export] Instance unmanaged_latched_open_libraries : OpenLibraries unmanaged_latched.
Proof. unfold OpenLibraries, unmanaged_latched; cbn; auto. Qed.

#[export] Instance unmanaged_latched_loading_context : LoadingContext unmanaged_latched.
Proof. split; unfold unmanaged_latched; cbn; auto. Qed.

#[export] Instance unmanaged_latched_loader_objects : LoaderObjects unmanaged_latched.
Proof. split; unfold unmanaged_latched; cbn; auto. Qed.

#[export] Instance unmanaged_latched_multi_objects : MultiObjects unmanaged_latched.
Proof. split; unfold unmanaged_latched; cbn; auto. Qed.

(** X21.  Once [createUnmanagedInstance] has been called, whether it returned
    an object or threw, the flag that records an unmanaged instance is
    set, and it stays set in every state the process reaches
    afterwards: no call of the library resets it. *)
Theorem unmanaged_instance_flag_is_a_latch
    (Base : string) (this : nat) (derived_class_name : string) (s0 s s' : State) :
  leaves (ClassLoader.createUnmanagedInstance Base this derived_class_name s0) s ->
  reaches s s' ->
  has_unmananged_instance_been_created_ s = true /\
  has_unmananged_instance_been_created_ s' = true.
Proof.
  intros Hleaves Hreach.
  assert (has_unmananged_instance_been_created_ s = true) as Hs.
  { unfold ClassLoader.createUnmanagedInstance, ClassLoader.createRawInstance in Hleaves.
    match type of Hleaves with
    | leaves (bind _ ?k s0) _ =>
        assert (preserves unmanaged_latched (k tt)) as Hrest
            by (apply (ensures_preserves _ any_exception); keeps);
        specialize (Hrest (set_has_unmananged_instance_been_created true s0));
        set (out := k tt (set_has_unmananged_instance_been_created true s0)) in Hrest;
        change (leaves out s) in Hleaves
    end.
    clearbody out. destruct Hleaves; now apply Hrest. }
  split; [exact Hs|].
  now apply (reaches_keeps unmanaged_latched any_exception s s' Hreach).
Qed.

Lemma unmanaged_instance_flag_is_a_latch_witness :
  has_unmananged_instance_been_created_ unmanaged_attempt = true /\
  has_unmananged_instance_been_created_ unmanaged_attempt_then_use = true.
Proof.
  apply (unmanaged_instance_flag_is_a_latch typeid_Base 1%nat "Nope" lazy_libA_loader
           unmanaged_attempt unmanaged_attempt_then_use).
  - replace (ClassLoader.createUnmanagedInstance typeid_Base 1%nat "Nope" lazy_libA_loader)
      with (@Throw unit (CreateClassException "Could not create instance of type Nope")
              unmanaged_attempt) by (vm_compute; reflexivity).
    constructor.
  - apply (run_reaches [CreateInstance typeid_Base 1%nat "Foo";
                        ReleaseInstance {| ClassLoader.deleter_this := 1%nat |}]).
    vm_compute. reflexivity.
Defined.

(** ** class_loader_core.cpp: what loadLibrary does to the open
       libraries and to the loading context *)

#[export] Instance same_outside_registry_basic : Basic same_outside_registry.
Proof. split; unfold same_outside_registry; cbn; intuition congruence. Qed.

#[export] Instance same_outside_registry_registry : Registry same_outside_registry.
Proof. split; unfold same_outside_registry; cbn; intuition congruence. Qed.

Lemma ensures_returns {A} (R : State -> State -> Prop) (P : exn -> Prop) (m : M A) s a s' :
  ensures R P m -> m s = Ret a s' -> R s s'.
Proof. intros H E. specialize (H s). now rewrite E in H. Qed.

Lemma ensures_throws {A} (R : State -> State -> Prop) (P : exn -> Prop) (m : M A) s e s' :
  ensures R P m -> m s = Throw e s' -> R s s' /\ P e.
Proof. intros H E. specialize (H s). now rewrite E in H. Qed.

(** A registration never throws, and neither does a static initialiser. *)
Lemma ProxyExec_returns image r s : exists s', impl.ProxyExec image r s = Ret tt s'.
Proof.
  unfold impl.ProxyExec. unfold bind at 1.
  destruct (when _ _ s) as [[] s1| |] eqn:E.
  - destruct (registerPlugin_returns (reg_typeid_base r) (reg_derived r) (reg_base r) s1)
      as (s2 & _ & _ & Hret & _).
    unfold bind. rewrite Hret. eexists. reflexivity.
  - exfalso. unfold when in E. destruct (negb _); discriminate.
  - exfalso. unfold when in E. destruct (negb _); discriminate.
Qed.

Lemma for_each_returns {A} (body : A -> M unit) :
  (forall x s, exists s', body x s = Ret tt s') ->
  forall l s, exists s', for_each l body s = Ret tt s'.
Proof.
  intros H l. induction l as [|x l IH]; intros s; cbn; [eexists; reflexivity|].
  destruct (H x s) as [s1 Hx]. unfold bind. rewrite Hx. apply IH.
Qed.

(** The construction of the SharedLibrary always comes back to
    [loadLibrary]: with a handle after the static initialisers of the
    image have run, or with the exception caught there.  It makes one
    call to the dynamic loader and touches neither the open libraries
    nor the loading context. *)
Lemma SharedLibrary_make_shared_outcome library_path s :
  exists opened s',
    impl.SharedLibrary_make_shared library_path s = Ret opened s' /\
    loaded_libraries s' = loaded_libraries s /\
    currently_loading_library s' = currently_loading_library s /\
    currently_active_loader s' = currently_active_loader s /\
    os_calls s' = S (os_calls s) /\
    match opened with
    | inl handle => handle = os_calls s
    | inr _ => meta_objects s' = meta_objects s /\ factory_map_map s' = factory_map_map s
    end.
Proof.
  unfold impl.SharedLibrary_make_shared, impl.os_call, bind, gets.
  destruct (dl_open _ _ _) as [initialisers|what|what].
  - destruct (for_each_returns (impl.ProxyExec library_path) (ProxyExec_returns library_path)
                initialisers (set_os_calls (S (os_calls s)) s)) as [s' Hrun].
    pose proof (ensures_returns same_outside_registry any_exception _ _ _ _
                  (ensures_for_each same_outside_registry any_exception _ _
                     (ProxyExec_keeps same_outside_registry any_exception library_path)) Hrun)
      as (H1 & H2 & H3 & H4 & _).
    cbn [os] in Hrun. rewrite Hrun. eexists _, _. split; [reflexivity|].
    cbn in *. repeat split; assumption.
  - eexists _, _. split; [reflexivity|]. cbn. repeat split.
  - eexists _, _. split; [reflexivity|]. cbn. repeat split.
Qed.

(** What [loadLibrary] leaves, for every state and every dynamic
    loader.  For a library that is open already it touches nothing
    outside the registry and throws nothing.  Otherwise it makes one
    call to the dynamic loader and clears the loading context, and it
    appends the library to the open libraries exactly when it
    returns. *)
Lemma impl_loadLibrary_outcome library_path loader s :
  match impl.loadLibrary library_path loader s with
  | Ret _ s' =>
      (In library_path (map fst (loaded_libraries s)) /\ same_outside_registry s s') \/
      (~ In library_path (map fst (loaded_libraries s)) /\
       loaded_libraries s' = (loaded_libraries s ++ [(library_path, os_calls s)])%list /\
       context_clear s' /\ os_calls s' = S (os_calls s))
  | Throw e s' =>
      ~ In library_path (map fst (loaded_libraries s)) /\
      loaded_libraries s' = loaded_libraries s /\
      context_clear s' /\ os_calls s' = S (os_calls s) /\
      meta_objects s' = meta_objects s /\ factory_map_map s' = factory_map_map s
  | Undefined _ => True
  end.
Proof.
  unfold impl.loadLibrary. unfold bind at 1. cbn [log modify].
  set (s0 := set_console _ s).
  unfold bind at 1. unfold impl.isLibraryLoadedByAnybody, impl.findLoadedLibrary.
  unfold bind at 1. cbn [gets].
  destruct (impl.findLoadedLibrary_in library_path (loaded_libraries s0)) as [it|] eqn:Efind;
    cbn [ret].
  - apply findLoadedLibrary_in_Some in Efind as [Hfst Hin].
    assert (In library_path (map fst (loaded_libraries s))) as Hopen
        by (rewrite <- Hfst; apply in_map, Hin).
    unfold bind at 1. cbn [log modify].
    match goal with
    | |- match ?m ?st with _ => _ end =>
        pose proof (addClassLoaderOwnerForAllExistingMetaObjectsForLibrary_keeps
                      same_outside_registry no_exception library_path loader st) as Hk;
        destruct (m st) as [[] s'|e s'|]
    end.
    + left. split; [assumption|]. exact Hk.
    + destruct Hk as [_ []].
    + exact I.
  - apply findLoadedLibrary_in_None in Efind. change (loaded_libraries s0) with (loaded_libraries s) in Efind.
    unfold impl.setCurrentlyActiveClassLoader, impl.setCurrentlyLoadingLibraryName.
    unfold bind at 1. cbn [modify]. unfold bind at 1. cbn [modify].
    set (s1 := set_currently_loading_library _ _).
    destruct (SharedLibrary_make_shared_outcome library_path s1)
      as (opened & s2 & Hopen & Hlibs & _ & _ & Hcalls & Hopened).
    unfold bind at 1. rewrite Hopen.
    destruct opened as [handle|[what|what]].
    + subst handle.
      unfold bind at 1. cbn [modify]. unfold bind at 1. cbn [modify].
      unfold bind at 1. cbn [log modify].
      set (s3 := set_console _ _).
      assert (loaded_libraries s3 = loaded_libraries s /\ os_calls s3 = S (os_calls s) /\
              context_clear s3) as (Hl3 & Hc3 & Hx3) by (cbn; repeat split; assumption).
      clearbody s3. clear Hopen Hlibs Hcalls s2.
      unfold bind at 1.
      pose proof (allMetaObjectsForLibrary_keeps same_outside_registry no_exception
                    library_path s3) as H1.
      destruct (impl.allMetaObjectsForLibrary library_path s3) as [objs s4|e s4|];
        [|destruct H1 as [_ []]|exact I].
      unfold bind at 1.
      match goal with
      | |- match match ?m s4 with _ => _ end with _ => _ end =>
          assert (ensures same_outside_registry no_exception m) as H2 by keeps;
          specialize (H2 s4); destruct (m s4) as [[] s5|e s5|];
          [|destruct H2 as [_ []]|exact I]
      end.
      unfold bind at 1.
      pose proof (purgeGraveyardOfMetaobjects_keeps same_outside_registry no_exception
                    library_path loader s5) as H3.
      destruct (impl.purgeGraveyardOfMetaobjects library_path loader s5) as [[] s6|e s6|];
        [|destruct H3 as [_ []]|exact I].
      cbn [modify].
      destruct H1 as (A1 & B1 & C1 & D1 & _), H2 as (A2 & B2 & C2 & D2 & _),
        H3 as (A3 & B3 & C3 & D3 & _), Hx3 as [X1 X2].
      right. split; [assumption|]. cbn. unfold context_clear. cbn.
      repeat split; congruence.
    + unfold bind, modify, throw. cbn. destruct Hopened as [Hm Hf].
      repeat split; try assumption.
    + unfold bind, modify, throw. cbn. destruct Hopened as [Hm Hf].
      repeat split; try assumption.
Qed.

(** [unload_library] of a SharedLibrary hands its exception to
    [unloadLibrary] as a value; it makes one call to the dynamic loader
    and touches neither the open libraries nor the loading context. *)
Lemma SharedLibrary_unload_library_outcome library_path s :
  match impl.SharedLibrary_unload_library library_path s with
  | Ret _ s' =>
      loaded_libraries s' = loaded_libraries s /\
      currently_loading_library s' = currently_loading_library s /\
      currently_active_loader s' = currently_active_loader s /\
      os_calls s' = S (os_calls s)
  | Throw _ _ => False
  | Undefined _ => True
  end.
Proof.
  unfold impl.SharedLibrary_unload_library, impl.os_call. unfold bind at 1.
  unfold bind at 1. cbn [gets].
  destruct (dl_close _ _ _) as [[]|what]; [|cbn; repeat split..].
  unfold bind at 1. cbn [gets]. unfold bind at 1. cbn [modify].
  match goal with
  | |- match bind (for_each ?l ?body) _ ?st with _ => _ end =>
      pose proof (ensures_for_each same_outside_registry no_exception l body
                    (fun h => deleter_keeps same_outside_registry no_exception (snd h)) st) as H;
      unfold bind; destruct (for_each l body st) as [[] s'|e s'|]
  end.
  - destruct H as (A & B & C & D & _). cbn in *. repeat split; congruence.
  - destruct H as [_ []].
  - exact I.
Qed.

(** What [unloadLibrary] leaves, for every state and every dynamic
    loader.  Either it makes no call to the dynamic loader and leaves
    the open libraries as they are, or it makes one call: when the
    close succeeds the first entry of the library is erased from the
    open libraries, and when it fails LibraryUnloadException is thrown
    and the library stays recorded as open.  The loading context is
    never touched. *)
Lemma impl_unloadLibrary_outcome library_path loader s :
  match impl.unloadLibrary library_path loader s with
  | Ret _ s' =>
      currently_loading_library s' = currently_loading_library s /\
      currently_active_loader s' = currently_active_loader s /\
      ((loaded_libraries s' = loaded_libraries s /\ os_calls s' = os_calls s) \/
       (non_pure_plugin_library_opened s = false /\
        In library_path (map fst (loaded_libraries s)) /\
        loaded_libraries s' = impl.eraseLoadedLibrary library_path (loaded_libraries s) /\
        os_calls s' = S (os_calls s)))
  | Throw e s' =>
      (exists what,
          e = LibraryUnloadException
                ("Could not unload library (rcpputils exception = " ++ what ++ ")")) /\
      currently_loading_library s' = currently_loading_library s /\
      currently_active_loader s' = currently_active_loader s /\
      loaded_libraries s' = loaded_libraries s /\
      os_calls s' = S (os_calls s)
  | Undefined _ => True
  end.
Proof.
  unfold impl.unloadLibrary, impl.hasANonPurePluginLibraryBeenOpened.
  unfold bind at 1. cbn [gets].
  destruct (non_pure_plugin_library_opened s) eqn:Hpure.
  { cbn. repeat split. now left. }
  unfold bind at 1. cbn [log modify]. set (s0 := set_console _ s).
  unfold impl.findLoadedLibrary. unfold bind at 1. cbn [gets].
  destruct (impl.findLoadedLibrary_in library_path (loaded_libraries s0)) as [[path library]|]
    eqn:Efind.
  2:{ cbn. repeat split. now left. }
  apply findLoadedLibrary_in_Some in Efind as [Hfst Hin]. cbn [fst] in Hfst. subst path.
  assert (In library_path (map fst (loaded_libraries s))) as Hopen
      by (change library_path with (fst (library_path, library)); apply in_map, Hin).
  unfold bind at 1.
  pose proof (destroyMetaObjectsForLibrary_keeps same_outside_registry no_exception
                library_path loader s0) as H1.
  destruct (impl.destroyMetaObjectsForLibrary library_path loader s0) as [[] s1|e s1|];
    [|destruct H1 as [_ []]|exact I].
  unfold bind at 1.
  pose proof (areThereAnyExistingMetaObjectsForLibrary_keeps same_outside_registry no_exception
                library_path s1) as H2.
  destruct (impl.areThereAnyExistingMetaObjectsForLibrary library_path s1) as [remaining s2|e s2|];
    [|destruct H2 as [_ []]|exact I].
  destruct H1 as (A1 & B1 & C1 & D1 & _), H2 as (A2 & B2 & C2 & D2 & _). cbn in A1, B1, C1, D1.
  destruct remaining; cbn [negb].
  { cbn. repeat split; try congruence. left. split; congruence. }
  unfold bind at 1. cbn [log modify]. set (s3 := set_console _ s2).
  unfold bind at 1.
  pose proof (SharedLibrary_unload_library_outcome library_path s3) as H3.
  destruct (impl.SharedLibrary_unload_library library_path s3) as [closed s4|e s4|];
    [|destruct H3|exact I].
  destruct H3 as (A3 & B3 & C3 & D3). cbn in A3, B3, C3, D3.
  destruct closed as [what|]; cbn.
  - split; [eexists; reflexivity|]. repeat split; congruence.
  - repeat split; try congruence. right. repeat split; try assumption; congruence.
Qed.

Lemma isLibraryLoadedByAnybody_open library_path s :
  In library_path (map fst (loaded_libraries s)) ->
  impl.isLibraryLoadedByAnybody library_path s = Ret true s.
Proof.
  intros H. unfold impl.isLibraryLoadedByAnybody, impl.findLoadedLibrary, bind, gets.
  destruct (impl.findLoadedLibrary_in library_path (loaded_libraries s)) as [it|] eqn:E;
    [reflexivity|].
  apply findLoadedLibrary_in_None in E. contradiction.
Qed.

Lemma isLibraryLoadedByAnybody_not_open library_path s :
  ~ In library_path (map fst (loaded_libraries s)) ->
  impl.isLibraryLoadedByAnybody library_path s = Ret false s.
Proof.
  intros H. apply findLoadedLibrary_in_None in H.
  unfold impl.isLibraryLoadedByAnybody, impl.findLoadedLibrary, bind, gets. now rewrite H.
Qed.

(** X22.  When the registry-level [loadLibrary] returns, the library is
    open, and every library that was open before still is.  If the
    library was open already, the dynamic loader was not called, and
    the open libraries and the loading context are as before;
    otherwise the dynamic loader was called once, the library is the
    last of the open libraries, and the loading context is clear. *)
Theorem impl_loadLibrary_opens_at_most_once
    (library_path : string) (loader : loader_ptr) (s s' : State) :
  impl.loadLibrary library_path loader s = Ret tt s' ->
  impl.isLibraryLoadedByAnybody library_path s' = Ret true s' /\
  (forall other, In other (map fst (loaded_libraries s)) ->
                 In other (map fst (loaded_libraries s'))) /\
  (In library_path (map fst (loaded_libraries s)) ->
   os_calls s' = os_calls s /\ loaded_libraries s' = loaded_libraries s /\
   currently_loading_library s' = currently_loading_library s /\
   currently_active_loader s' = currently_active_loader s) /\
  (~ In library_path (map fst (loaded_libraries s)) ->
   os_calls s' = S (os_calls s) /\
   loaded_libraries s' = (loaded_libraries s ++ [(library_path, os_calls s)])%list /\
   context_clear s').
Proof.
  intros Hrun. pose proof (impl_loadLibrary_outcome library_path loader s) as H.
  rewrite Hrun in H.
  destruct H as [[Hopen (A & B & C & D & _)]|(Hnot & A & B & C)].
  - split; [apply isLibraryLoadedByAnybody_open; now rewrite A|].
    rewrite A. repeat split; try tauto; congruence.
  - split; [apply isLibraryLoadedByAnybody_open; rewrite A, map_app; apply in_app_iff;
            right; now left|].
    rewrite A, map_app.
    split; [intros other Ho; apply in_app_iff; now left|]. tauto.
Qed.

Lemma impl_loadLibrary_opens_at_most_once_witness :
  impl.isLibraryLoadedByAnybody "/p/libA" lazy_libA_loaded = Ret true lazy_libA_loaded /\
  (forall other, In other (map fst (loaded_libraries lazy_libA_loader)) ->
                 In other (map fst (loaded_libraries lazy_libA_loaded))) /\
  (In "/p/libA" (map fst (loaded_libraries lazy_libA_loader)) ->
   os_calls lazy_libA_loaded = os_calls lazy_libA_loader /\
   loaded_libraries lazy_libA_loaded = loaded_libraries lazy_libA_loader /\
   currently_loading_library lazy_libA_loaded = currently_loading_library lazy_libA_loader /\
   currently_active_loader lazy_libA_loaded = currently_active_loader lazy_libA_loader) /\
  (~ In "/p/libA" (map fst (loaded_libraries lazy_libA_loader)) ->
   os_calls lazy_libA_loaded = S (os_calls lazy_libA_loader) /\
   loaded_libraries lazy_libA_loaded =
     (loaded_libraries lazy_libA_loader ++ [("/p/libA", os_calls lazy_libA_loader)])%list /\
   context_clear lazy_libA_loaded).
Proof.
  apply (impl_loadLibrary_opens_at_most_once "/p/libA" (Some 1%nat)
           (with_load_count 1%nat
              {| ondemand_load_unload_ := true; library_path_ := "/p/libA";
                 load_ref_count_ := 0; plugin_ref_count_ := 0 |} 1 lazy_libA_loader)
           lazy_libA_loaded).
  vm_compute. reflexivity.
Defined.

(** ** Invariants of the loading context and of the open libraries *)

#[export] Instance keeps_context_clear_basic : Basic keeps_context_clear.
Proof. split; unfold keeps_context_clear, context_clear; cbn; auto. Qed.

#[export] Instance keeps_context_clear_registry : Registry keeps_context_clear.
Proof. split; unfold keeps_context_clear, context_clear; cbn; auto. Qed.

#[export] Instance keeps_context_clear_dynamic_loader : DynamicLoader keeps_context_clear.
Proof. unfold DynamicLoader, keeps_context_clear, context_clear; cbn; auto. Qed.

#[export] Instance keeps_context_clear_open_libraries : OpenLibraries keeps_context_clear.
Proof. unfold OpenLibraries, keeps_context_clear, context_clear; cbn; auto. Qed.

#[export] Instance keeps_context_clear_loader_objects : LoaderObjects keeps_context_clear.
Proof. split; unfold keeps_context_clear, context_clear; cbn; auto. Qed.

#[export] Instance keeps_context_clear_multi_objects : MultiObjects keeps_context_clear.
Proof. split; unfold keeps_context_clear, context_clear; cbn; auto. Qed.

(** [loadLibrary] sets the loading context while the library is being
    opened and clears it on every way out. *)
#[export] Instance keeps_context_clear_loadLibrary :
  CallsLoadLibrary keeps_context_clear any_exception.
Proof.
  intros library_path loader s.
  pose proof (impl_loadLibrary_outcome library_path loader s) as H.
  destruct (impl.loadLibrary library_path loader s) as [[] s'|e s'|]; [| |exact I].
  - destruct H as [[_ (_ & B & C & _)]|(_ & _ & Hclear & _)].
    + unfold keeps_context_clear, context_clear. now rewrite B, C.
    + intros _. exact Hclear.
  - destruct H as (_ & _ & Hclear & _). split; [intros _; exact Hclear|exact I].
Qed.

(** X23.  In every state a process can reach, the loading context is clear:
    between the calls of the library no library is being loaded and no
    loader is active.  A static initialiser that registers a plugin in
    such a state, outside every [loadLibrary], therefore always raises
    the non-pure flag. *)
Theorem loading_context_is_clear_between_calls
    (os : OS) (s : State) (image : string) (r : Registration) :
  reaches (initial os) s ->
  context_clear s /\
  exists s', impl.ProxyExec image r s = Ret tt s' /\ non_pure_plugin_library_opened s' = true.
Proof.
  intros Hreach.
  assert (context_clear s) as Hclear.
  { apply (reaches_keeps keeps_context_clear any_exception _ _ Hreach). split; reflexivity. }
  split; [exact Hclear|].
  unfold impl.ProxyExec. unfold bind at 1.
  destruct (when _ _ s) as [[] s1| |] eqn:E.
  - assert (currently_active_loader s1 = None) as Hnone.
    { destruct Hclear as [_ Hnone]. unfold when in E.
      destruct (negb _); [|now injection E as <-].
      unfold log, modify in E. injection E as <-. exact Hnone. }
    destruct (registerPlugin_returns (reg_typeid_base r) (reg_derived r) (reg_base r) s1)
      as (s2 & fm & entries & Hret & _ & _ & _ & _ & _ & Hflag & _).
    rewrite Hnone in Hflag.
    unfold bind. rewrite Hret. eexists. split; [reflexivity|]. exact Hflag.
  - exfalso. unfold when in E. destruct (negb _); discriminate.
  - exfalso. unfold when in E. destruct (negb _); discriminate.
Qed.

Lemma loading_context_is_clear_between_calls_witness :
  context_clear libA_in_use /\
  exists s', impl.ProxyExec "" (register "Baz") libA_in_use = Ret tt s' /\
             non_pure_plugin_library_opened s' = true.
Proof.
  apply (loading_context_is_clear_between_calls example_os libA_in_use "" (register "Baz")).
  apply (run_reaches [NewClassLoader "/p/libA" false; CreateInstance typeid_Base 1%nat "Foo"]).
  vm_compute. reflexivity.
Defined.

#[export] Instance keeps_open_once_basic : Basic keeps_open_once.
Proof. split; unfold keeps_open_once, open_once; cbn; auto. Qed.

#[export] Instance keeps_open_once_registry : Registry keeps_open_once.
Proof. split; unfold keeps_open_once, open_once; cbn; auto. Qed.

#[export] Instance keeps_open_once_dynamic_loader : DynamicLoader keeps_open_once.
Proof. unfold DynamicLoader, keeps_open_once, open_once; cbn; auto. Qed.

#[export] Instance keeps_open_once_loading_context : LoadingContext keeps_open_once.
Proof. split; unfold keeps_open_once, open_once; cbn; auto. Qed.

#[export] Instance keeps_open_once_loader_objects : LoaderObjects keeps_open_once.
Proof. split; unfold keeps_open_once, open_once; cbn; auto. Qed.

#[export] Instance keeps_open_once_multi_objects : MultiObjects keeps_open_once.
Proof. split; unfold keeps_open_once, open_once; cbn; auto. Qed.

Lemma eraseLoadedLibrary_In library_path other open_libraries :
  In other (map fst (impl.eraseLoadedLibrary library_path open_libraries)) ->
  In other (map fst open_libraries).
Proof.
  induction open_libraries as [|[k h] l IH]; cbn; [tauto|].
  destruct (String.eqb k library_path); cbn; tauto.
Qed.

Lemma eraseLoadedLibrary_NoDup library_path open_libraries :
  NoDup (map fst open_libraries) ->
  NoDup (map fst (impl.eraseLoadedLibrary library_path open_libraries)) /\
  ~ In library_path (map fst (impl.eraseLoadedLibrary library_path open_libraries)).
Proof.
  induction open_libraries as [|[k h] l IH]; cbn; intros Hnd.
  - split; [constructor|tauto].
  - apply NoDup_cons in Hnd as [Hk Hnd]. rewrite list_elem_of_In in Hk.
    destruct (String.eqb_spec k library_path) as [->|Hne]; cbn.
    + split; assumption.
    + destruct (IH Hnd) as [Hnd' Hnot]. split.
      * apply NoDup_cons. split; [|assumption]. rewrite list_elem_of_In.
        intros Hin. apply Hk. eapply eraseLoadedLibrary_In, Hin.
      * intros [?|?]; [congruence|contradiction].
Qed.

(** [loadLibrary] appends a library only when it is not open. *)
#[export] Instance keeps_open_once_loadLibrary : CallsLoadLibrary keeps_open_once any_exception.
Proof.
  intros library_path loader s.
  pose proof (impl_loadLibrary_outcome library_path loader s) as H.
  destruct (impl.loadLibrary library_path loader s) as [[] s'|e s'|]; [| |exact I].
  - destruct H as [[_ (A & _)]|(Hnot & A & _)]; unfold keeps_open_once, open_once; rewrite A.
    + auto.
    + intros Hnd. rewrite map_app. apply NoDup_app. split; [assumption|]. split.
      * intros x Hx Hx'. apply list_elem_of_In in Hx, Hx'. destruct Hx' as [<-|[]].
        contradiction.
      * apply NoDup_singleton.
  - destruct H as (_ & A & _). split; [|exact I].
    unfold keeps_open_once, open_once. now rewrite A.
Qed.

#[export] Instance keeps_open_once_unloadLibrary :
  CallsUnloadLibrary keeps_open_once any_exception.
Proof.
  intros library_path loader s.
  pose proof (impl_unloadLibrary_outcome library_path loader s) as H.
  destruct (impl.unloadLibrary library_path loader s) as [[] s'|e s'|]; [| |exact I].
  - destruct H as (_ & _ & [[A _]|(_ & _ & A & _)]); unfold keeps_open_once, open_once;
      rewrite A; [auto|]. intros Hnd. now apply eraseLoadedLibrary_NoDup.
  - destruct H as (_ & _ & _ & A & _). split; [|exact I].
    unfold keeps_open_once, open_once. now rewrite A.
Qed.

(** X24.  In every state a process can reach, no library is recorded as open
    twice.  So when the registry-level [unloadLibrary] returns after a
    call to the dynamic loader, the library it has closed is no longer
    reported as loaded; when it returns without such a call, or throws,
    the open libraries are as before. *)
Theorem open_libraries_are_recorded_once
    (os : OS) (s : State) (library_path : string) (loader : loader_ptr) :
  reaches (initial os) s ->
  NoDup (map fst (loaded_libraries s)) /\
  match impl.unloadLibrary library_path loader s with
  | Ret _ s' =>
      if Nat.eqb (os_calls s') (os_calls s)
      then loaded_libraries s' = loaded_libraries s
      else impl.isLibraryLoadedByAnybody library_path s' = Ret false s'
  | Throw _ s' => loaded_libraries s' = loaded_libraries s
  | Undefined _ => True
  end.
Proof.
  intros Hreach.
  assert (open_once s) as Hnd.
  { apply (reaches_keeps keeps_open_once any_exception _ _ Hreach). constructor. }
  split; [exact Hnd|].
  pose proof (impl_unloadLibrary_outcome library_path loader s) as H.
  destruct (impl.unloadLibrary library_path loader s) as [[] s'|e s'|]; [| |exact I].
  - destruct H as (_ & _ & [[A B]|(_ & _ & A & B)]); rewrite B.
    + now rewrite Nat.eqb_refl.
    + replace (S (os_calls s) =? os_calls s)%nat with false
        by (symmetry; apply Nat.eqb_neq; lia).
      apply isLibraryLoadedByAnybody_not_open. rewrite A.
      now apply eraseLoadedLibrary_NoDup.
  - now destruct H as (_ & _ & _ & A & _).
Qed.

Lemma open_libraries_are_recorded_once_witness :
  NoDup (map fst (loaded_libraries lazy_libA_loaded)) /\
  match impl.unloadLibrary "/p/libA" (Some 1%nat) lazy_libA_loaded with
  | Ret _ s' =>
      if Nat.eqb (os_calls s') (os_calls lazy_libA_loaded)
      then loaded_libraries s' = loaded_libraries lazy_libA_loaded
      else impl.isLibraryLoadedByAnybody "/p/libA" s' = Ret false s'
  | Throw _ s' => loaded_libraries s' = loaded_libraries lazy_libA_loaded
  | Undefined _ => True
  end.
Proof.
  apply (open_libraries_are_recorded_once example_os lazy_libA_loaded "/p/libA" (Some 1%nat)).
  apply (run_reaches [NewClassLoader "/p/libA" true; LoadLibrary 1%nat]).
  vm_compute. reflexivity.
Defined.

(** ** Which exceptions leave which function *)

#[export] Instance any_state_basic : Basic any_state.
Proof. split; intros; exact I. Qed.
#[export] Instance any_state_registry : Registry any_state.
Proof. split; intros; exact I. Qed.
#[export] Instance any_state_dynamic_loader : DynamicLoader any_state.
Proof. intros v s. exact I. Qed.
#[export] Instance any_state_open_libraries : OpenLibraries any_state.
Proof. intros v s. exact I. Qed.
#[export] Instance any_state_loading_context : LoadingContext any_state.
Proof. split; intros; exact I. Qed.
#[export] Instance any_state_loader_objects : LoaderObjects any_state.
Proof. split; intros; exact I. Qed.
#[export] Instance any_state_multi_objects : MultiObjects any_state.
Proof. split; intros; exact I. Qed.

#[export] Instance load_failure_admits : AdmitsLoad load_failure.
Proof. intros what. now exists what. Qed.
#[export] Instance unload_failure_admits : AdmitsUnload unload_failure.
Proof. intros what. now exists what. Qed.
#[export] Instance create_failure_admits : AdmitsCreate create_failure.
Proof. intros what. now exists what. Qed.
#[export] Instance no_loader_admits : AdmitsNoLoader no_loader.
Proof. intros what. now exists what. Qed.

#[export] Instance either_admits_load_l P Q `{!AdmitsLoad P} : AdmitsLoad (either P Q).
Proof. intros what. left. apply admits_load. Qed.
#[export] Instance either_admits_load_r P Q `{!AdmitsLoad Q} : AdmitsLoad (either P Q).
Proof. intros what. right. apply admits_load. Qed.
#[export] Instance either_admits_create_l P Q `{!AdmitsCreate P} : AdmitsCreate (either P Q).
Proof. intros what. left. apply admits_create. Qed.
#[export] Instance either_admits_create_r P Q `{!AdmitsCreate Q} : AdmitsCreate (either P Q).
Proof. intros what. right. apply admits_create. Qed.
#[export] Instance either_admits_no_loader_r P Q `{!AdmitsNoLoader Q} :
  AdmitsNoLoader (either P Q).
Proof. intros what. right. apply admits_no_loader. Qed.

Lemma ensures_throws_only {A} (P : exn -> Prop) (m : M A) :
  ensures any_state P m -> throws_only P m.
Proof. intros H s e s' E. specialize (H s). rewrite E in H. apply H. Qed.

(** X25.  The exceptions that can leave the functions of the library.  The
    queries and the registration throw nothing.  Loading throws only
    LibraryLoadException and unloading only LibraryUnloadException.  A
    creator of a ClassLoader, which may have to load the library first,
    throws LibraryLoadException or CreateClassException; the creators
    of a MultiLibraryClassLoader that are given a library path throw
    NoClassLoaderExistsException besides.  The destructors throw
    nothing. *)
Theorem exceptions_by_function :
  (forall Base class_name base_class_name,
      throws_only no_exception (impl.registerPlugin Base class_name base_class_name)) /\
  (forall library_path loader, throws_only load_failure (impl.loadLibrary library_path loader)) /\
  (forall library_path loader,
      throws_only unload_failure (impl.unloadLibrary library_path loader)) /\
  (forall Base name loader, throws_only create_failure (impl.createInstance Base name loader)) /\
  (forall library_path ondemand,
      throws_only load_failure (ClassLoader.new library_path ondemand)) /\
  (forall this, throws_only no_exception (ClassLoader.delete_ this)) /\
  (forall this, throws_only load_failure (ClassLoader.loadLibrary this)) /\
  (forall this, throws_only unload_failure (ClassLoader.unloadLibrary this)) /\
  (forall this, throws_only no_exception (ClassLoader.isLibraryLoaded this)) /\
  (forall Base this, throws_only no_exception (ClassLoader.getAvailableClasses Base this)) /\
  (forall Base this name,
      throws_only (either load_failure create_failure)
        (ClassLoader.createInstance Base this name)) /\
  (forall Base this name,
      throws_only (either load_failure create_failure)
        (ClassLoader.createUniqueInstance Base this name)) /\
  (forall Base this name,
      throws_only (either load_failure create_failure)
        (ClassLoader.createUnmanagedInstance Base this name)) /\
  (forall this library_path,
      throws_only load_failure (MultiLibraryClassLoader.loadLibrary this library_path)) /\
  (forall this library_path,
      throws_only unload_failure (MultiLibraryClassLoader.unloadLibrary this library_path)) /\
  (forall this, throws_only no_exception (MultiLibraryClassLoader.delete_ this)) /\
  (forall Base this name,
      throws_only (either load_failure create_failure)
        (MultiLibraryClassLoader.createInstance Base this name)) /\
  (forall Base this name library_path,
      throws_only (either (either load_failure create_failure) no_loader)
        (MultiLibraryClassLoader.createInstance_from Base this name library_path)) /\
  (forall Base this library_path,
      throws_only no_loader
        (MultiLibraryClassLoader.getAvailableClassesForLibrary Base this library_path)).
Proof.
  repeat match goal with |- _ /\ _ => split end.
  - intros Base class_name base_class_name. apply ensures_throws_only, registerPlugin_keeps; exact _.
  - intros library_path loader. apply ensures_throws_only, impl_loadLibrary_keeps; exact _.
  - intros library_path loader. apply ensures_throws_only, impl_unloadLibrary_keeps; exact _.
  - intros Base name loader. apply ensures_throws_only, impl_createInstance_keeps; exact _.
  - intros library_path ondemand. apply ensures_throws_only, ClassLoader_new_keeps; exact _.
  - intros this. apply ensures_throws_only. unfold ClassLoader.delete_.
    apply ensures_bind; [exact _|keeps|intros _].
    apply ensures_bind; [exact _| |intros _; keeps].
    apply (ensures_noexcept _ _ any_exception), ClassLoader_unloadLibrary_keeps; exact _.
  - intros this. apply ensures_throws_only, ClassLoader_loadLibrary_keeps; exact _.
  - intros this. apply ensures_throws_only, ClassLoader_unloadLibrary_keeps; exact _.
  - intros this. apply ensures_throws_only, ClassLoader_isLibraryLoaded_keeps; exact _.
  - intros Base this. apply ensures_throws_only, ClassLoader_getAvailableClasses_keeps; exact _.
  - intros Base this name. apply ensures_throws_only, ClassLoader_createInstance_keeps; exact _.
  - intros Base this name.
    apply ensures_throws_only, ClassLoader_createUniqueInstance_keeps; exact _.
  - intros Base this name.
    apply ensures_throws_only, ClassLoader_createUnmanagedInstance_keeps; exact _.
  - intros this library_path. apply ensures_throws_only, Multi_loadLibrary_keeps; exact _.
  - intros this library_path. apply ensures_throws_only, Multi_unloadLibrary_keeps; exact _.
  - intros this. apply ensures_throws_only. unfold MultiLibraryClassLoader.delete_.
    apply ensures_bind; [exact _| |intros _; keeps].
    apply (ensures_noexcept _ _ any_exception), shutdownAllClassLoaders_keeps; exact _.
  - intros Base this name. apply ensures_throws_only, Multi_createInstance_keeps; exact _.
  - intros Base this name library_path.
    apply ensures_throws_only, Multi_createInstance_from_keeps; exact _.
  - intros Base this library_path.
    apply ensures_throws_only, getAvailableClassesForLibrary_keeps; exact _.
Qed.

(** ** class_loader.cpp: the destructor *)

(** X26.  The destructor unloads once, whatever the load count.  For a
    ClassLoader with a library path and no live instance: when it holds
    exactly one load, destroying it runs the registry-level
    [unloadLibrary] for its library, with the load count at zero, and
    then releases the object (an exception from the unload ends the
    process, the destructor being [noexcept]); when it holds more than
    one load, the registry-level unload is not reached, whatever the
    count: only the debug message is written and the object released,
    so the library stays open and its MetaObjects keep the destroyed
    loader among their owners. *)
Theorem destructor_unloads_only_once (this : nat) (s : State) (c : ClassLoaderData) :
  class_loaders s !! this = Some c ->
  library_path_ c <> "" ->
  plugin_ref_count_ c <= 0 ->
  1 <= load_ref_count_ c <= INT_MAX ->
  let s0 := set_console (console s ++ [(LogDebug, MsgDestroyingClassLoader)])%list s in
  ClassLoader.delete_ this s =
    if load_ref_count_ c =? 1 then
      match impl.unloadLibrary (library_path_ c) (Some this) (with_load_count this c 0 s0) with
      | Ret _ s' => Ret tt (set_class_loaders (delete this (class_loaders s')) s')
      | Throw _ _ => Undefined Terminated
      | Undefined u => Undefined u
      end
    else Ret tt (set_class_loaders (delete this (class_loaders s)) s0).
Proof.
  intros Hc Hpath Hplugin Hload s0.
  unfold ClassLoader.delete_. unfold bind at 1. cbn [log modify]. fold s0.
  assert (class_loaders s0 !! this = Some c) as Hc0 by exact Hc.
  unfold bind at 1. unfold noexcept.
  destruct (Z.eqb_spec (load_ref_count_ c) 1) as [Hone|Hmore].
  - rewrite (unloadLibrary_last this s0 c Hc0 Hpath Hplugin Hone).
    destruct (impl.unloadLibrary (library_path_ c) (Some this) (with_load_count this c 0 s0))
      as [[] s'|e s'|u]; reflexivity.
  - rewrite (unloadLibrary_counts_down this s0 c (load_ref_count_ c - 1)) by (auto; lia).
    unfold modify, with_load_count. cbn. now rewrite delete_insert_eq.
Qed.

(** The on-demand ClassLoader at address 1 destroyed while it holds one
    load of [/p/libA], its only owner: the library is closed and
    nothing stays registered.  The same ClassLoader destroyed while it
    holds three loads: the library stays open, and the MetaObject of
    [Foo] (address 2) stays registered with the destroyed loader as
    its owner. *)
Lemma destructor_unloads_only_once_witness :
  (exists s',
      ClassLoader.delete_ 1%nat lazy_libA_loaded = Ret tt s' /\
      loaded_libraries s' = [] /\ registered s' = [] /\ os_calls s' = 2%nat) /\
  (exists s',
      ClassLoader.delete_ 1%nat libA_loaded_three_times = Ret tt s' /\
      loaded_libraries s' = [("/p/libA", 0%nat)] /\ registered s' = [2%nat] /\
      owned_by s' (Some 1%nat) 2%nat = true /\ os_calls s' = 1%nat) /\
  (let s0 := set_console
               (console lazy_libA_loaded ++ [(LogDebug, MsgDestroyingClassLoader)])%list
               lazy_libA_loaded in
   ClassLoader.delete_ 1%nat lazy_libA_loaded =
     match impl.unloadLibrary "/p/libA" (Some 1%nat)
             (with_load_count 1%nat
                {| ondemand_load_unload_ := true; library_path_ := "/p/libA";
                   load_ref_count_ := 1; plugin_ref_count_ := 0 |} 0 s0) with
     | Ret _ s' => Ret tt (set_class_loaders (delete 1%nat (class_loaders s')) s')
     | Throw _ _ => Undefined Terminated
     | Undefined u => Undefined u
     end) /\
  ClassLoader.delete_ 1%nat libA_loaded_three_times =
    Ret tt (set_class_loaders (delete 1%nat (class_loaders libA_loaded_three_times))
              (set_console
                 (console libA_loaded_three_times ++ [(LogDebug, MsgDestroyingClassLoader)])%list
                 libA_loaded_three_times)).
Proof.
  split; [eexists; split; [vm_compute; reflexivity|]; split; [|split]; reflexivity|].
  split; [eexists; split; [vm_compute; reflexivity|]; split; [|split; [|split]]; reflexivity|].
  split.
  - apply (destructor_unloads_only_once 1%nat lazy_libA_loaded
             {| ondemand_load_unload_ := true; library_path_ := "/p/libA";
                load_ref_count_ := 1; plugin_ref_count_ := 0 |}).
    + vm_compute. reflexivity.
    + discriminate.
    + cbn. lia.
    + cbn. unfold INT_MAX. lia.
  - apply (destructor_unloads_only_once 1%nat libA_loaded_three_times
             {| ondemand_load_unload_ := true; library_path_ := "/p/libA";
                load_ref_count_ := 3; plugin_ref_count_ := 0 |}).
    + vm_compute. reflexivity.
    + discriminate.
    + cbn. lia.
    + cbn. unfold INT_MAX. lia.
Defined.

(** ** class_loader.hpp: the count of live instances *)

#[export] Instance same_class_loaders_basic : Basic same_class_loaders.
Proof. split; unfold same_class_loaders; cbn; intuition congruence. Qed.

#[export] Instance same_class_loaders_registry : Registry same_class_loaders.
Proof. split; unfold same_class_loaders; cbn; intuition congruence. Qed.

#[export] Instance same_class_loaders_dynamic_loader : DynamicLoader same_class_loaders.
Proof. intros v s. reflexivity. Qed.

#[export] Instance same_class_loaders_open_libraries : OpenLibraries same_class_loaders.
Proof. intros v s. reflexivity. Qed.

#[export] Instance same_class_loaders_loading_context : LoadingContext same_class_loaders.
Proof. split; intros; reflexivity. Qed.

(** [loadLibrary] of a ClassLoader leaves every ClassLoader as it was,
    except that its own load count may have gone up by one. *)
Lemma ClassLoader_loadLibrary_touches_one_count this s c :
  class_loaders s !! this = Some c ->
  match ClassLoader.loadLibrary this s with
  | Ret _ s' | Throw _ s' =>
      class_loaders s' = class_loaders s \/
      class_loaders s' =
        <[this := ClassLoader.with_load_ref_count (load_ref_count_ c + 1) c]> (class_loaders s)
  | Undefined _ => True
  end.
Proof.
  intros Hc. unfold ClassLoader.loadLibrary, ClassLoader.getLibraryPath.
  unfold bind at 1. unfold bind at 1. rewrite (read_loader_at _ _ _ Hc). cbn [ret].
  destruct (String.eqb (library_path_ c) ""); [now left|].
  unfold bind at 1. rewrite (read_loader_at _ _ _ Hc).
  unfold bind at 1. unfold int_result. destruct (_ && _); [|exact I]. cbn [ret].
  unfold bind at 1. cbn [write_loader modify].
  set (s1 := set_class_loaders _ s).
  unfold bind at 1. unfold bind at 1.
  assert (class_loaders s1 !! this =
            Some (ClassLoader.with_load_ref_count (load_ref_count_ c + 1) c)) as Hc1
      by (subst s1; cbn; apply lookup_insert_eq).
  rewrite (read_loader_at _ _ _ Hc1). cbn [ret].
  pose proof (impl_loadLibrary_keeps same_class_loaders any_exception (library_path_ c)
                (Some this) s1) as Hk.
  cbn [library_path_ ClassLoader.with_load_ref_count].
  destruct (impl.loadLibrary (library_path_ c) (Some this) s1) as [[] s'|e s'|];
    [|destruct Hk as [Hk _]|exact I]; right; now rewrite <- Hk.
Qed.

(** X27.  A managed creator that returns has counted the new instance: the
    count of live instances of the ClassLoader has gone up by one, and
    the handle returned refers to this ClassLoader.  A creator that
    throws has counted nothing.  In both cases the load count has gone
    up by at most one, the rest of the ClassLoader is as it was, and no
    other ClassLoader was touched. *)
Theorem createInstance_counts_the_instance
    (Base : string) (this : nat) (derived_class_name : string) (s : State)
    (c : ClassLoaderData) :
  class_loaders s !! this = Some c ->
  match ClassLoader.createInstance Base this derived_class_name s with
  | Ret h s' =>
      ClassLoader.deleter_this h = this /\
      exists loads,
        (loads = load_ref_count_ c \/ loads = load_ref_count_ c + 1) /\
        class_loaders s' =
          <[this := ClassLoader.with_plugin_ref_count (plugin_ref_count_ c + 1)
                      (ClassLoader.with_load_ref_count loads c)]> (class_loaders s)
  | Throw _ s' =>
      exists loads,
        (loads = load_ref_count_ c \/ loads = load_ref_count_ c + 1) /\
        class_loaders s' = <[this := ClassLoader.with_load_ref_count loads c]> (class_loaders s)
  | Undefined _ => True
  end.
Proof.
  intros Hc.
  assert (ClassLoader.with_load_ref_count (load_ref_count_ c) c = c) as Hsame by now destruct c.
  unfold ClassLoader.createInstance, ClassLoader.createRawInstance.
  unfold bind at 1. unfold bind at 1. cbn [negb when ret].
  unfold bind at 1. unfold ClassLoader.hasUnmanagedInstanceBeenCreated. cbn [gets].
  unfold bind at 1. unfold ClassLoader.isOnDemandLoadUnloadEnabled.
  unfold bind at 1. rewrite (read_loader_at _ _ _ Hc). cbn [ret].
  unfold bind at 1.
  match goal with
  | |- context [when ?b (log ?l ?m) s] =>
      assert (exists s1, when b (log l m) s = Ret tt s1 /\ class_loaders s1 = class_loaders s)
        as (s1 & -> & Hs1)
        by (destruct b; cbn; eexists; split; reflexivity)
  end.
  assert (class_loaders s1 !! this = Some c) as Hc1 by now rewrite Hs1.
  unfold bind at 1.
  pose proof (ensures_bind same_class_loaders any_exception _ _
                (ensures_bind same_class_loaders any_exception _ _
                   (ensures_read_loader same_class_loaders any_exception this)
                   (fun c0 => ensures_ret same_class_loaders any_exception (library_path_ c0)))
                (fun path => isLibraryLoaded_keeps same_class_loaders any_exception path
                               (Some this)) s1) as Hloaded.
  fold (ClassLoader.getLibraryPath this) in Hloaded.
  fold (ClassLoader.isLibraryLoaded this) in Hloaded.
  destruct (ClassLoader.isLibraryLoaded this s1) as [loaded s2|e s2|]; [| |exact I].
  2:{ destruct Hloaded as [Hloaded _]. exists (load_ref_count_ c). split; [now left|].
      rewrite Hsame, insert_id by assumption. unfold same_class_loaders in Hloaded. congruence. }
  unfold same_class_loaders in Hloaded.
  assert (class_loaders s2 !! this = Some c) as Hc2 by (rewrite <- Hloaded; exact Hc1).
  unfold bind at 1.
  assert (match when (negb loaded) (ClassLoader.loadLibrary this) s2 with
          | Ret _ s' | Throw _ s' =>
              exists loads,
                (loads = load_ref_count_ c \/ loads = load_ref_count_ c + 1) /\
                class_loaders s' =
                  <[this := ClassLoader.with_load_ref_count loads c]> (class_loaders s)
          | Undefined _ => True
          end) as Hload.
  { destruct loaded; cbn [negb when ret].
    - exists (load_ref_count_ c). split; [now left|].
      rewrite Hsame, insert_id by assumption. congruence.
    - pose proof (ClassLoader_loadLibrary_touches_one_count this s2 c Hc2) as H.
      destruct (ClassLoader.loadLibrary this s2) as [[] s3|e s3|]; [| |exact I];
        (destruct H as [H|H];
         [exists (load_ref_count_ c); split; [now left|];
          rewrite Hsame, insert_id by assumption; congruence
         |exists (load_ref_count_ c + 1); split; [now right|]; rewrite H; congruence]). }
  destruct (when (negb loaded) (ClassLoader.loadLibrary this) s2) as [[] s3|e s3|];
    [|exact Hload|exact I].
  destruct Hload as (loads & Hloads & Hcl3).
  unfold bind at 1.
  pose proof (impl_createInstance_keeps same_class_loaders any_exception Base
                derived_class_name (Some this) s3) as Hcreate.
  destruct (impl.createInstance Base derived_class_name (Some this) s3) as [[] s4|e s4|];
    [| |exact I].
  2:{ destruct Hcreate as [Hcreate _]. exists loads. split; [assumption|].
      unfold same_class_loaders in Hcreate. congruence. }
  unfold same_class_loaders in Hcreate.
  assert (class_loaders s4 !! this = Some (ClassLoader.with_load_ref_count loads c)) as Hc4
      by (rewrite <- Hcreate, Hcl3; apply lookup_insert_eq).
  unfold bind at 1. rewrite (read_loader_at _ _ _ Hc4).
  unfold bind at 1. unfold int_result.
  cbn [plugin_ref_count_ ClassLoader.with_load_ref_count].
  destruct (_ && _); [|exact I]. cbn [ret write_loader modify].
  split; [reflexivity|]. exists loads. split; [assumption|]. cbn.
  now rewrite <- Hcreate, Hcl3, insert_insert_eq.
Qed.

Lemma createInstance_counts_the_instance_witness :
  match ClassLoader.createInstance typeid_Base 1%nat "Foo" lazy_libA_loader with
  | Ret h s' =>
      ClassLoader.deleter_this h = 1%nat /\
      exists loads,
        (loads = 0 \/ loads = 0 + 1) /\
        class_loaders s' =
          <[1%nat := ClassLoader.with_plugin_ref_count (0 + 1)
                       (ClassLoader.with_load_ref_count loads
                          {| ondemand_load_unload_ := true; library_path_ := "/p/libA";
                             load_ref_count_ := 0; plugin_ref_count_ := 0 |})]>
            (class_loaders lazy_libA_loader)
  | Throw _ s' =>
      exists loads,
        (loads = 0 \/ loads = 0 + 1) /\
        class_loaders s' =
          <[1%nat := ClassLoader.with_load_ref_count loads
                       {| ondemand_load_unload_ := true; library_path_ := "/p/libA";
                          load_ref_count_ := 0; plugin_ref_count_ := 0 |}]>
            (class_loaders lazy_libA_loader)
  | Undefined _ => True
  end.
Proof.
  apply (createInstance_counts_the_instance typeid_Base 1%nat "Foo" lazy_libA_loader
           {| ondemand_load_unload_ := true; library_path_ := "/p/libA";
              load_ref_count_ := 0; plugin_ref_count_ := 0 |}).
  vm_compute. reflexivity.
Defined.

(** ** class_loader_core.cpp: a library shared between ClassLoaders *)

Section SharedLibraries.
Import AbstractMetaObjectBase.

Lemma isOwnedBy_added loader o : isOwnedBy loader (addOwningClassLoader loader o) = true.
Proof.
  unfold isOwnedBy, addOwningClassLoader.
  destruct (found loader (associated_class_loaders_ o)) eqn:E; cbn; [assumption|].
  rewrite found_app. cbn. unfold ptr_eqb. rewrite bool_decide_eq_true_2 by reflexivity.
  apply orb_true_r.
Qed.

Lemma isOwnedBy_added_other loader other o :
  other <> loader -> isOwnedBy other (addOwningClassLoader loader o) = isOwnedBy other o.
Proof.
  intros Hne. unfold isOwnedBy, addOwningClassLoader.
  destruct (found loader (associated_class_loaders_ o)); cbn; [reflexivity|].
  rewrite found_app. cbn. unfold ptr_eqb. rewrite bool_decide_eq_false_2 by congruence.
  apply orb_false_r.
Qed.

Lemma addOwningClassLoader_again loader o :
  addOwningClassLoader loader (addOwningClassLoader loader o) = addOwningClassLoader loader o.
Proof.
  pose proof (isOwnedBy_added loader o) as H. unfold isOwnedBy in H.
  unfold addOwningClassLoader at 1. now rewrite H.
Qed.

Lemma getAssociatedLibraryPath_added loader o :
  getAssociatedLibraryPath (addOwningClassLoader loader o) = getAssociatedLibraryPath o.
Proof. unfold addOwningClassLoader. now destruct (negb _). Qed.

(** The loop of [addClassLoaderOwnerForAllExistingMetaObjectsForLibrary]:
    it writes to the log and to the MetaObjects listed, each of which
    ends as [addOwningClassLoader] leaves it. *)
Lemma addClassLoaderOwner_loop (loader : loader_ptr) (objs : list nat) :
  forall s,
    Forall (fun p => is_Some (meta_objects s !! p)) objs ->
    (forall l, loader = Some l -> is_Some (class_loaders s !! l)) ->
    exists entries heap,
      for_each objs (fun meta_obj =>
        o <- read_meta meta_obj ;;
        path <- impl.loaderPathOrNULL loader ;;
        log LogDebug (MsgTaggingExisting meta_obj (baseClassName o) (className o) loader path) ;;;
        write_meta meta_obj (addOwningClassLoader loader o)) s
      = Ret tt (set_meta_objects heap (set_console (console s ++ entries) s)) /\
      forall p, heap !! p = if existsb (Nat.eqb p) objs
                            then addOwningClassLoader loader <$> meta_objects s !! p
                            else meta_objects s !! p.
Proof.
  induction objs as [|q objs IH]; intros s Hlive Hloader.
  - exists [], (meta_objects s). cbn. rewrite app_nil_r. split; [now destruct s|reflexivity].
  - apply Forall_cons_1 in Hlive as [[o Ho] Hlive].
    destruct (loaderPathOrNULL_returns loader s Hloader) as [path Hpath].
    cbn [for_each]. unfold bind at 1. unfold bind at 1. rewrite (read_meta_at _ _ _ Ho).
    unfold bind at 1. rewrite Hpath. unfold bind at 1. cbn [log write_meta modify].
    match goal with
    | |- context [for_each objs _ ?st] => set (s1 := st)
    end.
    destruct (IH s1) as (entries & heap & Hrun & Hheap).
    { subst s1. cbn. apply List.Forall_forall. intros p Hp.
      rewrite List.Forall_forall in Hlive. specialize (Hlive p Hp).
      destruct (decide (p = q)) as [->|Hne];
        [rewrite lookup_insert_eq; eauto|now rewrite lookup_insert_ne by congruence]. }
    { exact Hloader. }
    rewrite Hrun. eexists _, heap. split.
    + subst s1. cbn. rewrite <- app_assoc. reflexivity.
    + intros p. rewrite Hheap. subst s1. cbn [meta_objects set_meta_objects existsb].
      destruct (Nat.eqb_spec p q) as [->|Hne]; cbn [orb].
      * rewrite lookup_insert_eq, Ho. cbn. rewrite addOwningClassLoader_again.
        now destruct (existsb _ objs).
      * now rewrite lookup_insert_ne by congruence.
Qed.

Lemma existsb_eqb_nat_In (p : nat) (l : list nat) : existsb (Nat.eqb p) l = true <-> In p l.
Proof.
  rewrite existsb_exists. split.
  - intros (x & Hx & E). apply Nat.eqb_eq in E. now subst.
  - intros H. exists p. split; [assumption|apply Nat.eqb_refl].
Qed.

(** X28.  [loadLibrary] of a library that is open already does not call the
    dynamic loader: beyond the log it only updates MetaObjects.  The
    loader becomes an owner of every registered MetaObject of the
    library, next to the owners these have; no other MetaObject is
    changed, no loader loses an ownership, and no MetaObject changes
    its library. *)
Theorem impl_loadLibrary_of_an_open_library_shares_it
    (library_path : string) (loader : loader_ptr) (s : State) :
  In library_path (map fst (loaded_libraries s)) ->
  factories_live s ->
  (forall l, loader = Some l -> is_Some (class_loaders s !! l)) ->
  exists entries heap,
    let s' := set_meta_objects heap (set_console (console s ++ entries) s) in
    impl.loadLibrary library_path loader s = Ret tt s' /\
    (forall p, In p (registered s) -> associated_with s library_path p = true ->
               owned_by s' loader p = true) /\
    (forall p, ~ (In p (registered s) /\ associated_with s library_path p = true) ->
               heap !! p = meta_objects s !! p) /\
    (forall p other, other <> loader -> owned_by s' other p = owned_by s other p) /\
    (forall p path, associated_with s' path p = associated_with s path p).
Proof.
  intros Hopen Hlive Hloader.
  unfold impl.loadLibrary. unfold bind at 1. cbn [log modify].
  set (s0 := set_console _ s).
  unfold bind at 1. rewrite (isLibraryLoadedByAnybody_open library_path s0) by exact Hopen.
  unfold bind at 1. cbn [log modify].
  set (s1 := set_console _ s0).
  unfold impl.addClassLoaderOwnerForAllExistingMetaObjectsForLibrary. unfold bind at 1.
  rewrite (allMetaObjectsForLibrary_live library_path s1) by exact Hlive.
  change (registered s1) with (registered s).
  change (associated_with s1 library_path) with (associated_with s library_path).
  set (objs := List.filter (associated_with s library_path) (registered s)).
  destruct (addClassLoaderOwner_loop loader objs s1) as (entries & heap & Hrun & Hheap).
  { subst objs. apply Forall_filter_live. exact Hlive. }
  { exact Hloader. }
  rewrite Hrun. eexists _, heap. cbv zeta. split.
  { subst s1 s0. cbn. rewrite <- !app_assoc. reflexivity. }
  change (meta_objects s1) with (meta_objects s) in Hheap.
  assert (forall p, existsb (Nat.eqb p) objs = true <->
                    In p (registered s) /\ associated_with s library_path p = true) as Hobjs
      by (intros p; subst objs; now rewrite existsb_eqb_nat_In, List.filter_In).
  repeat split.
  - intros p Hp Ha. unfold owned_by. cbn [meta_objects set_meta_objects]. rewrite Hheap.
    rewrite (proj2 (Hobjs p)) by tauto.
    unfold associated_with in Ha. destruct (meta_objects s !! p) as [o|]; [|discriminate].
    cbn. apply isOwnedBy_added.
  - intros p Hp. rewrite Hheap. destruct (existsb (Nat.eqb p) objs) eqn:E; [|reflexivity].
    apply Hobjs in E. contradiction.
  - intros p other Hne. unfold owned_by. cbn [meta_objects set_meta_objects]. rewrite Hheap.
    destruct (existsb (Nat.eqb p) objs), (meta_objects s !! p) as [o|]; cbn; try reflexivity.
    now apply isOwnedBy_added_other.
  - intros p path. unfold associated_with. cbn [meta_objects set_meta_objects]. rewrite Hheap.
    destruct (existsb (Nat.eqb p) objs), (meta_objects s !! p) as [o|]; cbn; try reflexivity.
    now rewrite getAssociatedLibraryPath_added.
Qed.

Lemma impl_loadLibrary_of_an_open_library_shares_it_witness :
  exists entries heap,
    let s' := set_meta_objects heap
                (set_console (console libA_loaded_by_the_other ++ entries)
                   libA_loaded_by_the_other) in
    impl.loadLibrary "/p/libA" (Some 1%nat) libA_loaded_by_the_other = Ret tt s' /\
    (forall p, In p (registered libA_loaded_by_the_other) ->
               associated_with libA_loaded_by_the_other "/p/libA" p = true ->
               owned_by s' (Some 1%nat) p = true) /\
    (forall p, ~ (In p (registered libA_loaded_by_the_other) /\
                  associated_with libA_loaded_by_the_other "/p/libA" p = true) ->
               heap !! p = meta_objects libA_loaded_by_the_other !! p) /\
    (forall p other, other <> Some 1%nat ->
                     owned_by s' other p = owned_by libA_loaded_by_the_other other p) /\
    (forall p path, associated_with s' path p = associated_with libA_loaded_by_the_other path p).
Proof.
  apply (impl_loadLibrary_of_an_open_library_shares_it "/p/libA" (Some 1%nat)
           libA_loaded_by_the_other).
  - replace (loaded_libraries libA_loaded_by_the_other) with [("/p/libA", 0%nat)]
      by (vm_compute; reflexivity).
    now left.
  - unfold factories_live.
    replace (registered libA_loaded_by_the_other) with [3%nat] by (vm_compute; reflexivity).
    repeat constructor. eexists. vm_compute. reflexivity.
  - intros l [= <-]. eexists. vm_compute. reflexivity.
Defined.
End SharedLibraries.

(** ** class_loader_core.cpp: unloading a library that is shared *)

Lemma returning_ret {A} (I : State -> Prop) (a : A) (Q : A -> State -> Prop) :
  (forall st, I st -> Q a st) -> returning I (ret a) Q.
Proof. intros H st Hst. exists a, st. split; [reflexivity|auto]. Qed.

Lemma returning_bind {A B} (I : State -> Prop) (m : M A) (k : A -> M B)
    (Q : A -> State -> Prop) (Q' : B -> State -> Prop) :
  returning I m Q -> (forall a, returning (Q a) (k a) Q') -> returning I (bind m k) Q'.
Proof.
  intros Hm Hk st Hst. destruct (Hm st Hst) as (a & st1 & E & Ha).
  destruct (Hk a st1 Ha) as (b & st2 & E' & Hb).
  exists b, st2. unfold bind. rewrite E. auto.
Qed.

Lemma returning_modify (I : State -> Prop) (f : State -> State) (Q : unit -> State -> Prop) :
  (forall st, I st -> Q tt (f st)) -> returning I (modify f) Q.
Proof. intros H st Hst. exists tt, (f st). split; [reflexivity|auto]. Qed.

Lemma returning_for_each {A} (I : State -> Prop) (l : list A) (body : A -> M unit) :
  (forall x, In x l -> returning I (body x) (fun _ => I)) ->
  returning I (for_each l body) (fun _ => I).
Proof.
  induction l as [|x l IH]; intros H; cbn [for_each].
  - now apply returning_ret.
  - apply (returning_bind _ _ _ (fun _ => I)); [apply H; now left|].
    intros _. apply IH. intros y Hy. apply H. now right.
Qed.

Lemma find_Some_In {V} (k : string) (v : V) (m : stdmap V) :
  StdMap.find k m = Some v -> In (k, v) m.
Proof.
  induction m as [|[k' v'] m IH]; cbn; [discriminate|].
  destruct (String.eqb_spec k k') as [->|_]; [intros [= ->]; now left|auto].
Qed.

Lemma erase_In {V} (k : string) (e : string * V) (m : stdmap V) :
  In e (StdMap.erase k m) -> In e m.
Proof.
  induction m as [|[k' v'] m IH]; cbn; [tauto|].
  destruct (String.eqb k k'); cbn; tauto.
Qed.

Lemma In_erase_other {V} (k k' : string) (v : V) (m : stdmap V) :
  k' <> k -> In (k', v) m -> In (k', v) (StdMap.erase k m).
Proof.
  intros Hne. induction m as [|[k0 v0] m IH]; cbn; [tauto|].
  destruct (String.eqb_spec k k0) as [->|_]; cbn.
  - intros [[= -> ->]|?]; [contradiction|assumption].
  - tauto.
Qed.

Lemma In_registered (s : State) (b k : string) (m : stdmap nat) (q : nat) :
  StdMap.find b (factory_map_map s) = Some m -> In (k, q) m -> In q (registered s).
Proof.
  intros Hb Hq. unfold registered. apply in_concat.
  exists (impl.allMetaObjects_of m). split.
  - apply in_map_iff. exists (b, m). split; [reflexivity|now apply find_Some_In].
  - unfold impl.allMetaObjects_of, StdMap.values. apply in_map_iff. now exists (k, q).
Qed.

Section SharedUnload.
Import AbstractMetaObjectBase.
Variables (s : State) (library_path : string) (loader other : loader_ptr).
Variables (base key : string) (fm : stdmap nat) (p : nat).
Hypothesis Hlive : factories_live s.
Hypothesis Hfm : StdMap.find base (factory_map_map s) = Some fm.
Hypothesis Hord : StdMap.ordered fm.
Hypothesis Hkey : In (key, p) fm.
Hypothesis Hne : other <> loader.

Local Abbreviation shared := (still_shared s library_path other base key p).

Lemma isOwnedBy_removed_other o :
  isOwnedBy other (removeOwningClassLoader loader o) = isOwnedBy other o.
Proof.
  unfold isOwnedBy, removeOwningClassLoader.
  destruct (found loader (associated_class_loaders_ o)); cbn; [|reflexivity].
  now apply found_other_erased.
Qed.

Lemma getAssociatedLibraryPath_removed o :
  getAssociatedLibraryPath (removeOwningClassLoader loader o) = getAssociatedLibraryPath o.
Proof. unfold removeOwningClassLoader. now destruct (found _ _). Qed.

Lemma isOwnedBy_isOwnedByAnybody l o : isOwnedBy l o = true -> isOwnedByAnybody o = true.
Proof.
  unfold isOwnedBy, isOwnedByAnybody. destruct (associated_class_loaders_ o); [discriminate|].
  reflexivity.
Qed.

Lemma still_shared_entry_live st b m0 k m :
  shared st -> StdMap.find b (factory_map_map s) = Some m0 -> In (k, m) m0 ->
  is_Some (meta_objects st !! m).
Proof.
  intros (Hheap & _) Hb Hm. apply Hheap.
  unfold factories_live in Hlive. rewrite List.Forall_forall in Hlive.
  apply Hlive. eapply In_registered; eassumption.
Qed.

Lemma still_shared_same st st' :
  meta_objects st' = meta_objects st -> factory_map_map st' = factory_map_map st ->
  shared st -> shared st'.
Proof. unfold still_shared. intros -> ->. tauto. Qed.

Lemma still_shared_write st m o1 :
  (forall o, meta_objects st !! m = Some o -> m = p ->
             getAssociatedLibraryPath o1 = getAssociatedLibraryPath o /\
             isOwnedBy other o1 = isOwnedBy other o) ->
  shared st -> shared (set_meta_objects (<[m := o1]> (meta_objects st)) st).
Proof.
  intros Ho1 (Hheap & Hsub & Hreg & (o & Ho & Hpath & Hown) & Hmap).
  unfold still_shared. cbn [meta_objects factory_map_map set_meta_objects].
  split; [|split; [exact Hsub|split; [exact Hreg|split; [|exact Hmap]]]].
  - intros q Hq. destruct (decide (q = m)) as [->|Hqm];
      [rewrite lookup_insert_eq; eauto|rewrite lookup_insert_ne by congruence; auto].
  - destruct (decide (p = m)) as [<-|Hpm].
    + exists o1. rewrite lookup_insert_eq. destruct (Ho1 o Ho eq_refl) as [-> ->]. auto.
    + exists o. rewrite lookup_insert_ne by congruence. auto.
Qed.

Lemma still_shared_store st st' b X :
  meta_objects st' = meta_objects st ->
  factory_map_map st' = StdMap.assign b X (factory_map_map st) ->
  (forall e, In e X -> exists now, StdMap.find b (factory_map_map st) = Some now /\ In e now) ->
  (b = base -> In (key, p) X) ->
  shared st -> shared st'.
Proof.
  intros Hm Hb HX Hp (Hheap & Hsub & (m & Hreg & Hin) & Ho & Hmap).
  unfold still_shared. rewrite Hm, Hb. split; [exact Hheap|].
  split; [|split; [|split; [exact Ho|now apply assign_ordered]]].
  - intros b' m' e Hb' He. destruct (String.eqb_spec b' b) as [->|Hbb].
    + rewrite find_assign_same in Hb'. injection Hb' as <-.
      destruct (HX e He) as (now & Hnow & Hen). eapply Hsub; eassumption.
    + rewrite find_assign_other in Hb' by congruence. eapply Hsub; eassumption.
  - destruct (String.eqb_spec base b) as [->|Hbb].
    + exists X. rewrite find_assign_same. auto.
    + exists m. rewrite find_assign_other by congruence. auto.
Qed.

(** [getFactoryMapForBaseClass] keeps the invariant, and every factory
    of the map it returns was a factory of the same base class at the
    start. *)
Lemma getFactoryMapForBaseClass_shared b :
  returning shared (impl.getFactoryMapForBaseClass b)
    (fun now st => shared st /\ StdMap.find b (factory_map_map st) = Some now).
Proof.
  intros st Hst. unfold impl.getFactoryMapForBaseClass, bind, get.
  destruct (StdMap.find b (factory_map_map st)) as [now|] eqn:E.
  - exists now, st. split; [reflexivity|auto].
  - eexists [], _. split; [reflexivity|]. cbn [factory_map_map set_factory_map_map].
    split; [|apply find_assign_same].
    apply (still_shared_store st _ b []); try reflexivity.
    + intros e [].
    + intros ->. destruct Hst as (_ & _ & (m & Hm & _) & _). congruence.
    + exact Hst.
Qed.

Lemma destroyMetaObjectsForLibrary_in_shared b :
  returning shared (impl.destroyMetaObjectsForLibrary_in library_path b loader)
    (fun _ => shared).
Proof.
  unfold impl.destroyMetaObjectsForLibrary_in.
  eapply returning_bind; [apply getFactoryMapForBaseClass_shared|].
  intros factories st0 [Hst0 Hfactories].
  assert (forall e, In e factories ->
                    exists m0, StdMap.find b (factory_map_map s) = Some m0 /\ In e m0) as Hfrom.
  { intros e He. destruct Hst0 as (_ & Hsub & _). eapply Hsub; eassumption. }
  clear Hfactories. revert st0 Hst0.
  apply returning_for_each. intros [k m] Hkm st Hst. cbn [fst snd].
  destruct (Hfrom _ Hkm) as (m0 & Hm0 & Hin0).
  destruct (still_shared_entry_live st b m0 k m Hst Hm0 Hin0) as [o Ho].
  unfold bind at 1. rewrite (read_meta_at _ _ _ Ho).
  destruct (String.eqb (getAssociatedLibraryPath o) library_path && isOwnedBy loader o);
    [|exists tt, st; split; [reflexivity|assumption]].
  unfold bind at 1. cbn [write_meta modify].
  set (o1 := removeOwningClassLoader loader o).
  set (st1 := set_meta_objects _ st).
  assert (shared st1) as Hst1.
  { apply still_shared_write; [|assumption].
    intros o' Ho' _. rewrite Ho in Ho'. injection Ho' as <-.
    split; [apply getAssociatedLibraryPath_removed|apply isOwnedBy_removed_other]. }
  assert (meta_objects st1 !! m = Some o1) as Ho1 by (subst st1; cbn; apply lookup_insert_eq).
  unfold bind at 1. rewrite (read_meta_at _ _ _ Ho1).
  destruct (isOwnedByAnybody o1) eqn:Hany; cbn [negb];
    [exists tt, st1; split; [reflexivity|assumption]|].
  assert (b = base -> k <> key) as Hkey'.
  { intros -> ->. rewrite Hfm in Hm0. injection Hm0 as <-.
    pose proof (proj2 (find_In_ordered _ _ _ Hord) Hin0) as Hm.
    rewrite (proj2 (find_In_ordered _ _ _ Hord) Hkey) in Hm. injection Hm as ->.
    destruct Hst1 as (_ & _ & _ & (o' & Ho' & _ & Hown) & _).
    rewrite Ho1 in Ho'. injection Ho' as <-.
    apply isOwnedBy_isOwnedByAnybody in Hown. congruence. }
  destruct (getFactoryMapForBaseClass_shared b st1 Hst1) as (now & st2 & Hnow & Hst2 & Hfind).
  unfold bind at 1. rewrite Hnow.
  unfold bind at 1. unfold impl.storeFactoryMap. cbn [modify].
  set (st3 := set_factory_map_map _ st2).
  assert (shared st3) as Hst3.
  { apply (still_shared_store st2 st3 b (StdMap.erase k now)); try reflexivity.
    - intros e He. exists now. split; [assumption|]. eapply erase_In, He.
    - intros ->. apply In_erase_other; [intros E; now apply (Hkey' eq_refl)|].
      destruct Hst2 as (_ & _ & (m' & Hm' & Hin') & _). congruence.
    - assumption. }
  assert (is_Some (meta_objects st3 !! m)) as [o3 Ho3]
      by (eapply still_shared_entry_live; eassumption).
  unfold impl.insertMetaObjectIntoGraveyard. unfold bind at 1. rewrite (read_meta_at _ _ _ Ho3).
  unfold bind, log, modify. eexists tt, _. split; [reflexivity|].
  eapply still_shared_same; [| |exact Hst3]; reflexivity.
Qed.

Lemma destroyMetaObjectsForLibrary_shared :
  returning shared (impl.destroyMetaObjectsForLibrary library_path loader) (fun _ => shared).
Proof.
  unfold impl.destroyMetaObjectsForLibrary.
  apply (returning_bind _ _ _ (fun _ => shared)).
  { apply returning_modify. intros st. now apply still_shared_same. }
  intros _. apply (returning_bind _ _ _ (fun _ => shared)).
  { intros st Hst. eexists _, st. split; [reflexivity|assumption]. }
  intros snapshot. apply (returning_bind _ _ _ (fun _ => shared)).
  { apply returning_for_each. intros it _. apply destroyMetaObjectsForLibrary_in_shared. }
  intros _. apply returning_modify. intros st. now apply still_shared_same.
Qed.

Lemma still_shared_live st : shared st -> factories_live st.
Proof.
  intros Hst. unfold factories_live, registered. apply List.Forall_forall. intros q Hq.
  apply in_concat in Hq as (l & Hl & Hq). apply in_map_iff in Hl as ([b m] & <- & Hbm).
  cbn [snd] in Hq. unfold impl.allMetaObjects_of, StdMap.values in Hq.
  apply in_map_iff in Hq as ([k q'] & Hk & Hin). cbn [snd] in Hk. subst q'.
  pose proof Hst as (_ & Hsub & _ & _ & Hmap).
  apply find_In_ordered in Hbm; [|assumption].
  destruct (Hsub b m (k, q) Hbm Hin) as (m0 & Hm0 & Hin0).
  eapply still_shared_entry_live; eassumption.
Qed.

(** [unloadLibrary] by one owner of a MetaObject of the library, while
    another loader owns it as well. *)
Lemma impl_unloadLibrary_shared st :
  shared st ->
  exists st',
    impl.unloadLibrary library_path loader st = Ret tt st' /\ shared st' /\
    os_calls st' = os_calls st /\ loaded_libraries st' = loaded_libraries st.
Proof.
  intros Hst.
  assert (forall v, shared (set_console v st)) as Hlog
      by (intros v; now apply (still_shared_same st)).
  unfold impl.unloadLibrary, impl.hasANonPurePluginLibraryBeenOpened.
  unfold bind at 1. cbn [gets].
  destruct (non_pure_plugin_library_opened st);
    [eexists; split; [reflexivity|]; split; [apply Hlog|split; reflexivity]|].
  unfold bind at 1. cbn [log modify]. set (st0 := set_console _ st).
  unfold impl.findLoadedLibrary. unfold bind at 1. cbn [gets].
  destruct (impl.findLoadedLibrary_in library_path (loaded_libraries st0)) as [[path library]|]
    eqn:Efind;
    [|eexists; split; [reflexivity|]; split;
      [now apply (still_shared_same st0), Hlog|split; reflexivity]].
  apply findLoadedLibrary_in_Some in Efind as [Hfst _]. cbn [fst] in Hfst. subst path.
  destruct (destroyMetaObjectsForLibrary_shared st0 (Hlog _)) as ([] & st1 & Hrun & Hst1).
  pose proof (ensures_returns same_outside_registry any_exception _ _ _ _
                (destroyMetaObjectsForLibrary_keeps same_outside_registry any_exception
                   library_path loader) Hrun) as (Hlibs & _ & _ & Hcalls & _).
  unfold bind at 1. rewrite Hrun.
  unfold bind at 1. unfold impl.areThereAnyExistingMetaObjectsForLibrary. unfold bind at 1.
  rewrite (allMetaObjectsForLibrary_live library_path st1) by now apply still_shared_live.
  cbn [ret].
  assert (In p (List.filter (associated_with st1 library_path) (registered st1))) as Hp.
  { destruct Hst1 as (_ & _ & (m & Hm & Hin) & (o & Ho & Hpath & _) & _).
    apply List.filter_In. split; [eapply In_registered; eassumption|].
    unfold associated_with. rewrite Ho, Hpath. apply String.eqb_refl. }
  destruct (List.filter _ (registered st1)) as [|q rest]; [destruct Hp|].
  cbn [length Nat.ltb Nat.leb negb log modify].
  eexists. split; [reflexivity|]. split; [now apply (still_shared_same st1)|].
  split; assumption.
Qed.

Lemma still_shared_start o :
  StdMap.ordered (factory_map_map s) ->
  meta_objects s !! p = Some o ->
  getAssociatedLibraryPath o = library_path ->
  isOwnedBy other o = true ->
  shared s.
Proof. unfold still_shared. intros Hmap Ho Hpath Hown. repeat split; eauto. Qed.

Lemma still_shared_find st :
  shared st ->
  exists fm', StdMap.find base (factory_map_map st) = Some fm' /\ StdMap.find key fm' = Some p.
Proof.
  intros (_ & Hsub & (fm' & Hfm' & Hin) & _). exists fm'. split; [assumption|].
  assert (exists q, StdMap.find key fm' = Some q) as [q Hq].
  { clear -Hin. induction fm' as [|[k v] l IH]; [destruct Hin|]. cbn.
    destruct (String.eqb_spec key k); eauto. destruct Hin as [[= <- <-]|?]; [congruence|eauto]. }
  rewrite Hq. f_equal. apply find_Some_In in Hq.
  destruct (Hsub base fm' (key, q) Hfm' Hq) as (m0 & Hm0 & Hq0).
  rewrite Hfm in Hm0. injection Hm0 as <-.
  apply (find_In_ordered _ _ _ Hord) in Hq0. apply (find_In_ordered _ _ _ Hord) in Hkey.
  congruence.
Qed.
End SharedUnload.

(** X29.  As long as another loader owns a MetaObject of a library,
    [unloadLibrary] of that library by one loader returns without
    calling the dynamic loader: the library stays open, and the
    MetaObject stays registered under its class name, for the library
    and with the other owner. *)
Theorem impl_unloadLibrary_keeps_a_shared_library
    (library_path : string) (loader other : loader_ptr) (s : State)
    (base key : string) (fm : stdmap nat) (p : nat) (o : AbstractMetaObjectBaseImpl) :
  factories_live s ->
  StdMap.ordered (factory_map_map s) ->
  StdMap.find base (factory_map_map s) = Some fm ->
  StdMap.ordered fm ->
  StdMap.find key fm = Some p ->
  meta_objects s !! p = Some o ->
  AbstractMetaObjectBase.getAssociatedLibraryPath o = library_path ->
  AbstractMetaObjectBase.isOwnedBy other o = true ->
  other <> loader ->
  exists s',
    impl.unloadLibrary library_path loader s = Ret tt s' /\
    os_calls s' = os_calls s /\
    loaded_libraries s' = loaded_libraries s /\
    (exists fm', StdMap.find base (factory_map_map s') = Some fm' /\
                 StdMap.find key fm' = Some p) /\
    associated_with s' library_path p = true /\
    owned_by s' other p = true.
Proof.
  intros Hlive Hmap Hfm Hord Hkey Ho Hpath Hown Hne.
  apply find_Some_In in Hkey.
  pose proof (still_shared_start s library_path other base key fm p Hfm Hkey o Hmap Ho Hpath Hown)
    as Hstart.
  destruct (impl_unloadLibrary_shared s library_path loader other base key fm p
              Hlive Hfm Hord Hkey Hne s Hstart) as (s' & Hrun & Hs' & Hcalls & Hlibs).
  exists s'. split; [exact Hrun|].
  pose proof (still_shared_find s library_path other base key fm p Hfm Hord Hkey s' Hs')
    as Hfind.
  destruct Hs' as (_ & _ & _ & (o' & Ho' & Hpath' & Hown') & _).
  assert (associated_with s' library_path p = true) as Hassoc
      by (unfold associated_with; rewrite Ho', Hpath'; apply String.eqb_refl).
  assert (owned_by s' other p = true) as Howned by (unfold owned_by; now rewrite Ho').
  tauto.
Qed.

Lemma impl_unloadLibrary_keeps_a_shared_library_witness :
  exists s',
    impl.unloadLibrary "/p/libA" (Some 1%nat) libA_shared = Ret tt s' /\
    os_calls s' = os_calls libA_shared /\
    loaded_libraries s' = loaded_libraries libA_shared /\
    (exists fm', StdMap.find typeid_Base (factory_map_map s') = Some fm' /\
                 StdMap.find "Foo" fm' = Some 2%nat) /\
    associated_with s' "/p/libA" 2%nat = true /\
    owned_by s' (Some 3%nat) 2%nat = true.
Proof.
  apply (impl_unloadLibrary_keeps_a_shared_library "/p/libA" (Some 1%nat) (Some 3%nat)
           libA_shared typeid_Base "Foo" [("Foo", 2%nat)] 2%nat
           {| associated_class_loaders_ := [Some 1%nat; Some 3%nat];
              associated_library_path_ := "/p/libA";
              base_class_name_ := "Base";
              class_name_ := "Foo";
              typeid_base_class_name_ := typeid_Base |}).
  - unfold factories_live.
    replace (registered libA_shared) with [2%nat] by (vm_compute; reflexivity).
    repeat constructor. eexists. vm_compute. reflexivity.
  - replace (factory_map_map libA_shared) with [(typeid_Base, [("Foo", 2%nat)])]
      by (vm_compute; reflexivity).
    repeat constructor.
  - vm_compute. reflexivity.
  - repeat constructor.
  - reflexivity.
  - vm_compute. reflexivity.
  - reflexivity.
  - reflexivity.
  - discriminate.
Defined.

(** ** class_loader_core.cpp: reviving MetaObjects from the graveyard *)

Section Graveyard.
Import AbstractMetaObjectBase.
Variables (library_path : string) (loader : loader_ptr).

Lemma names_added (o : AbstractMetaObjectBaseImpl) :
  className (addOwningClassLoader loader o) = className o /\
  typeidBaseClassName (addOwningClassLoader loader o) = typeidBaseClassName o /\
  getAssociatedLibraryPath (addOwningClassLoader loader o) = getAssociatedLibraryPath o.
Proof. unfold addOwningClassLoader. now destruct (negb _). Qed.

(** The MetaObject [q] is one of [g], it belongs to the library, and it
    was made for the class [k] and the base class [b]. *)
Local Abbreviation revived st g b k q :=
  (In q g /\ exists oq, meta_objects st !! q = Some oq /\
                        getAssociatedLibraryPath oq = library_path /\
                        className oq = k /\ typeidBaseClassName oq = b).

Lemma revive_loop (g : list nat) :
  forall st,
    Forall (fun p => is_Some (meta_objects st !! p)) g ->
    (forall l, loader = Some l -> is_Some (class_loaders st !! l)) ->
    (forall p o, In p g -> meta_objects st !! p = Some o ->
                 getAssociatedLibraryPath o = library_path ->
                 typeidBaseClassName o <> "UNSET") ->
    exists entries heap fmm,
      for_each g (fun obj =>
        o <- read_meta obj ;;
        if String.eqb (getAssociatedLibraryPath o) library_path then
          path <- impl.loaderPathOrNULL loader ;;
          log LogDebug (MsgResurrected (className o) (baseClassName o) obj loader path) ;;;
          write_meta obj (addOwningClassLoader loader o) ;;;
          (if String.eqb (typeidBaseClassName o) "UNSET" then crash AssertionFailed else ret tt) ;;;
          factory <- impl.getFactoryMapForBaseClass (typeidBaseClassName o) ;;
          impl.storeFactoryMap (typeidBaseClassName o) (StdMap.assign (className o) obj factory)
        else ret tt) st
      = Ret tt (set_factory_map_map fmm
                  (set_meta_objects heap (set_console (console st ++ entries) st))) /\
      (forall q, heap !! q =
                 if existsb (Nat.eqb q) (List.filter (associated_with st library_path) g)
                 then addOwningClassLoader loader <$> meta_objects st !! q
                 else meta_objects st !! q) /\
      (forall b fm0 k q0,
          StdMap.find b (factory_map_map st) = Some fm0 -> StdMap.find k fm0 = Some q0 ->
          exists fm q, StdMap.find b fmm = Some fm /\ StdMap.find k fm = Some q /\
                       (q = q0 \/ revived st g b k q)) /\
      (forall p o, In p g -> meta_objects st !! p = Some o ->
                   getAssociatedLibraryPath o = library_path ->
                   exists fm q, StdMap.find (typeidBaseClassName o) fmm = Some fm /\
                                StdMap.find (className o) fm = Some q /\
                                revived st g (typeidBaseClassName o) (className o) q).
Proof.
  induction g as [|p g IH]; intros st Hlive Hloader Hset.
  - exists [], (meta_objects st), (factory_map_map st). cbn. rewrite app_nil_r.
    split; [now destruct st|]. split; [reflexivity|]. split; [eauto 6|]. intros ? ? [].
  - apply Forall_cons_1 in Hlive as [[o Ho] Hlive].
    cbn [for_each]. unfold bind at 1. unfold bind at 1. rewrite (read_meta_at _ _ _ Ho).
    assert (associated_with st library_path p =
              String.eqb (getAssociatedLibraryPath o) library_path) as Hassoc
        by (unfold associated_with; now rewrite Ho).
    cbn [List.filter]. rewrite Hassoc.
    destruct (String.eqb_spec (getAssociatedLibraryPath o) library_path) as [Hpath|Hpath].
    + (* the MetaObject is revived *)
      destruct (loaderPathOrNULL_returns loader st Hloader) as [path Hrun].
      unfold bind at 1. rewrite Hrun. unfold bind at 1. cbn [log modify].
      unfold bind at 1. cbn [write_meta modify]. unfold bind at 1.
      destruct (String.eqb_spec (typeidBaseClassName o) "UNSET") as [Hunset|_];
        [exfalso; exact (Hset p o (or_introl eq_refl) Ho Hpath Hunset)|].
      cbn [ret].
      set (st1 := set_meta_objects _ _).
      assert (exists factory st2,
                 impl.getFactoryMapForBaseClass (typeidBaseClassName o) st1 = Ret factory st2 /\
                 meta_objects st2 = meta_objects st1 /\ console st2 = console st1 /\
                 st2 = set_factory_map_map (factory_map_map st2) st1 /\
                 StdMap.find (typeidBaseClassName o) (factory_map_map st2) = Some factory /\
                 (forall b, b <> typeidBaseClassName o ->
                            StdMap.find b (factory_map_map st2) = StdMap.find b (factory_map_map st)) /\
                 (forall fm0, StdMap.find (typeidBaseClassName o) (factory_map_map st) = Some fm0 ->
                              factory = fm0))
        as (factory & st2 & Hget & Hheap2 & Hcons2 & Hst2 & Hfind2 & Hother2 & Hsame2).
      { unfold impl.getFactoryMapForBaseClass, bind, get.
        change (factory_map_map st1) with (factory_map_map st).
        destruct (StdMap.find (typeidBaseClassName o) (factory_map_map st)) as [fm0|] eqn:E.
        - exists fm0, st1. split; [reflexivity|]. split; [reflexivity|].
          split; [reflexivity|]. split; [reflexivity|]. split; [exact E|].
          split; [reflexivity|]. now intros fm1 [= ->].
        - eexists [], _. split; [reflexivity|]. split; [reflexivity|].
          split; [reflexivity|]. split; [reflexivity|].
          cbn [factory_map_map set_factory_map_map]. split; [apply find_assign_same|].
          split; [|discriminate].
          intros b Hb. apply find_assign_other. congruence. }
      unfold bind at 1. rewrite Hget. unfold impl.storeFactoryMap. cbn [modify].
      set (st3 := set_factory_map_map _ st2).
      assert (meta_objects st3 = <[p := addOwningClassLoader loader o]> (meta_objects st)) as Hheap3
          by (subst st3; cbn; rewrite Hheap2; reflexivity).
      assert (forall q oq, meta_objects st3 !! q = Some oq ->
                exists oq0, meta_objects st !! q = Some oq0 /\
                            className oq = className oq0 /\
                            typeidBaseClassName oq = typeidBaseClassName oq0 /\
                            getAssociatedLibraryPath oq = getAssociatedLibraryPath oq0) as Hnames.
      { intros q oq. rewrite Hheap3. destruct (decide (q = p)) as [->|Hqp].
        - rewrite lookup_insert_eq. intros [= <-]. exists o. split; [assumption|].
          apply names_added.
        - rewrite lookup_insert_ne by congruence. eauto. }
      destruct (IH st3) as (entries & heap & fmm & Hloop & Hheap & Hstable & Hreg).
      { apply List.Forall_forall. intros q Hq. rewrite Hheap3.
        rewrite List.Forall_forall in Hlive. specialize (Hlive q Hq).
        destruct (decide (q = p)) as [->|Hqp];
          [rewrite lookup_insert_eq; eauto|now rewrite lookup_insert_ne by congruence]. }
      { subst st3. cbn. rewrite Hst2. exact Hloader. }
      { intros q oq Hq Hoq Hpq. destruct (Hnames q oq Hoq) as (oq0 & Hoq0 & _ & -> & Hp0).
        apply (Hset q oq0 (or_intror Hq) Hoq0). congruence. }
      unfold impl.storeFactoryMap in Hloop. rewrite Hloop. eexists _, heap, fmm. split.
      { subst st3. rewrite Hst2. subst st1. cbn. rewrite <- app_assoc. reflexivity. }
      assert (forall q, associated_with st3 library_path q = associated_with st library_path q)
        as Hassoc3.
      { intros q. unfold associated_with. rewrite Hheap3.
        destruct (decide (q = p)) as [->|Hqp].
        - rewrite lookup_insert_eq, Ho. now rewrite (proj2 (proj2 (names_added o))).
        - now rewrite lookup_insert_ne by congruence. }
      assert (forall b k q, revived st3 g b k q -> revived st (p :: g) b k q) as Hrev.
      { intros b k q (Hq & oq & Hoq & Hp1 & Hk & Hb).
        split; [now right|]. destruct (Hnames q oq Hoq) as (oq0 & Hoq0 & Hk0 & Hb0 & Hp0).
        exists oq0. repeat split; congruence. }
      assert (StdMap.find (typeidBaseClassName o) (factory_map_map st3) =
                Some (StdMap.assign (className o) p factory)) as Hfind3
          by (subst st3; cbn; apply find_assign_same).
      split; [|split].
      * intros q. rewrite Hheap, Hheap3.
        rewrite (List.filter_ext _ _ Hassoc3). cbn [existsb].
        destruct (Nat.eqb_spec q p) as [->|Hqp]; cbn [orb].
        -- rewrite lookup_insert_eq, Ho. cbn. rewrite addOwningClassLoader_again.
           now destruct (existsb _ _).
        -- now rewrite lookup_insert_ne by congruence.
      * intros b fm0 k q0 Hb Hk.
        destruct (String.eqb_spec b (typeidBaseClassName o)) as [->|Hbo].
        -- rewrite (Hsame2 fm0 Hb) in *.
           destruct (String.eqb_spec k (className o)) as [->|Hko].
           ++ destruct (Hstable _ _ (className o) p Hfind3 (find_assign_same _ _ _))
                as (fm & q & Hfm & Hq & [->|Hq']).
              ** exists fm, p. repeat split; try assumption. right.
                 split; [now left|]. exists o. auto.
              ** exists fm, q. repeat split; try assumption. right. now apply Hrev.
           ++ destruct (Hstable _ _ k q0 Hfind3) as (fm & q & Hfm & Hq & [->|Hq']).
              { rewrite find_assign_other by congruence. exact Hk. }
              ** exists fm, q0. auto.
              ** exists fm, q. repeat split; try assumption. right. now apply Hrev.
        -- destruct (Hstable b fm0 k q0) as (fm & q & Hfm & Hq & [->|Hq']).
           { subst st3. cbn. rewrite find_assign_other by congruence.
             rewrite Hother2 by assumption. exact Hb. }
           { exact Hk. }
           ** exists fm, q0. auto.
           ** exists fm, q. repeat split; try assumption. right. now apply Hrev.
      * intros p' o' [<-|Hp'] Ho' Hpath'.
        -- rewrite Ho in Ho'. injection Ho' as <-.
           destruct (Hstable _ _ (className o) p Hfind3 (find_assign_same _ _ _))
             as (fm & q & Hfm & Hq & [->|Hq']).
           ++ exists fm, p. repeat split; try assumption; [now left|]. exists o. auto.
           ++ exists fm, q. split; [assumption|]. split; [assumption|]. now apply Hrev.
        -- assert (exists o3, meta_objects st3 !! p' = Some o3 /\
                              className o3 = className o' /\
                              typeidBaseClassName o3 = typeidBaseClassName o' /\
                              getAssociatedLibraryPath o3 = getAssociatedLibraryPath o')
             as (o3 & Ho3 & Hk3 & Hb3 & Hp3).
           { rewrite Hheap3. destruct (decide (p' = p)) as [->|Hpp].
             - rewrite lookup_insert_eq. eexists. split; [reflexivity|].
               rewrite Ho in Ho'. injection Ho' as <-. apply names_added.
             - rewrite lookup_insert_ne by congruence. eauto. }
           destruct (Hreg p' o3 Hp' Ho3) as (fm & q & Hfm & Hq & Hq'); [congruence|].
           rewrite Hk3, Hb3 in *. exists fm, q. split; [assumption|]. split; [assumption|].
           now apply Hrev.
    + (* a MetaObject of another library stays in the graveyard *)
      cbn [ret].
      destruct (IH st Hlive Hloader) as (entries & heap & fmm & Hloop & Hheap & Hstable & Hreg).
      { intros q oq Hq. apply Hset. now right. }
      rewrite Hloop. exists entries, heap, fmm. split; [reflexivity|]. split; [exact Hheap|].
      assert (forall b k q, revived st g b k q -> revived st (p :: g) b k q) as Hrev
          by (intros b k q [Hq Hoq]; split; [now right|exact Hoq]).
      split.
      * intros b fm0 k q0 Hb Hk.
        destruct (Hstable b fm0 k q0 Hb Hk) as (fm & q & Hfm & Hq & [->|Hq']); eauto 8.
      * intros p' o' [<-|Hp'] Ho' Hpath'; [congruence|].
        destruct (Hreg p' o' Hp' Ho' Hpath') as (fm & q & Hfm & Hq & Hq'). eauto 8.
Qed.
(** X30.  [revivePreviouslyCreateMetaobjectsFromGraveyard] makes the loader
    an owner of every MetaObject of the library that lies in the
    graveyard, and registers it again in the factory map of its base
    class under its class name: the factory found there is the
    MetaObject itself or another one of the graveyard with the same
    library and names.  Beyond the log it changes nothing else: the
    graveyard keeps its entries, the other MetaObjects are untouched,
    and every class that had a factory still has one. *)
Theorem revive_registers_the_graveyard_again (s : State) :
  Forall (fun p => is_Some (meta_objects s !! p)) (graveyard s) ->
  (forall l, loader = Some l -> is_Some (class_loaders s !! l)) ->
  (forall p o, In p (graveyard s) -> meta_objects s !! p = Some o ->
               getAssociatedLibraryPath o = library_path ->
               typeidBaseClassName o <> "UNSET") ->
  exists entries heap fmm,
    let s' := set_factory_map_map fmm
                (set_meta_objects heap (set_console (console s ++ entries) s)) in
    impl.revivePreviouslyCreateMetaobjectsFromGraveyard library_path loader s = Ret tt s' /\
    (forall p o, In p (graveyard s) -> meta_objects s !! p = Some o ->
                 getAssociatedLibraryPath o = library_path ->
                 owned_by s' loader p = true /\
                 exists fm q oq,
                   StdMap.find (typeidBaseClassName o) fmm = Some fm /\
                   StdMap.find (className o) fm = Some q /\
                   In q (graveyard s) /\ meta_objects s !! q = Some oq /\
                   getAssociatedLibraryPath oq = library_path /\
                   className oq = className o /\
                   typeidBaseClassName oq = typeidBaseClassName o) /\
    (forall p, ~ (In p (graveyard s) /\ associated_with s library_path p = true) ->
               heap !! p = meta_objects s !! p) /\
    (forall b fm0 k q0,
        StdMap.find b (factory_map_map s) = Some fm0 -> StdMap.find k fm0 = Some q0 ->
        exists fm q, StdMap.find b fmm = Some fm /\ StdMap.find k fm = Some q).
Proof.
  intros Hlive Hloader Hset.
  destruct (revive_loop (graveyard s) s Hlive Hloader Hset)
    as (entries & heap & fmm & Hrun & Hheap & Hstable & Hreg).
  exists entries, heap, fmm. cbv zeta.
  split; [unfold impl.revivePreviouslyCreateMetaobjectsFromGraveyard, bind, gets; exact Hrun|].
  assert (forall p, existsb (Nat.eqb p)
                      (List.filter (associated_with s library_path) (graveyard s)) = true <->
                    In p (graveyard s) /\ associated_with s library_path p = true) as Hin
      by (intros p; now rewrite existsb_eqb_nat_In, List.filter_In).
  split; [|split].
  - intros p o Hp Ho Hpath. split.
    + unfold owned_by. cbn [meta_objects set_meta_objects set_factory_map_map]. rewrite Hheap.
      rewrite (proj2 (Hin p)).
      * rewrite Ho. cbn. apply isOwnedBy_added.
      * split; [assumption|]. unfold associated_with. rewrite Ho, Hpath.
        apply String.eqb_refl.
    + destruct (Hreg p o Hp Ho Hpath) as (fm & q & Hfm & Hq & Hgrave & oq & Hoq & H1 & H2 & H3).
      exists fm, q, oq. auto 10.
  - intros p Hp. rewrite Hheap.
    destruct (existsb _ _) eqn:E; [|reflexivity]. apply Hin in E. contradiction.
  - intros b fm0 k q0 Hb Hk. destruct (Hstable b fm0 k q0 Hb Hk) as (fm & q & Hfm & Hq & _).
    eauto.
Qed.
End Graveyard.

Lemma revive_registers_the_graveyard_again_witness :
  exists entries heap fmm,
    let s' := set_factory_map_map fmm
                (set_meta_objects heap
                   (set_console (console libA_unloaded_but_resident ++ entries)
                      libA_unloaded_but_resident)) in
    impl.revivePreviouslyCreateMetaobjectsFromGraveyard "/p/libA" (Some 1%nat)
      libA_unloaded_but_resident = Ret tt s' /\
    (forall p o, In p (graveyard libA_unloaded_but_resident) ->
                 meta_objects libA_unloaded_but_resident !! p = Some o ->
                 AbstractMetaObjectBase.getAssociatedLibraryPath o = "/p/libA" ->
                 owned_by s' (Some 1%nat) p = true /\
                 exists fm q oq,
                   StdMap.find (AbstractMetaObjectBase.typeidBaseClassName o) fmm = Some fm /\
                   StdMap.find (AbstractMetaObjectBase.className o) fm = Some q /\
                   In q (graveyard libA_unloaded_but_resident) /\
                   meta_objects libA_unloaded_but_resident !! q = Some oq /\
                   AbstractMetaObjectBase.getAssociatedLibraryPath oq = "/p/libA" /\
                   AbstractMetaObjectBase.className oq = AbstractMetaObjectBase.className o /\
                   AbstractMetaObjectBase.typeidBaseClassName oq =
                     AbstractMetaObjectBase.typeidBaseClassName o) /\
    (forall p, ~ (In p (graveyard libA_unloaded_but_resident) /\
                  associated_with libA_unloaded_but_resident "/p/libA" p = true) ->
               heap !! p = meta_objects libA_unloaded_but_resident !! p) /\
    (forall b fm0 k q0,
        StdMap.find b (factory_map_map libA_unloaded_but_resident) = Some fm0 ->
        StdMap.find k fm0 = Some q0 ->
        exists fm q, StdMap.find b fmm = Some fm /\ StdMap.find k fm = Some q).
Proof.
  apply (revive_registers_the_graveyard_again "/p/libA" (Some 1%nat)
           libA_unloaded_but_resident).
  - replace (graveyard libA_unloaded_but_resident) with [2%nat] by (vm_compute; reflexivity).
    repeat constructor. eexists. vm_compute. reflexivity.
  - intros l [= <-]. eexists. vm_compute. reflexivity.
  - replace (graveyard libA_unloaded_but_resident) with [2%nat] by (vm_compute; reflexivity).
    intros p o [<-|[]].
    replace (meta_objects libA_unloaded_but_resident !! 2%nat)
      with (Some {| associated_class_loaders_ := [];
                    associated_library_path_ := "/p/libA";
                    base_class_name_ := "Base";
                    class_name_ := "Foo";
                    typeid_base_class_name_ := typeid_Base |})
      by (vm_compute; reflexivity).
    intros [= <-] _. discriminate.
Defined.
